(** * AutoML: the evolutionary search core, embedded from the Python sources

    Pipeline/Learner/Models/abstractModel.py
    Pipeline/Learner/Models/EvolutionaryModel/model_creation.py
    Pipeline/Learner/Models/EvolutionaryModel/population.py
    Pipeline/Learner/Models/EvolutionaryModel/evolutionaryModel.py
    Pipeline/Learner/Models/SpecializedModels/randomForestModel.py

    Python objects become records, dictionaries become [gmap]s keyed by
    strings, exceptions become the [Raise] branch of a result type, and the
    two sources of nondeterminism (the [random] module and the wall clock)
    become explicit inputs.  The floats of randomForestModel.py that the
    code computes with or tests (the clock readings, the time budget, the
    validation fraction) are binary64 values with their rounding, their
    infinities and their NaN ([Float64]).  The scores, which are only
    compared, and the numbers of the search space in model_creation.py
    are the rationals they denote. *)

From Stdlib Require Import QArith Qround Qabs Qpower Lqa.
From stdpp Require Import gmap strings list fin_maps.

Local Open Scope Z_scope.

(** ** Floats *)

(** [a < b] on rationals, as a boolean. *)
Definition Qltb (a b : Q) : bool := negb (Qle_bool b a).

(** Python's [float] is IEEE 754 binary64.  A float is a NaN, an infinity
    or a finite value; the finite values are the rationals [m * 2 ^ e] with
    [|m| < 2 ^ 53], [-1074 <= e] and a magnitude below [2 ^ 1024].  An
    operation gives the exact result rounded to the nearest float, to the
    even one of two that are as near, and an infinity from [2 ^ 1024] on.
    The sign of a zero is not kept: no operation of the code tells the two
    zeros apart. *)
Module Float64.

Inductive float : Type :=
| NaN
| Inf (negative : bool)
| Fin (q : Q).

(** [floor (log2 |q|)], for [q] other than zero. *)
Definition ilog2 (q : Q) : Z :=
  let l := Z.log2 (Z.abs (Qnum q)) - Z.log2 (Z.pos (Qden q)) in
  if Qltb (Qabs q) (2 ^ l) then l - 1 else l.

(** The integer nearest to [q], the even one of two that are as near. *)
Definition nearest_even (q : Q) : Z :=
  let f := Qfloor q in
  match (q - inject_Z f ?= 1 # 2)%Q with
  | Lt => f
  | Gt => f + 1
  | Eq => if Z.even f then f else f + 1
  end.

(** The float nearest to a rational: the last place of the significand
    has the exponent [e], which is [-1074] for the subnormal numbers. *)
Definition round (q : Q) : float :=
  if Qeq_bool q 0 then Fin 0
  else
    let e := Z.max (ilog2 q - 52) (-1074) in
    let v := (inject_Z (nearest_even (q / 2 ^ e)) * 2 ^ e)%Q in
    if Qle_bool (2 ^ 1024) (Qabs v) then Inf (Qltb q 0) else Fin (Qred v).

Definition is_zero (x : float) : bool :=
  match x with
  | Fin q => Qeq_bool q 0
  | _ => false
  end.

Definition opp (x : float) : float :=
  match x with
  | NaN => NaN
  | Inf negative => Inf (negb negative)
  | Fin q => Fin (- q)
  end.

Definition add (x y : float) : float :=
  match x, y with
  | NaN, _ | _, NaN => NaN
  | Inf a, Inf b => if Bool.eqb a b then Inf a else NaN
  | Inf a, Fin _ => Inf a
  | Fin _, Inf b => Inf b
  | Fin a, Fin b => round (a + b)
  end.

Definition sub (x y : float) : float := add x (opp y).

Definition mul (x y : float) : float :=
  match x, y with
  | NaN, _ | _, NaN => NaN
  | Inf a, Inf b => Inf (xorb a b)
  | Inf a, Fin b | Fin b, Inf a =>
      if Qeq_bool b 0 then NaN else Inf (xorb a (Qltb b 0))
  | Fin a, Fin b => round (a * b)
  end.

(** The quotient by a divisor other than zero; Python raises before it
    divides by zero. *)
Definition div (x y : float) : float :=
  match x, y with
  | NaN, _ | _, NaN => NaN
  | Inf _, Inf _ => NaN
  | Inf a, Fin b => Inf (xorb a (Qltb b 0))
  | Fin _, Inf _ => Fin 0
  | Fin a, Fin b => round (a / b)
  end.

(** [x < y] and [x <= y]: every comparison with a NaN is false.  Python
    compares a float with an int exactly, so [Fin (inject_Z n)] stands for
    the int [n] in a comparison. *)
Definition ltb (x y : float) : bool :=
  match x, y with
  | NaN, _ | _, NaN => false
  | _, Inf true => false
  | Inf true, _ => true
  | Inf false, _ => false
  | Fin _, Inf false => true
  | Fin a, Fin b => Qltb a b
  end.

Definition leb (x y : float) : bool :=
  match x, y with
  | NaN, _ | _, NaN => false
  | Inf true, _ => true
  | _, Inf true => false
  | _, Inf false => true
  | Inf false, Fin _ => false
  | Fin a, Fin b => Qle_bool a b
  end.

(** Truncation toward zero. *)
Definition trunc (q : Q) : Z := Z.quot (Qnum q) (Z.pos (Qden q)).


End Float64.
Export Float64 (float, NaN, Inf, Fin).

(** ** Python values, exceptions, and the effect monads *)

Module Py.

(** Dictionary-free Python values: what configuration entries hold. *)
#[local] Unset Elimination Schemes.
Inductive pyval : Type :=
| PNone
| PInt (z : Z)
| PFloat (q : Q)
| PStr (s : string)
| PList (l : list pyval).
#[local] Set Elimination Schemes.

(** A configuration entry is a plain value or a nested dictionary of plain
    values (the configuration files nest one level). *)
Inductive entry : Type :=
| Val (v : pyval)
| Dict (d : gmap string pyval).

(** Python values as attributes and serialized dictionaries hold them;
    dictionaries are keyed by strings. *)
#[local] Unset Elimination Schemes.
Inductive value : Type :=
| VNone
| VInt (z : Z)
| VFloat (x : float)
| VStr (s : string)
| VList (l : list value)
| VBytes (b : list Byte.byte)
| VDict (d : gmap string value).
#[local] Set Elimination Schemes.

(** An attribute of an object: absent until it is first assigned. *)
Inductive attr (A : Type) : Type :=
| Unset
| Assigned (a : A).
Arguments Unset {A}.
Arguments Assigned {A} a.

(** Exceptions.  [OutOfFuel] is not a Python exception: it marks a run of a
    [while] loop that the embedding cut off at its iteration bound. *)
Inductive exn : Type :=
| TypeError
| IndexError
| KeyError
| ValueError
| AttributeError
| ZeroDivisionError
| OverflowError
| RandomForestModelException (msg : string)
| EvolutionaryModelException (msg : string)
| NotEvaluatedError
| UnknownModelTypeError
| OutOfFuel.

Inductive result (A : Type) : Type :=
| Ok (a : A)
| Raise (e : exn).
Arguments Ok {A} a.
Arguments Raise {A} e.

(** [dict.get(key, default)] *)
Definition get {V} (d : gmap string V) (key : string) (default : V) : V :=
  match d !! key with
  | Some v => v
  | None => default
  end.

(** Effectful code: a state and exception monad.  An exception leaves the
    state as it was when it was raised. *)
Definition ST (S A : Type) : Type := S -> result A * S.

Definition ret {S A} (a : A) : ST S A := fun s => (Ok a, s).
Definition raise {S A} (e : exn) : ST S A := fun s => (Raise e, s).
Definition bind {S A B} (m : ST S A) (k : A -> ST S B) : ST S B :=
  fun s => match m s with
           | (Ok a, s') => k a s'
           | (Raise e, s') => (Raise e, s')
           end.
Definition lift {S A} (r : result A) : ST S A := fun s => (r, s).
Definition read {S} : ST S S := fun s => (Ok s, s).
Definition write {S} (s : S) : ST S unit := fun _ => (Ok tt, s).

(** Running an effect on one component of a pair of states. *)
Definition on_fst {S T A} (m : ST S A) : ST (S * T) A :=
  fun st => let '(r, s) := m (fst st) in (r, (s, snd st)).
Definition on_snd {S T A} (m : ST T A) : ST (S * T) A :=
  fun st => let '(r, t) := m (snd st) in (r, (fst st, t)).

(** Reading an attribute that was never assigned is an [AttributeError]. *)
Definition getattr {A} (a : attr A) : result A :=
  match a with
  | Assigned x => Ok x
  | Unset => Raise AttributeError
  end.

(** [d.get(key)] on a value: only dictionaries have the method; a missing
    key gives [None]. *)
Definition dict_get (d : value) (key : string) : result value :=
  match d with
  | VDict m => Ok (get m key VNone)
  | _ => Raise AttributeError
  end.

(** [d.get(key, default)] on a value. *)
Definition dict_get_default (d : value) (key : string) (default : value)
  : result value :=
  match d with
  | VDict m => Ok (get m key default)
  | _ => Raise AttributeError
  end.

(** The state of the [random] module: an infinite tape of raw draws and
    the position of the next unread one. *)
Record rng : Type := { tape : nat -> N; pos : nat }.

Definition M (A : Type) : Type := ST rng A.

(** One raw draw. *)
Definition draw : M N :=
  fun g => (Ok (tape g (pos g)), {| tape := tape g; pos := S (pos g) |}).

End Py.
Import Py.

Notation "'do' x <- m ; k" := (Py.bind m (fun x => k))
  (at level 10, x name, m at level 100, k at level 200).
Notation "'try' x <- r ; k" :=
  (match r with Ok x => k | Raise e => Raise e end)
  (at level 10, x name, r at level 100, k at level 200).

Module Random.

(** [random._randbelow(n)] for [n > 0]. *)
Definition randbelow (n : nat) : M nat :=
  do r <- draw; ret (N.to_nat r mod n)%nat.

(** [random.random()]: a multiple of 2^-53 in [0, 1). *)
Definition random : M Q :=
  do r <- draw; ret (Z.of_N (r mod 2 ^ 53)%N # 2 ^ 53).

(** [random.uniform(a, b)] *)
Definition uniform (a b : Q) : M Q :=
  do u <- random; ret (a + (b - a) * u)%Q.

(** [random.randint(a, b)]: [ValueError] on an empty range. *)
Definition randint (a b : Z) : M Z :=
  if b <? a then raise ValueError
  else do r <- randbelow (Z.to_nat (b - a + 1)); ret (a + Z.of_nat r).

(** [random.randrange(n)] *)
Definition randrange (n : Z) : M Z :=
  if n <=? 0 then raise ValueError
  else do r <- randbelow (Z.to_nat n); ret (Z.of_nat r).

(** [random.choice] on the elements of a sequence: [IndexError] when
    there is none. *)
Definition choice_list {A} (l : list A) : M A :=
  match l with
  | [] => raise IndexError
  | _ :: _ =>
      do i <- randbelow (length l);
      match l !! i with
      | Some x => ret x
      | None => raise IndexError
      end
  end.

(** The characters of a string, each as a one-character string. *)
Fixpoint chars (s : string) : list pyval :=
  match s with
  | EmptyString => []
  | String c s' => PStr (String c EmptyString) :: chars s'
  end.

(** [random.choice(seq)] on a Python value: lists and strings are
    sequences, the other values have no [len()]. *)
Definition choice (v : pyval) : M pyval :=
  match v with
  | PList l => choice_list l
  | PStr s => choice_list (chars s)
  | _ => raise TypeError
  end.

(** [random.choice] applied to a configuration entry; subscripting a
    dictionary by position is a [KeyError]. *)
Definition choice_entry (e : entry) : M pyval :=
  match e with
  | Val v => choice v
  | Dict d => if decide (d = ∅) then raise IndexError else raise KeyError
  end.

End Random.

(** ** Constants of the package *)

Module Constants.

(** Modelled from the spec: the task tags of [Models/constants.py], which is
    not among the sources.  The spec names the two task kinds
    classification and regression. *)
Definition CLASSIFICATION : string := "classification".

(** Modelled from the spec: the other task tag of [Models/constants.py]. *)
Definition REGRESSION : string := "regression".

(** Modelled from the spec: the list of the task tags, also from
    [Models/constants.py]. *)
Definition AVAILABLE_TASKS : list string := [CLASSIFICATION; REGRESSION].

(** Modelled from the spec: the registered type tags of [modelTypes.py],
    which is not among the sources; one tag per backend. *)
Definition EVOLUTIONARY_MODEL : string := "evolutionary".

(** Modelled from the spec: the type tag of the random forest backend, also
    from [modelTypes.py]. *)
Definition RANDOM_FOREST_MODEL : string := "random_forest".

End Constants.
Import Constants.

(** ** model_creation.py *)

Module model_creation.
Import Random.

(** Modelled from the spec: [DeepLearningModel] is not among the sources;
    its constructor is taken to store its arguments, giving an untrained
    candidate that owns its configuration. *)
Record DeepLearningModel : Type := {
  dl_in_size : Z;
  dl_out_size : Z;
  dl_task : string;
  dl_config : gmap string entry
}.

(** [v == s] for a string literal [s]. *)
Definition eq_str (v : pyval) (s : string) : bool :=
  match v with
  | PStr s' => String.eqb s' s
  | _ => false
  end.

(** A number usable in float arithmetic. *)
Definition as_number (v : pyval) : result Q :=
  match v with
  | PInt z => Ok (inject_Z z)
  | PFloat q => Ok q
  | _ => Raise TypeError
  end.

(** The integer a bound of [randrange] stands for: [int(v)], which must
    be equal to [v].  So random.py has it up to Python 3.11: a float
    without a fraction is taken as its integer, a float with a fraction and
    a string are a [ValueError], and [None] and a list have no [int]. *)
Definition as_int (v : pyval) : result Z :=
  match v with
  | PInt z => Ok z
  | PFloat q =>
      if Qeq_bool (inject_Z (Qfloor q)) q then Ok (Qfloor q)
      else Raise ValueError
  | PStr _ => Raise ValueError
  | _ => Raise TypeError
  end.

(** [v + 1] for the literal [1]. *)
Definition plus_one (v : pyval) : result pyval :=
  match v with
  | PInt z => Ok (PInt (z + 1))
  | PFloat q => Ok (PFloat (q + 1))
  | _ => Raise TypeError
  end.

(** [max(v, 1)]: the first argument unless [1 > v]. *)
Definition max_one (v : pyval) : result pyval :=
  match v with
  | PInt z => Ok (if z <? 1 then PInt 1 else v)
  | PFloat q => Ok (if Qltb q 1 then PInt 1 else v)
  | _ => Raise TypeError
  end.

(** [randint(a, b)] on values: [randrange(a, b + 1)], which converts its
    start and then its stop. *)
Definition randint_ (a b : pyval) : M Z :=
  do stop <- lift (plus_one b);
  do istart <- lift (as_int a);
  do istop <- lift (as_int stop);
  randint istart (istop - 1).

(** [v[i]] for a non-negative literal index [i]. *)
Definition subscript (v : pyval) (i : nat) : result pyval :=
  match v with
  | PList l =>
      match l !! i with
      | Some x => Ok x
      | None => Raise IndexError
      end
  | PStr s =>
      match chars s !! i with
      | Some x => Ok x
      | None => Raise IndexError
      end
  | _ => Raise TypeError
  end.

(** [len(v)] *)
Definition len (v : pyval) : result nat :=
  match v with
  | PList l => Ok (length l)
  | PStr s => Ok (String.length s)
  | _ => Raise TypeError
  end.

(** [uniform( *v )]: the argument list must unpack to two numbers. *)
Definition uniform_star (v : pyval) : M Q :=
  match v with
  | PList [a; b] =>
      do x <- lift (as_number a);
      do y <- lift (as_number b);
      uniform x y
  | _ => raise TypeError
  end.

(** [[m for i in range(n)]] *)
Fixpoint comprehension {A} (n : nat) (m : M A) : M (list A) :=
  match n with
  | O => ret []
  | S n' => do x <- m; do xs <- comprehension n' m; ret (x :: xs)
  end.

(** [l[-1] = x] *)
Definition set_last {A} (l : list A) (x : A) : result (list A) :=
  match l with
  | [] => Raise IndexError
  | _ :: _ => Ok (<[pred (length l) := x]> l)
  end.

Definition default_activations : pyval :=
  PList [PStr "sigmoid"; PStr "relu"; PStr "linear"].

Definition create_deep_learning_model (in_size out_size : Z)
    (config : gmap string pyval) (task : string) (criterion : entry)
  : M DeepLearningModel :=
  do optimizer <- choice (get config "OPTIMIZER_CHOICE" (PList [PStr "Adam"; PStr "SGD"]));
  do learning_rate <-
    uniform_star (get config "LEARNING_RATE_RANGE" (PList [PFloat (1 # 1000000); PInt 1]));
  do momentum <- uniform_star (get config "MOMENTUM_RANGE" (PList [PInt 0; PInt 1]));
  do layer_choice <-
    choice (get config "HIDDEN_LAYERS_CHOICES"
              (PList [PStr "smooth"; PList [PInt 10; PInt 512; PInt 6]]));
  do layers <-
    match layer_choice with
    | PStr _ => ret (PStr "smooth")
    | _ =>
        do c2 <- lift (subscript layer_choice 2);
        do top <- lift (max_one c2);
        do layer_count <- randint_ (PInt 1) top;
        do widths <-
          comprehension (Z.to_nat layer_count)
            (do c0 <- lift (subscript layer_choice 0);
             do c1 <- lift (subscript layer_choice 1);
             do w <- randint_ c0 c1;
             ret (PInt w));
        ret (PList widths)
    end;
  do activation_choice <- choice (PList [PStr "uniform"; PStr "list"]);
  do activation <-
    if eq_str activation_choice "uniform" || eq_str layers "smooth" then
      do a <- choice (get config "ACTIVATION_CHOICES" default_activations);
      choice a
    else
      do n <- lift (len layers);
      do acts <-
        comprehension (n + 1)
          (choice (get config "ACTIVATION_CHOICES" default_activations));
      ret (PList acts);
  do activation <-
    if String.eqb task CLASSIFICATION then
      match activation with
      | PStr _ => ret (PStr "sigmoid")
      | PList l => do l' <- lift (set_last l (PStr "sigmoid")); ret (PList l')
      | _ => raise TypeError
      end
    else ret activation;
  do dropout <- uniform_star (get config "DROPOUT_RANGE" (PList [PInt 0; PInt 1]));
  let model_config : gmap string entry :=
    <["CRITERION" := criterion]>
    (<["OPTIMIZER" := Val optimizer]>
    (<["LEARNING_RATE" := Val (PFloat learning_rate)]>
    (<["MOMENTUM" := Val (PFloat momentum)]>
    (<["HIDDEN_LAYERS" := Val layers]>
    (<["ACTIVATIONS" := Val activation]>
    (<["DROPOUT" := Val (PFloat dropout)]> ∅)))))) in
  ret {| dl_in_size := in_size; dl_out_size := out_size;
         dl_task := task; dl_config := model_config |}.

(** The function returns a model only on the ["neural_network"] branch; on
    every other branch control falls off its end, which in Python returns
    [None].  Calling [.get] on a sub-configuration that is not a dictionary
    is an [AttributeError]. *)
Definition create_random_model (in_size out_size : Z)
    (config : gmap string entry) (task : string)
  : M (option DeepLearningModel) :=
  do model_type <- choice_entry (get config "MODELS" (Val (PList [PStr "neural_network"])));
  let criterion := get config "GENERAL_CRITERION" (Val (PStr "MSE")) in
  if eq_str model_type "neural_network" then
    match get config "NEURAL_NETWORK_EVOL_CONFIG" (Dict ∅) with
    | Dict d =>
        do m <- create_deep_learning_model in_size out_size d task criterion;
        ret (Some m)
    | Val _ => raise AttributeError
    end
  else if eq_str model_type "some_future_type" then ret None
  else ret None.

(** The activation of the last layer of an [ACTIVATIONS] value: the value
    itself when one activation applies network-wide, the last element of a
    per-layer list. *)
Definition final_activation (cfg : gmap string entry) : option pyval :=
  match cfg !! "ACTIVATIONS" with
  | Some (Val (PStr s)) => Some (PStr s)
  | Some (Val (PList l)) => last l
  | _ => None
  end.

End model_creation.

(** ** chromosome.py *)

Module chromosome.
Section Chromosome.
Context {Model : Type}.

(** Modelled from the spec: [chromosome.py] is not among the sources.  A
    chromosome wraps one candidate and caches its fitness, which is absent
    until the chromosome is evaluated. *)
Record Chromosome : Type := {
  _model : Model;
  _fitness : option Q
}.

(** Modelled from the spec: the constructor [Chromosome(model)] of the
    absent [chromosome.py]; a fresh chromosome has no cached fitness. *)
Definition new (model : Model) : Chromosome :=
  {| _model := model; _fitness := None |}.

(** Modelled from the spec: [get_fitness] of the absent [chromosome.py]
    returns the last computed score and fails if there is none. *)
Definition get_fitness (c : Chromosome) : result Q :=
  match _fitness c with
  | Some f => Ok f
  | None => Raise NotEvaluatedError
  end.

(** Modelled from the spec: [get_model] of the absent [chromosome.py]
    returns the wrapped candidate. *)
Definition get_model (c : Chromosome) : Model := _model c.

(** Training a candidate on the data at hand and scoring it: the work of
    the model backends, taken as given. *)
Variable evaluate : Model -> result (Model * Q).

(** Modelled from the spec: [eval] of the absent [chromosome.py]; if the
    fitness is not cached it trains the candidate and records the score;
    it returns the score. *)
Definition eval (c : Chromosome) : result (Chromosome * Q) :=
  match _fitness c with
  | Some f => Ok (c, f)
  | None =>
      try r <- evaluate (_model c);
      Ok ({| _model := fst r; _fitness := Some (snd r) |}, snd r)
  end.

End Chromosome.
Arguments Chromosome Model : clear implicits.
End chromosome.

(** ** population.py *)

Module population.
Import chromosome.

(** [Population._is_fitter] as it stands in the source: the body is a
    docstring, so a call returns [None], which a condition reads as false. *)
Definition _is_fitter_stub (actual_fitness best_fitness : Q) : bool := false.

(** [Population._random_model] as it stands in the source: the body is a
    docstring, so a call returns [None]. *)
Definition _random_model_stub {A} (config : option (gmap string entry))
  : M (option A) := ret None.

Section Population.
Context {Model : Type}.

(** The source leaves the bodies of [_random_model] and [_is_fitter] to be
    written; the methods that call them are embedded over them. *)
Variable _random_model : option (gmap string entry) -> M Model.
Variable _is_fitter : Q -> Q -> bool.
Variable evaluate : Model -> result (Model * Q).

Record Population : Type := {
  _config : gmap string entry;
  _population_size : Z;
  _population : list (Chromosome Model);
  _best_model : option Model;
  _fitness : option Q
}.

Definition set_population (self : Population) (p : list (Chromosome Model))
  : Population :=
  {| _config := _config self; _population_size := _population_size self;
     _population := p; _best_model := _best_model self;
     _fitness := _fitness self |}.

(** The loop of [_create_population]: one random model and one chromosome
    per index of [range(population_size)], appended in order. *)
Fixpoint create_loop (n : nat) (config : option (gmap string entry))
    (population : list (Chromosome Model)) : M (list (Chromosome Model)) :=
  match n with
  | O => ret population
  | S n' =>
      do model <- _random_model config;
      let chromosome := chromosome.new model in
      create_loop n' config (population ++ [chromosome])
  end.

Definition _create_population (population_size : Z)
    (config : option (gmap string entry)) : M (list (Chromosome Model)) :=
  create_loop (Z.to_nat population_size) config [].

(** [Population.__init__]; it calls [_create_population] without a
    configuration. *)
Definition __init__ (population_size : Z) (config : option (gmap string entry))
  : M Population :=
  let config := match config with None => ∅ | Some c => c end in
  do population <- _create_population population_size None;
  ret {| _config := config; _population_size := population_size;
         _population := population; _best_model := None; _fitness := None |}.

(** The loop of [eval]: the chromosomes are evaluated in order and each
    keeps its score, also when a later evaluation raises; [best] and
    [best_fitness] are the loop's locals. *)
Fixpoint eval_loop (todo : list (Chromosome Model)) (i : nat)
    (best : option Model) (best_fitness : option Q)
  : ST Population (option Model) :=
  match todo with
  | [] => ret best
  | chromosome :: rest =>
      do r <- lift (chromosome.eval evaluate chromosome);
      let chromosome := fst r in
      let chromosome_fitness := snd r in
      do self <- read;
      do _ <- write (set_population self (<[i := chromosome]> (_population self)));
      if match best_fitness with
         | None => true
         | Some b => _is_fitter chromosome_fitness b
         end
      then eval_loop rest (S i) (Some (get_model chromosome))
             (Some chromosome_fitness)
      else eval_loop rest (S i) best best_fitness
  end.

Definition eval : ST Population (option Model) :=
  do self <- read;
  eval_loop (_population self) 0 None None.

(** The loop of [get_best]. *)
Fixpoint best_loop (todo : list (Chromosome Model))
    (best : option Model) (best_fitness : option Q) : result (option Model) :=
  match todo with
  | [] => Ok best
  | chromosome :: rest =>
      try chromosome_fitness <- get_fitness chromosome;
      if match best_fitness with
         | None => true
         | Some b => _is_fitter chromosome_fitness b
         end
      then best_loop rest (Some (get_model chromosome)) (Some chromosome_fitness)
      else best_loop rest best best_fitness
  end.

Definition get_best : ST Population (option Model) :=
  do self <- read;
  lift (best_loop (_population self) None None).

(** The loop of [replace]: [i] runs over the positions, [worst_fitness] and
    [worst_position] are the loop's locals. *)
Fixpoint worst_loop (todo : list (Chromosome Model)) (i : nat)
    (worst_fitness : option Q) (worst_position : option nat)
  : result (option nat) :=
  match todo with
  | [] => Ok worst_position
  | chromosome :: rest =>
      try chromosome_fitness <- get_fitness chromosome;
      if match worst_fitness with
         | None => true
         | Some w => _is_fitter w chromosome_fitness
         end
      then worst_loop rest (S i) (Some chromosome_fitness) (Some i)
      else worst_loop rest (S i) worst_fitness worst_position
  end.

(** [replace] wraps the incoming model in a new chromosome and stores it at
    the position found by the loop.  On an empty population the position is
    still [None], and indexing a list by [None] is a [TypeError].  The
    method returns the population list it has updated. *)
Definition replace (model : Model)
  : ST Population (list (Chromosome Model)) :=
  do self <- read;
  do worst_position <- lift (worst_loop (_population self) 0 None None);
  let new_chromosome := chromosome.new model in
  match worst_position with
  | None => raise TypeError
  | Some p =>
      let population := <[p := new_chromosome]> (_population self) in
      do _ <- write (set_population self population);
      ret population
  end.

(** The calls a client makes on a seeded population. *)
Inductive call : Type :=
| CallEval
| CallGetBest
| CallReplace (model : Model).

(** The population after one call, whether the call returned or raised. *)
Definition after (self : Population) (c : call) : Population :=
  match c with
  | CallEval => snd (eval self)
  | CallGetBest => snd (get_best self)
  | CallReplace model => snd (replace model self)
  end.

Definition after_all (self : Population) (cs : list call) : Population :=
  fold_left after cs self.

End Population.
End population.

(** ** The collaborators: pandas, scikit-learn, pickle *)

Module external.

(** The keyword arguments the source passes to a forest constructor. *)
Record forest_params : Type := {
  n_estimators : value;
  criterion : value;
  min_samples_split : value;
  bootstrap : bool;
  max_features : value;
  n_jobs : Z;
  random_state : Z;
  ccp_alpha : Q
}.

(** What the models consume from the libraries they are built on.  None of
    it is specified here; the embedding is parametric in it. *)
Class Collaborators : Type := {
  DataFrame : Type;
  ndarray : Type;
  estimator : Type;
  to_numpy : DataFrame -> ndarray;
  columns : DataFrame -> list string;
  new_DataFrame : ndarray -> value -> result DataFrame;
  ravel : ndarray -> ndarray;
  train_test_split :
    ndarray -> ndarray -> float -> Z ->
    result (ndarray * ndarray * ndarray * ndarray);
  RandomForestClassifier : forest_params -> estimator;
  RandomForestRegressor : forest_params -> estimator;
  fit : estimator -> ndarray -> ndarray -> result estimator;
  score : estimator -> ndarray -> ndarray -> result Q;
  estimator_predict : estimator -> ndarray -> result ndarray;
  pickle_dumps : option estimator -> list Byte.byte;
  pickle_loads : list Byte.byte -> result (option estimator);
  (* [time.localtime(t).tm_mday] *)
  localtime : float -> result Z;
  (* [AbstractModel._determine_task_type], which the sources call but do
     not contain. *)
  _determine_task_type : DataFrame -> result value
}.

(** The environment of a training run: the random generator and the wall
    clock, the latter as the sequence of the times at which [time.time()]
    is called. *)
Record world : Type := {
  rand : rng;
  clock : nat -> Q;
  ticks : nat
}.

Definition with_rng {A} (m : M A) : ST world A :=
  fun w => let '(r, g) := m (rand w) in
           (r, {| rand := g; clock := clock w; ticks := ticks w |}).

(** [time.time()]: the time of the call, as a float. *)
Definition time_time : ST world float :=
  fun w => (Ok (Float64.round (clock w (ticks w))),
            {| rand := rand w; clock := clock w; ticks := S (ticks w) |}).

End external.
Import external.

(** ** abstractModel.py *)

Module abstractModel.

(** The abstract methods every model implements, apart from [train], whose
    environment differs from model to model. *)
Class AbstractModel `{Collaborators} (T : Type) : Type := {
  predict : T -> DataFrame -> result DataFrame;
  to_dict : T -> value;
  model_type : T -> string
}.

(** [__call__]: calling a model predicts. *)
Definition __call__ `{Collaborators} {T} `{!AbstractModel T}
    (self : T) (X : DataFrame) : result DataFrame :=
  predict self X.

End abstractModel.

(** ** randomForestModel.py *)

Module randomForestModel.
Section RandomForestModel.
Context `{Collaborators}.

Record RandomForestModel : Type := {
  _task : value;
  _config : value;
  _predicted_name : value;
  _criterion : attr value;
  _model : option estimator;
  _model_score : attr (option Q)
}.

Definition set_task (self : RandomForestModel) (v : value) :=
  {| _task := v; _config := _config self;
     _predicted_name := _predicted_name self; _criterion := _criterion self;
     _model := _model self; _model_score := _model_score self |}.
Definition set_predicted_name (self : RandomForestModel) (v : value) :=
  {| _task := _task self; _config := _config self;
     _predicted_name := v; _criterion := _criterion self;
     _model := _model self; _model_score := _model_score self |}.
Definition set_criterion (self : RandomForestModel) (v : value) :=
  {| _task := _task self; _config := _config self;
     _predicted_name := _predicted_name self; _criterion := Assigned v;
     _model := _model self; _model_score := _model_score self |}.
Definition set_best (self : RandomForestModel) (s : Q) (m : estimator) :=
  {| _task := _task self; _config := _config self;
     _predicted_name := _predicted_name self; _criterion := _criterion self;
     _model := Some m; _model_score := Assigned (Some s) |}.

(** [v == s] for a string constant [s]. *)
Definition eq_str (v : value) (s : string) : bool :=
  match v with
  | VStr s' => String.eqb s' s
  | _ => false
  end.

(** [v in AVAILABLE_TASKS] *)
Definition in_available_tasks (v : value) : bool :=
  existsb (eq_str v) AVAILABLE_TASKS.

Definition is_none (v : value) : bool :=
  match v with VNone => true | _ => false end.

(** [_init_from_dictionary]: the attributes are assigned in the order of
    the source; [_criterion] and [_model_score] are not assigned. *)
Definition _init_from_dictionary (dictionary : gmap string value)
  : result RandomForestModel :=
  let data := get dictionary "MODEL_DATA" VNone in
  try mdata <- dict_get data "METADATA";
  try model <- dict_get data "MODEL";
  try predicted_name <- dict_get mdata "PREDICTED_NAME";
  try config <- dict_get mdata "CONFIG";
  try task <- dict_get mdata "TASK";
  try loaded <-
    match model with
    | VBytes b => pickle_loads b
    | _ => Raise TypeError
    end;
  Ok {| _task := task; _config := config; _predicted_name := predicted_name;
        _criterion := Unset; _model := loaded;
        _model_score := Unset |}.

(** [__init__]: a dictionary argument routes to [_init_from_dictionary]. *)
Definition __init__ (task config predicted_name dictionary : value)
  : result RandomForestModel :=
  match dictionary with
  | VDict d => _init_from_dictionary d
  | _ =>
      Ok {| _task := task; _config := config;
            _predicted_name := predicted_name; _criterion := Assigned (VStr "");
            _model := None; _model_score := Assigned None |}
  end.

Definition model_type (self : RandomForestModel) : string :=
  RANDOM_FOREST_MODEL.

Definition predict (X : DataFrame) : ST RandomForestModel DataFrame :=
  do self <- read;
  match _model self with
  | None => raise (RandomForestModelException "Could not call predict before train.")
  | Some model =>
      let data := to_numpy X in
      do pred <- lift (estimator_predict model data);
      lift (new_DataFrame pred (_predicted_name self))
  end.

Definition to_dict (self : RandomForestModel) : value :=
  let model := VBytes (pickle_dumps (_model self)) in
  let data : gmap string value :=
    <["MODEL" := model]>
    (<["METADATA" :=
         VDict (<["PREDICTED_NAME" := _predicted_name self]>
               (<["CONFIG" := _config self]>
               (<["TASK" := _task self]> ∅)))]> ∅) in
  VDict (<["MODEL_TYPE" := VStr (model_type self)]>
        (<["MODEL_DATA" := VDict data]> ∅)).

(** *** The time budget of [train] *)

(** [int(x)] on a float: truncation toward zero; an infinity is an
    [OverflowError] and a NaN a [ValueError]. *)
Definition int_ (x : float) : result Z :=
  match x with
  | Fin q => Ok (Float64.trunc q)
  | Inf _ => Raise OverflowError
  | NaN => Raise ValueError
  end.

(** An int as an operand of float arithmetic: it is converted to the
    nearest float, and beyond the range of the floats the conversion is an
    [OverflowError]. *)
Definition of_int (n : Z) : result float :=
  match Float64.round (inject_Z n) with
  | Inf _ => Raise OverflowError
  | x => Ok x
  end.

(** Float division: a zero divisor is a [ZeroDivisionError]. *)
Definition div (a b : float) : result float :=
  if Float64.is_zero b then Raise ZeroDivisionError
  else Ok (Float64.div a b).

(** [x + v] for a float [x] and an argument [v] of the caller. *)
Definition add_number (x : float) (v : value) : result float :=
  match v with
  | VInt n => try y <- of_int n; Ok (Float64.add x y)
  | VFloat y => Ok (Float64.add x y)
  | _ => Raise TypeError
  end.

(** The bookkeeping at the end of one iteration of the training loop: from
    the loop's [seconds_count] and [epochs], the requested finish time and
    the two clock readings of the iteration, the updated [seconds_count]
    and [epochs], [time_per_epoch], the rounded [epochs_to_complete] and
    [keep_training].  [seconds_count] starts as the int [0], which its
    first use converts to a float. *)
Definition time_budget (seconds_count : float) (epochs : Z)
    (requested_finish epoch_start epoch_end : float)
  : result (float * Z * float * Z * bool) :=
  let epoch_duration := Float64.sub epoch_end epoch_start in
  let seconds_count := Float64.add seconds_count epoch_duration in
  let epochs := epochs + 1 in
  try divisor <- of_int epochs;
  try time_per_epoch <- div seconds_count divisor;
  try epochs_to_complete <-
    div (Float64.sub requested_finish epoch_end) time_per_epoch;
  try whole <- int_ epochs_to_complete;
  try subtrahend <- of_int whole;
  try epochs_to_complete <-
    (if Float64.leb (Float64.round (1 # 2))
          (Float64.sub epochs_to_complete subtrahend)
     then try whole <- int_ epochs_to_complete; Ok (whole + 1)
     else int_ epochs_to_complete);
  let keep_training := 0 <? epochs_to_complete in
  Ok (seconds_count, epochs, time_per_epoch, epochs_to_complete,
      keep_training).

(** *** [train] *)

Abbreviation method A := (ST (RandomForestModel * world) A).

Definition get_self : method RandomForestModel := on_fst read.
Definition set_self (self : RandomForestModel) : method unit :=
  on_fst (write self).

Definition _create_classifier : method estimator :=
  do self <- get_self;
  do config <- lift (dict_get_default (_config self) "CLASSIFIER" (VDict ∅));
  do crit <- lift (dict_get_default config "CRITERION" (VStr "gini"));
  do _ <- set_self (set_criterion self crit);
  do n <- lift (dict_get_default config "N_ESTIMATORS" (VInt 100));
  do c <- lift (dict_get_default config "CRITERION" (VStr "gini"));
  do mss <- lift (dict_get_default config "MIN_SAMPLES_SPLIT" (VInt 2));
  do mf <- lift (dict_get_default config "MAX_FEATURES" (VStr "sqrt"));
  do seed <- on_snd (with_rng (Random.randint 1 1024));
  do u <- on_snd (with_rng Random.random);
  ret (RandomForestClassifier
         {| n_estimators := n; criterion := c; min_samples_split := mss;
            bootstrap := true; max_features := mf; n_jobs := -1;
            random_state := seed; ccp_alpha := (u * (4 # 10))%Q |}).

Definition _create_regressor : method estimator :=
  do self <- get_self;
  do config <- lift (dict_get_default (_config self) "REGRESSOR" (VDict ∅));
  do crit <- lift (dict_get_default config "CRITERION" (VStr "mse"));
  do _ <- set_self (set_criterion self crit);
  do n <- lift (dict_get_default config "N_ESTIMATORS" (VInt 100));
  do c <- lift (dict_get_default config "CRITERION" (VStr "mse"));
  do mss <- lift (dict_get_default config "MIN_SAMPLES_SPLIT" (VInt 2));
  do mf <- lift (dict_get_default config "MAX_FEATURES" (VStr "sqrt"));
  do seed <- on_snd (with_rng (Random.randint 1 1024));
  do u <- on_snd (with_rng Random.random);
  ret (RandomForestRegressor
         {| n_estimators := n; criterion := c; min_samples_split := mss;
            bootstrap := true; max_features := mf; n_jobs := -1;
            random_state := seed; ccp_alpha := (u * (4 # 10))%Q |}).

Definition _create_model : method (option estimator) :=
  do self <- get_self;
  if is_none (_task self) then ret None
  else if eq_str (_task self) CLASSIFICATION then
    do m <- _create_classifier; ret (Some m)
  else if eq_str (_task self) REGRESSION then
    do m <- _create_regressor; ret (Some m)
  else ret None.

(** The validation handling at the head of [train]: [None] for training
    without validation, otherwise the fraction handed to
    [train_test_split]. *)
Definition check_validation_split (validation_split : value)
  : result (option float) :=
  match validation_split with
  | VNone => Ok None
  | VFloat x =>
      if Float64.ltb x (Fin 0) || Float64.leb (Fin 1) x
      then Ok (Some (Float64.round (2 # 10))) else Ok (Some x)
  | _ =>
      Raise (RandomForestModelException
               "Parameter validation_split should be None or float in range [0,1)")
  end.

(** [self._model_score is None or self._model_score ? criterion] *)
Definition none_or (self : RandomForestModel) (better : Q -> bool)
  : result bool :=
  try s <- getattr (_model_score self);
  Ok match s with None => true | Some s => better s end.

(** The condition under which an iteration's model becomes the kept one;
    [and] and [or] evaluate their right operand only when needed. *)
Definition improves (self : RandomForestModel) (criterion : Q) : result bool :=
  try l <-
    (if eq_str (_task self) CLASSIFICATION
     then none_or self (fun s => Qltb s criterion) else Ok false);
  if l then Ok true
  else if eq_str (_task self) REGRESSION
       then none_or self (fun s => Qltb criterion s) else Ok false.

(** The progress line, which is printed every tenth iteration: the
    expected finish time, its day and the day of [epoch_end], and the
    scores of the kept model. *)
Definition report (x_train y_train : ndarray) (val : option (ndarray * ndarray))
    (epoch_end time_per_epoch : float) (epochs_to_complete : Z)
  : method unit :=
  do factor <- lift (of_int epochs_to_complete);
  let expected_finish :=
    Float64.add epoch_end (Float64.mul factor time_per_epoch) in
  do date <- lift (localtime expected_finish);
  do today <- lift (localtime epoch_end);
  do _ <- (if today =? date then ret tt
           else do _ <- lift (localtime epoch_end); ret tt);
  do self <- get_self;
  match _model self with
  | None => raise AttributeError
  | Some m =>
      do _ <- lift (score m x_train y_train);
      match val with
      | Some (x_val, y_val) => do _ <- lift (score m x_val y_val); ret tt
      | None => ret tt
      end
  end.

(** The [while keep_training] loop; [fuel] bounds its iterations. *)
Fixpoint train_loop (fuel : nat) (x_train y_train : ndarray)
    (val : option (ndarray * ndarray)) (requested_finish : float)
    (seconds_count : float) (epochs : Z) : method unit :=
  match fuel with
  | O => raise OutOfFuel
  | S fuel' =>
      do epoch_start <- on_snd time_time;
      do model <- _create_model;
      do model <-
        match model with
        | None => raise AttributeError
        | Some m => lift (fit m x_train (ravel y_train))
        end;
      do criterion <-
        match val with
        | None => lift (score model x_train y_train)
        | Some (x_val, y_val) => lift (score model x_val y_val)
        end;
      do self <- get_self;
      do better <- lift (improves self criterion);
      do _ <- (if better : bool then set_self (set_best self criterion model)
               else ret tt);
      do epoch_end <- on_snd time_time;
      do t <- lift (time_budget seconds_count epochs requested_finish
                      epoch_start epoch_end);
      let '(seconds_count, epochs, time_per_epoch, epochs_to_complete,
            keep_training) := t in
      do _ <- (if epochs mod 10 =? 9
               then report x_train y_train val epoch_end time_per_epoch
                      epochs_to_complete
               else ret tt);
      if keep_training : bool
      then train_loop fuel' x_train y_train val requested_finish
             seconds_count epochs
      else ret tt
  end.

(** [train]: the body ends without a [return] statement, so the call
    evaluates to [None]. *)
Definition train (X Y : DataFrame) (train_time validation_split : value)
    (fuel : nat) : method (option RandomForestModel) :=
  do self <- get_self;
  do _ <- (if is_none (_predicted_name self)
           then set_self (set_predicted_name self (VList (VStr <$> columns Y)))
           else ret tt);
  do self <- get_self;
  do _ <- (if negb (in_available_tasks (_task self))
           then do t <- lift (_determine_task_type Y); set_self (set_task self t)
           else ret tt);
  do v <- lift (check_validation_split validation_split);
  do data <-
    match v with
    | None => ret (to_numpy X, to_numpy Y, None)
    | Some validation_split =>
        do seed <- on_snd (with_rng (Random.randrange 2048));
        do r <- lift (train_test_split (to_numpy X) (to_numpy Y)
                        validation_split seed);
        let '(x_train, x_val, y_train, y_val) := r in
        ret (x_train, y_train, Some (x_val, y_val))
    end;
  let '(x_train, y_train, val) := data in
  do start_time <- on_snd time_time;
  do requested_finish <- lift (add_number start_time train_time);
  do _ <- train_loop fuel x_train y_train val requested_finish (Fin 0) 0;
  ret None.

#[global] Instance RandomForestModel_AbstractModel
  : abstractModel.AbstractModel RandomForestModel := {
  abstractModel.predict self X := fst (predict X self);
  abstractModel.to_dict := to_dict;
  abstractModel.model_type := model_type
}.

(** The reconstruction function the registry holds for the tag of this
    model: the constructor, called with the dictionary. *)
Definition reconstruct (d : value) : result RandomForestModel :=
  __init__ (VStr "") VNone VNone d.

End RandomForestModel.
End randomForestModel.

(** ** evolutionaryModel.py *)

Module evolutionaryModel.
Import abstractModel.

(** The operations the search driver calls on its population, on the
    chromosomes the population hands out and on the candidate models.  The
    driver is written against them; the sources give the genetic operators
    no body.  [W] is whatever state they act on. *)
Class Engine `{Collaborators} (W Pop Chrom Model : Type) : Type := {
  Population : value -> value -> value -> value -> value -> ST W Pop;
  population_eval :
    Pop -> DataFrame -> DataFrame -> value -> value -> Q -> value -> ST W unit;
  selection : Pop -> ST W Chrom;
  XO : Pop -> Chrom -> Chrom -> ST W Chrom;
  mutation : Pop -> Chrom -> ST W Chrom;
  chromosome_eval :
    Chrom -> DataFrame -> DataFrame -> value -> value -> Q -> value -> ST W Q;
  get_model : Chrom -> ST W Model;
  replace : Pop -> Chrom -> ST W unit;
  get_best : Pop -> ST W Chrom;
  model_train : Model -> DataFrame -> DataFrame -> Z -> ST W Model
}.

Section EvolutionaryModel.
Context `{Collaborators} {W Pop Chrom Model : Type}.
Context `{!AbstractModel Model} `{!Engine W Pop Chrom Model}.

(** The registry of reconstruction functions, one per type tag. *)
Variable registry : gmap string (value -> result Model).

(** Modelled from the spec: [load_model] is imported from the package but
    is not among the sources; it looks the [MODEL_TYPE] tag up in the
    registry and fails on an unregistered tag. *)
Definition load_model (d : value) : result Model :=
  try tag <- dict_get d "MODEL_TYPE";
  match tag with
  | VStr t =>
      match registry !! t with
      | Some reconstruct => reconstruct d
      | None => Raise UnknownModelTypeError
      end
  | _ => Raise UnknownModelTypeError
  end.

Record EvolutionaryModel : Type := {
  _predicted_name : value;
  _task : value;
  _config : value;
  _input_size : value;
  _output_size : value;
  _population : attr (option Pop);
  _model : option Model;
  _model_score : attr (option Q)
}.

Definition set_task (self : EvolutionaryModel) (v : value) :=
  {| _predicted_name := _predicted_name self; _task := v;
     _config := _config self; _input_size := _input_size self;
     _output_size := _output_size self; _population := _population self;
     _model := _model self; _model_score := _model_score self |}.
Definition set_predicted_name (self : EvolutionaryModel) (v : value) :=
  {| _predicted_name := v; _task := _task self;
     _config := _config self; _input_size := _input_size self;
     _output_size := _output_size self; _population := _population self;
     _model := _model self; _model_score := _model_score self |}.
Definition set_population (self : EvolutionaryModel) (p : Pop) :=
  {| _predicted_name := _predicted_name self; _task := _task self;
     _config := _config self; _input_size := _input_size self;
     _output_size := _output_size self; _population := Assigned (Some p);
     _model := _model self; _model_score := _model_score self |}.
Definition set_model (self : EvolutionaryModel) (m : Model) :=
  {| _predicted_name := _predicted_name self; _task := _task self;
     _config := _config self; _input_size := _input_size self;
     _output_size := _output_size self; _population := _population self;
     _model := Some m; _model_score := _model_score self |}.
Definition set_model_score (self : EvolutionaryModel) (s : Q) :=
  {| _predicted_name := _predicted_name self; _task := _task self;
     _config := _config self; _input_size := _input_size self;
     _output_size := _output_size self; _population := _population self;
     _model := _model self; _model_score := Assigned (Some s) |}.

Definition eq_str (v : value) (s : string) : bool :=
  match v with
  | VStr s' => String.eqb s' s
  | _ => false
  end.

Definition in_available_tasks (v : value) : bool :=
  existsb (eq_str v) AVAILABLE_TASKS.

Definition is_none (v : value) : bool :=
  match v with VNone => true | _ => false end.

(** [_create_population], a static method. *)
Definition _create_population (in_size out_size task config : value)
  : ST W Pop :=
  let config := if is_none config then VDict ∅ else config in
  do population_size <- lift (dict_get_default config "POPULATION_SIZE" (VInt 10));
  Population in_size out_size task population_size config.

Definition _init_from_dictionary (d : gmap string value)
  : result EvolutionaryModel :=
  let d := get d "MODEL_DATA" VNone in
  try data <- dict_get d "METADATA";
  try model <- dict_get d "MODEL";
  try predicted_name <- dict_get data "PRED_NAME";
  try task <- dict_get data "TASK";
  try config <- dict_get data "CONFIG";
  try input_size <- dict_get data "INPUT_SIZE";
  try output_size <- dict_get data "OUTPUT_SIZE";
  try loaded <- load_model model;
  Ok {| _predicted_name := predicted_name; _task := task; _config := config;
        _input_size := input_size; _output_size := output_size;
        _population := Unset; _model := Some loaded;
        _model_score := Unset |}.

Definition __init__ (in_size out_size task config predicted_name dictionary : value)
  : ST W EvolutionaryModel :=
  match dictionary with
  | VDict d => lift (_init_from_dictionary d)
  | _ =>
      let config := if is_none config then VDict ∅ else config in
      do population <-
        (if in_available_tasks task
         then do p <- _create_population in_size out_size task config;
              ret (Some p)
         else ret None);
      ret {| _predicted_name := predicted_name; _task := task;
             _config := config; _input_size := in_size;
             _output_size := out_size; _population := Assigned population;
             _model := None; _model_score := Assigned None |}
  end.

Definition model_type (self : EvolutionaryModel) : string :=
  EVOLUTIONARY_MODEL.

Definition predict (X : DataFrame) : ST EvolutionaryModel DataFrame :=
  do self <- read;
  match _model self with
  | None =>
      raise (EvolutionaryModelException
               "Train the model before performing a prediction.")
  | Some m => lift (abstractModel.predict m X)
  end.

Definition to_dict (self : EvolutionaryModel) : value :=
  let model :=
    match _model self with
    | None => VNone
    | Some m => abstractModel.to_dict m
    end in
  let data : gmap string value :=
    <["MODEL" := model]>
    (<["METADATA" :=
         VDict (<["PRED_NAME" := _predicted_name self]>
               (<["TASK" := _task self]>
               (<["CONFIG" := _config self]>
               (<["INPUT_SIZE" := _input_size self]>
               (<["OUTPUT_SIZE" := _output_size self]> ∅)))))]> ∅) in
  VDict (<["MODEL_TYPE" := VStr (model_type self)]>
        (<["MODEL_DATA" := VDict data]> ∅)).

Definition get_config (self : EvolutionaryModel) : value := _config self.

#[global] Instance EvolutionaryModel_AbstractModel
  : AbstractModel EvolutionaryModel := {
  abstractModel.predict self X := fst (predict X self);
  abstractModel.to_dict := to_dict;
  abstractModel.model_type := model_type
}.

(** *** [train] *)

Abbreviation method A := (ST (EvolutionaryModel * W) A).

Definition get_self : method EvolutionaryModel := on_fst read.
Definition set_self (self : EvolutionaryModel) : method unit :=
  on_fst (write self).

(** [self._population], as the receiver of a method call. *)
Definition the_population : method Pop :=
  do self <- get_self;
  do p <- lift (getattr (_population self));
  match p with
  | Some p => ret p
  | None => raise AttributeError
  end.

Definition EPOCHS : nat := 100.

(** The test that guards the record of the best offspring:
    [self._model_score is None or self._model_score > score]. *)
Definition overwrites (best : option Q) (score : Q) : bool :=
  match best with
  | None => true
  | Some b => Qltb score b
  end.

(** One pass through the body of the generation loop. *)
Definition epoch (X Y : DataFrame) (time : Q) (validation : value)
  : method unit :=
  do p <- the_population; do mother <- on_snd (selection p);
  do p <- the_population; do father <- on_snd (selection p);
  do p <- the_population; do offspring <- on_snd (XO p mother father);
  do p <- the_population; do offspringm <- on_snd (mutation p offspring);
  do self <- get_self;
  do criterion <- lift (dict_get (_config self) "GENERAL_CRITERION");
  do score <-
    on_snd (chromosome_eval offspringm X Y (_task self) criterion
              (time * (6 # 10))%Q validation);
  do self <- get_self;
  do best <- lift (getattr (_model_score self));
  do _ <-
    (if overwrites best score
     then do self <- get_self;
          do _ <- set_self (set_model_score self score);
          do m <- on_snd (get_model offspringm);
          do self <- get_self;
          set_self (set_model self m)
     else ret tt);
  do p <- the_population;
  on_snd (replace p offspringm).

(** [for epoch in range(n)] *)
Fixpoint epochs_loop (n : nat) (X Y : DataFrame) (time : Q)
    (validation : value) : method unit :=
  match n with
  | O => ret tt
  | S n' => do _ <- epoch X Y time validation;
            epochs_loop n' X Y time validation
  end.

(** [train] returns [self._model], the population's best candidate after
    its retraining.  The candidate is trained in place: [model_train] gives
    the object as the training leaves it, and [self._model] still refers to
    that object. *)
Definition train (X Y : DataFrame) (time : Q) (validation : value)
  : method Model :=
  do self <- get_self;
  do undefined <-
    (if negb (in_available_tasks (_task self)) then ret true
     else do p <- lift (getattr (_population self));
          ret match p with None => true | Some _ => false end);
  do _ <-
    (if undefined : bool then
       do t <- lift (_determine_task_type Y);
       do _ <- set_self (set_task self t);
       do self <- get_self;
       do p <- on_snd (_create_population (_input_size self)
                         (_output_size self) (_task self) (_config self));
       do self <- get_self;
       set_self (set_population self p)
     else ret tt);
  do self <- get_self;
  do _ <- (if is_none (_predicted_name self)
           then set_self (set_predicted_name self (VList (VStr <$> columns Y)))
           else ret tt);
  do p <- the_population;
  do self <- get_self;
  do criterion <- lift (dict_get (_config self) "GENERAL_CRITERION");
  do _ <- on_snd (population_eval p X Y (_task self) criterion
                    (time * (6 # 10))%Q validation);
  do _ <- epochs_loop EPOCHS X Y time validation;
  do p <- the_population;
  do best <- on_snd (get_best p);
  do m <- on_snd (get_model best);
  do self <- get_self;
  do _ <- set_self (set_model self m);
  let train_time := 0 in
  do m <- on_snd (model_train m X Y train_time);
  do self <- get_self;
  do _ <- set_self (set_model self m);
  ret m.

End EvolutionaryModel.

(** *** The population of population.py behind the calls of the driver

    How the class of population.py answers each call that [train] and the
    constructor make, as the two files stand.  The constructor takes
    [population_size] and [config] and is called with five arguments;
    [eval] takes [X] and [Y] and is called with six: both calls are a
    [TypeError].  The bodies of [selection], [XO] and [mutation] are
    docstrings, so they return [None], and [None] has neither [eval] nor
    [get_model].  [get_best] returns a model, not a chromosome, and the
    model classes of the sources define no [get_model].  The state is the
    population object; what the driver holds as a chromosome is [None] or
    a model. *)
Section SourcePopulation.
Context `{Collaborators} {Model : Type}.
Variable candidate_train :
  Model -> DataFrame -> DataFrame -> Z -> result Model.


End SourcePopulation.
End evolutionaryModel.

(** ** Terms of the statements about effectful code *)

Module runs.

(** [m] returns from every state, with a result that satisfies [P]. *)
Definition succeeds {S A} (m : ST S A) (P : A -> Prop) : Prop :=
  forall s, exists a s', m s = (Ok a, s') /\ P a.

(** A specification of a run: from a state that satisfies [P], [m] either
    returns a result and a state that satisfy [Q], or raises and leaves a
    state that satisfies [R]. *)
Definition triple {S A} (P : S -> Prop) (m : ST S A)
    (Q : A -> S -> Prop) (R : S -> Prop) : Prop :=
  forall s, P s ->
    match m s with
    | (Ok a, s') => Q a s'
    | (Raise _, s') => R s'
    end.

(** As [triple], with the exception in the outcome of a run that
    raises. *)
Definition triple_exn {S A} (P : S -> Prop) (m : ST S A)
    (Q : A -> S -> Prop) (R : exn -> S -> Prop) : Prop :=
  forall s, P s ->
    match m s with
    | (Ok a, s') => Q a s'
    | (Raise e, s') => R e s'
    end.

(** The exceptions of Python: all but the mark of a cut-off. *)
Definition python_exception (e : exn) : Prop := e <> OutOfFuel.

(** The libraries raise exceptions of Python only. *)
Definition python_libraries `{Collaborators} : Prop :=
  (forall Y e, _determine_task_type Y = Raise e -> python_exception e) /\
  (forall a b test_size seed e,
      train_test_split a b test_size seed = Raise e -> python_exception e) /\
  (forall m x y e, fit m x y = Raise e -> python_exception e) /\
  (forall m x y e, score m x y = Raise e -> python_exception e).

(** The elements [random.choice] can draw from a value. *)
Definition elements (v : pyval) : list pyval :=
  match v with
  | PList l => l
  | PStr s => Random.chars s
  | _ => []
  end.

Definition is_str (v : pyval) : Prop := exists s, v = PStr s.

(** The number [v] is the integer [z]: an int, or a float without a
    fraction. *)
Definition integer_value (v : pyval) (z : Z) : Prop :=
  v = PInt z \/ exists q, v = PFloat q /\ (q == inject_Z z)%Q.

(** A count of layers drawn for the third entry [v] of a layer choice: at
    most the integer [v] is, and one when [v] is below one. *)
Definition layer_count_for (v : pyval) (count : nat) : Prop :=
  (exists n, integer_value v n /\ Z.of_nat count <= Z.max n 1) \/
  (exists q, v = PFloat q /\ (q < 1)%Q /\ count = 1%nat).

(** The entry [e] of a built configuration is a float drawn between the
    two numbers of the search space's [range], in either order. *)
Definition drawn_between (range : pyval) (e : option entry) : Prop :=
  exists a b lo hi x,
    range = PList [a; b] /\
    model_creation.as_number a = Ok lo /\
    model_creation.as_number b = Ok hi /\
    e = Some (Val (PFloat x)) /\
    ((lo <= x <= hi)%Q \/ (hi <= x <= lo)%Q).

End runs.

(** ** Terms of the statements about the population *)

Module ranking.
Import chromosome.

(** The fitness comparator in the words of the spec: for classification a
    strictly greater score is fitter, for regression a strictly smaller
    one.  It is not the comparator of the code, whose [_is_fitter] is
    [population._is_fitter_stub]; it is the side of the spec where a
    statement compares the two, and a sample of what a written
    [_is_fitter] could be. *)
Definition spec_is_fitter (task : string) (actual_fitness best_fitness : Q)
  : bool :=
  if String.eqb task CLASSIFICATION then Qltb best_fitness actual_fitness
  else if String.eqb task REGRESSION then Qltb actual_fitness best_fitness
  else false.

Section Ranking.
Context {Model : Type}.
Variable _is_fitter : Q -> Q -> bool.





(** Every chromosome carries a score. *)
Definition all_evaluated (pop : list (Chromosome Model)) : Prop :=
  forall c, c ∈ pop -> is_Some (_fitness c).

End Ranking.
End ranking.

(** ** Sample inputs *)

Module samples.

(** A generator whose every raw draw is [n]. *)
Definition constant_rng (n : N) : rng := {| tape := fun _ => n; pos := 0 |}.

(** A search space with one recognized and one unrecognized backend tag. *)
Definition mixed_models : gmap string entry :=
  <["MODELS" := Val (PList [PStr "neural_network"; PStr "random_forest"])]> ∅.

(** A population of two scored candidates named by strings. *)
Definition scored_pair : population.Population (Model := string) :=
  {| population._config := ∅;
     population._population_size := 2;
     population._population :=
       [ {| chromosome._model := "a"; chromosome._fitness := Some (9 # 10) |};
         {| chromosome._model := "b"; chromosome._fitness := Some (5 # 10) |} ];
     population._best_model := None;
     population._fitness := None |}.

(** Scoring a candidate without training it, for the examples. *)
Definition half {A} (m : A) : result (A * Q) := Ok (m, 1 # 2).

(** Collaborators small enough to run: a data frame is its column names
    and its rows, an estimator is a flag (classifier or regressor) that
    fitting leaves alone and that predicts its input, every score is one
    half, and pickling writes one byte.  Splitting rejects a test size
    that is not a number, as scikit-learn does, and otherwise keeps all
    the rows on both sides. *)
Definition names_of (v : value) : list string :=
  match v with
  | VList l => omap (fun x => match x with VStr s => Some s | _ => None end) l
  | _ => []
  end.

#[export] Instance toy : Collaborators := {
  DataFrame := list string * list (list Q);
  ndarray := list (list Q);
  estimator := bool;
  to_numpy := snd;
  columns := fst;
  new_DataFrame pred cols := Ok (names_of cols, pred);
  ravel y := y;
  train_test_split x y test_size _ :=
    match test_size with
    | NaN => Raise ValueError
    | _ => Ok (x, x, y, y)
    end;
  RandomForestClassifier _ := true;
  RandomForestRegressor _ := false;
  fit m _ _ := Ok m;
  score _ _ _ := Ok (1 # 2);
  estimator_predict _ x := Ok x;
  pickle_dumps m :=
    match m with
    | None => []
    | Some true => [Byte.x01]
    | Some false => [Byte.x00]
    end;
  pickle_loads b :=
    match b with
    | [] => Ok None
    | [Byte.x01] => Ok (Some true)
    | [Byte.x00] => Ok (Some false)
    | _ => Raise ValueError
    end;
  localtime _ := Ok 1;
  _determine_task_type _ := Ok (VStr CLASSIFICATION)
}.

(** A clock that advances one second from each reading to the next, and a
    clock that stands still. *)
Definition ticking : world :=
  {| rand := constant_rng 1; clock := fun n => inject_Z (Z.of_nat n); ticks := 0 |}.
Definition stalled : world :=
  {| rand := constant_rng 1; clock := fun _ => 0%Q; ticks := 0 |}.

Definition features : DataFrame := (["x"], [[1%Q]; [2%Q]]).
Definition targets : DataFrame := (["y"], [[0%Q]; [1%Q]]).

(** A random forest model fresh from its constructor, for classification
    and with an empty configuration. *)
Definition fresh_forest : randomForestModel.RandomForestModel :=
  {| randomForestModel._task := VStr CLASSIFICATION;
     randomForestModel._config := VDict ∅;
     randomForestModel._predicted_name := VNone;
     randomForestModel._criterion := Assigned (VStr "");
     randomForestModel._model := None;
     randomForestModel._model_score := Assigned None |}.

(** A scripted engine, small enough to run.  It is not the population of
    population.py, whose constructor and [eval] reject the driver's calls
    and whose genetic operators are stubs: that one is
    [evolutionaryModel.source_engine].  This one stands for operators that
    have been completed, to run the driver's loop where the source cannot:
    the state counts the offspring evaluated so far; the first offspring
    scores 9/10 and every later one 5/10; chromosomes and candidates are
    numbers. *)
#[export] Instance toy_engine : evolutionaryModel.Engine nat unit nat nat := {
  evolutionaryModel.Population _ _ _ _ _ := ret tt;
  evolutionaryModel.population_eval _ _ _ _ _ _ _ := ret tt;
  evolutionaryModel.selection _ := ret 0%nat;
  evolutionaryModel.XO _ mother father := ret (mother + father)%nat;
  evolutionaryModel.mutation _ offspring := do n <- read; ret (S n);
  evolutionaryModel.chromosome_eval _ _ _ _ _ _ _ :=
    do n <- read;
    do _ <- write (S n);
    ret (if (n =? 0)%nat then 9 # 10 else 5 # 10);
  evolutionaryModel.get_model c := ret c;
  evolutionaryModel.replace _ _ := ret tt;
  evolutionaryModel.get_best _ := ret 1%nat;
  evolutionaryModel.model_train m _ _ _ := ret m
}.

(** The candidates of the toy engine as models: they predict their input
    and serialize to [None]. *)
#[export] Instance toy_candidate : abstractModel.AbstractModel nat := {
  abstractModel.predict _ X := Ok X;
  abstractModel.to_dict _ := VNone;
  abstractModel.model_type _ := "toy"
}.

(** An evolutionary model fresh from its constructor, for classification,
    over the toy engine. *)
Definition fresh_search : evolutionaryModel.EvolutionaryModel
                            (Pop := unit) (Model := nat) :=
  {| evolutionaryModel._predicted_name := VNone;
     evolutionaryModel._task := VStr CLASSIFICATION;
     evolutionaryModel._config := VDict ∅;
     evolutionaryModel._input_size := VInt 1;
     evolutionaryModel._output_size := VInt 1;
     evolutionaryModel._population := Assigned (Some tt);
     evolutionaryModel._model := None;
     evolutionaryModel._model_score := Assigned None |}.

(** A random forest model that holds a fitted forest, the dictionary that
    encodes it, and the serialized form of that dictionary's contents. *)
Definition trained_forest : randomForestModel.RandomForestModel :=
  randomForestModel.set_best fresh_forest (1 # 2) true.

Definition encoded_forest : gmap string value :=
  match randomForestModel.to_dict trained_forest with
  | VDict d => d
  | _ => ∅
  end.

Definition reloaded_forest : randomForestModel.RandomForestModel :=
  {| randomForestModel._task := VStr CLASSIFICATION;
     randomForestModel._config := VDict ∅;
     randomForestModel._predicted_name := VNone;
     randomForestModel._criterion := Unset;
     randomForestModel._model := Some true;
     randomForestModel._model_score := Unset |}.

(** A registry that knows the tag ["toy"], and a dictionary that encodes an
    evolutionary model whose candidate carries that tag. *)
Definition toy_registry : gmap string (value -> result nat) :=
  <["toy" := fun _ => Ok 5%nat]> ∅.

Definition encoded_search : gmap string value :=
  <["MODEL_TYPE" := VStr EVOLUTIONARY_MODEL]>
  (<["MODEL_DATA" :=
       VDict (<["MODEL" := VDict (<["MODEL_TYPE" := VStr "toy"]> ∅)]>
             (<["METADATA" :=
                  VDict (<["TASK" := VStr CLASSIFICATION]>
                        (<["CONFIG" := VDict ∅]> ∅))]> ∅))]> ∅).

(** Candidates that serialize to a dictionary with the tag ["toy"]. *)
Definition tagged_candidate : abstractModel.AbstractModel nat :=
  {| abstractModel.predict := fun _ X => Ok X;
     abstractModel.to_dict :=
       fun _ => VDict (<["MODEL_TYPE" := VStr "toy"]> ∅);
     abstractModel.model_type := fun _ => "toy" |}.

Definition reloaded_search : evolutionaryModel.EvolutionaryModel
                               (Pop := unit) (Model := nat) :=
  {| evolutionaryModel._predicted_name := VNone;
     evolutionaryModel._task := VStr CLASSIFICATION;
     evolutionaryModel._config := VDict ∅;
     evolutionaryModel._input_size := VNone;
     evolutionaryModel._output_size := VNone;
     evolutionaryModel._population := Unset;
     evolutionaryModel._model := Some 5%nat;
     evolutionaryModel._model_score := Unset |}.

End samples.

(** * Properties *)

(** ** The effect monad *)

Lemma bind_Ok {S A B} (m : ST S A) (k : A -> ST S B) s b s' :
  bind m k s = (Ok b, s') ->
  exists a s1, m s = (Ok a, s1) /\ k a s1 = (Ok b, s').
Proof.
  unfold bind. destruct (m s) as [[a|e] s1]; intros E.
  - exists a, s1. split; [reflexivity | exact E].
  - discriminate E.
Qed.

Lemma bind_eq_Ok {S A B} (m : ST S A) (k : A -> ST S B) s a s1 :
  m s = (Ok a, s1) -> bind m k s = k a s1.
Proof. unfold bind. intros ->. reflexivity. Qed.

Lemma bind_eq_Raise {S A B} (m : ST S A) (k : A -> ST S B) s e s1 :
  m s = (Raise e, s1) -> bind m k s = (Raise e, s1).
Proof. unfold bind. intros ->. reflexivity. Qed.

Lemma lift_Raise {S A} (r : result A) (s s' : S) e :
  lift r s = (Raise e, s') -> r = Raise e.
Proof. unfold lift. intros E. injection E as -> _. reflexivity. Qed.

Lemma lift_Ok {S A} (r : result A) (s s' : S) a :
  lift r s = (Ok a, s') -> r = Ok a /\ s' = s.
Proof. unfold lift. intros E. injection E as -> ->. split; reflexivity. Qed.

Lemma ret_Ok {S A} (x a : A) (s s' : S) :
  ret x s = (Ok a, s') -> x = a /\ s' = s.
Proof. unfold ret. intros E. injection E as -> ->. split; reflexivity. Qed.

(** Splitting a successful run at its outermost binds. *)
Ltac split_run H :=
  repeat
    (let a := fresh "v" in
     let s := fresh "s" in
     let E := fresh "E" in
     apply bind_Ok in H as (a & s & E & H)).

(** ** model_creation.py *)

Import model_creation.

Lemma last_set_last {A} (l l' : list A) (x : A) :
  set_last l x = Ok l' -> last l' = Some x.
Proof.
  unfold set_last. destruct l as [|y l]; [discriminate|].
  intros E. injection E as <-.
  rewrite last_lookup, length_insert.
  apply list_lookup_insert_eq. simpl. lia.
Qed.

(** After the classification override the activation is the string
    ["sigmoid"] or a list whose last element is. *)
Lemma override_sigmoid (activation a : pyval) (g g' : rng) :
  match activation with
  | PStr _ => ret (PStr "sigmoid")
  | PList l => do l' <- lift (set_last l (PStr "sigmoid")); ret (PList l')
  | _ => raise TypeError
  end g = (Ok a, g') ->
  a = PStr "sigmoid" \/ exists l, a = PList l /\ last l = Some (PStr "sigmoid").
Proof.
  destruct activation as [| z | q | s | l]; intros E;
    try (unfold raise in E; discriminate E).
  - apply ret_Ok in E as [<- _]. left. reflexivity.
  - split_run E. apply lift_Ok in E0 as [E0 ->].
    apply ret_Ok in E as [<- _]. right. exists v. split; [reflexivity|].
    eapply last_set_last, E0.
Qed.

(** *** Runs that cannot fail *)

Import runs.

Lemma succeeds_ret {S A} (a : A) (P : A -> Prop) :
  P a -> succeeds (S := S) (ret a) P.
Proof. intros Ha s. exists a, s. split; [reflexivity | exact Ha]. Qed.

Lemma succeeds_bind {S A B} (m : ST S A) (k : A -> ST S B)
    (P : A -> Prop) (Q : B -> Prop) :
  succeeds m P -> (forall a, P a -> succeeds (k a) Q) ->
  succeeds (bind m k) Q.
Proof.
  intros Hm Hk s. destruct (Hm s) as (a & s1 & E & Ha).
  destruct (Hk a Ha s1) as (b & s2 & E2 & Hb).
  exists b, s2. split; [|exact Hb].
  rewrite (bind_eq_Ok _ _ _ _ _ E). exact E2.
Qed.

Lemma succeeds_weaken {S A} (m : ST S A) (P Q : A -> Prop) :
  succeeds m P -> (forall a, P a -> Q a) -> succeeds m Q.
Proof.
  intros Hm HPQ s. destruct (Hm s) as (a & s' & E & Ha).
  exists a, s'. split; [exact E | apply HPQ, Ha].
Qed.

Lemma succeeds_lift {S A} (a : A) (P : A -> Prop) :
  P a -> succeeds (S := S) (lift (Ok a)) P.
Proof. intros Ha s. exists a, s. split; [reflexivity | exact Ha]. Qed.

Lemma succeeds_draw : succeeds draw (fun _ => True).
Proof. intros g. eexists _, _. split; [reflexivity | exact I]. Qed.

Lemma succeeds_choice_list {A} (l : list A) :
  l <> [] -> succeeds (Random.choice_list l) (fun x => x ∈ l).
Proof.
  intros Hl. unfold Random.choice_list.
  destruct l as [|y l']; [contradiction|].
  set (l := y :: l'). unfold Random.randbelow.
  eapply succeeds_bind.
  - eapply succeeds_bind; [apply succeeds_draw|].
    intros r _. apply (succeeds_ret _ (fun i => (i < length l)%nat)).
    apply Nat.mod_upper_bound. discriminate.
  - intros i Hi. simpl in Hi.
    destruct (lookup_lt_is_Some_2 l i Hi) as [x Hx]. rewrite Hx.
    apply succeeds_ret. eapply list_elem_of_lookup_2, Hx.
Qed.

Lemma succeeds_uniform (a b : Q) :
  succeeds (Random.uniform a b) (fun _ => True).
Proof.
  unfold Random.uniform, Random.random.
  eapply succeeds_bind.
  - eapply succeeds_bind; [apply succeeds_draw|].
    intros r _. apply (succeeds_ret _ (fun _ => True)). exact I.
  - intros u _. apply succeeds_ret. exact I.
Qed.

Lemma succeeds_randint (a b : Z) :
  a <= b -> succeeds (Random.randint a b) (fun _ => True).
Proof.
  intros Hab. unfold Random.randint, Random.randbelow.
  destruct (b <? a) eqn:E; [apply Z.ltb_lt in E; lia|].
  eapply succeeds_bind.
  - eapply succeeds_bind; [apply succeeds_draw|].
    intros r _. apply (succeeds_ret _ (fun _ => True)). exact I.
  - intros i _. apply succeeds_ret. exact I.
Qed.

Lemma succeeds_comprehension {A} (n : nat) (m : M A) (P : A -> Prop) :
  succeeds m P ->
  succeeds (comprehension n m) (fun l => length l = n /\ Forall P l).
Proof.
  intros Hm. induction n as [|n IH]; simpl.
  - apply succeeds_ret. split; [reflexivity | constructor].
  - eapply succeeds_bind; [exact Hm|]. intros x Hx.
    eapply succeeds_bind; [exact IH|]. intros xs [Hlen Hxs].
    apply succeeds_ret. split; [simpl; lia | constructor; assumption].
Qed.

Lemma succeeds_default_activation :
  succeeds
    (do a <- Random.choice default_activations; Random.choice a)
    (fun a => exists s, a = PStr s).
Proof.
  eapply succeeds_bind.
  - apply succeeds_choice_list. discriminate.
  - intros a Ha. unfold default_activations in Ha.
    assert (Hs : exists s, a = PStr s /\ Random.chars s <> []).
    { repeat (apply elem_of_cons in Ha as [-> | Ha];
              [eexists; split; [reflexivity | discriminate]|]).
      apply elem_of_nil in Ha. contradiction. }
    destruct Hs as (s & -> & Hne). simpl.
    eapply succeeds_weaken; [apply succeeds_choice_list, Hne|].
    intros c Hc. clear Hne Ha. induction s as [|ch s IH]; simpl in Hc.
    + apply elem_of_nil in Hc. contradiction.
    + apply elem_of_cons in Hc as [-> | Hc]; [eexists; reflexivity|].
      apply IH, Hc.
Qed.

Lemma succeeds_lift_eq {S A} (a : A) :
  succeeds (S := S) (lift (Ok a)) (fun x => x = a).
Proof. apply succeeds_lift. reflexivity. Qed.

(** Running past a pure step whose value is known. *)
Ltac step_lift :=
  eapply succeeds_bind; [apply succeeds_lift_eq | intros ? ->].

Lemma succeeds_uniform_star (a b : pyval) (x y : Q) :
  as_number a = Ok x -> as_number b = Ok y ->
  succeeds (uniform_star (PList [a; b])) (fun _ => True).
Proof.
  intros Ha Hb. unfold uniform_star. rewrite Ha, Hb.
  do 2 step_lift. apply succeeds_uniform.
Qed.

Lemma succeeds_randint_ (a b : Z) :
  a <= b -> succeeds (randint_ (PInt a) (PInt b)) (fun _ => True).
Proof.
  intros Hab. unfold randint_. simpl.
  do 3 step_lift. apply succeeds_randint. lia.
Qed.

(** With the default search space, [create_deep_learning_model] returns a
    model whatever the task and the random draws are. *)
Lemma create_deep_learning_model_default_returns
    (in_size out_size : Z) (task : string) (criterion : entry) :
  succeeds (create_deep_learning_model in_size out_size ∅ task criterion)
    (fun _ => True).
Proof.
  unfold create_deep_learning_model, get. rewrite !lookup_empty.
  eapply succeeds_bind; [apply succeeds_choice_list; discriminate|].
  intros optimizer _.
  eapply succeeds_bind; [eapply succeeds_uniform_star; reflexivity|].
  intros learning_rate _.
  eapply succeeds_bind; [eapply succeeds_uniform_star; reflexivity|].
  intros momentum _.
  eapply succeeds_bind; [apply succeeds_choice_list; discriminate|].
  intros layer_choice Hlc.
  eapply (succeeds_bind _ _
            (fun layers => layers = PStr "smooth" \/ exists l, layers = PList l)).
  { apply elem_of_cons in Hlc as [-> | Hlc];
      [apply succeeds_ret; left; reflexivity|].
    apply list_elem_of_singleton in Hlc as ->. simpl.
    do 2 step_lift.
    eapply succeeds_bind; [apply succeeds_randint_; lia|].
    intros layer_count _.
    eapply succeeds_bind.
    - apply (succeeds_comprehension _ _ (fun _ => True)).
      do 2 step_lift.
      eapply succeeds_bind; [apply succeeds_randint_; lia|]. intros w _.
      apply succeeds_ret. exact I.
    - intros widths _. apply succeeds_ret. right. eexists. reflexivity. }
  intros layers Hlayers.
  eapply succeeds_bind; [apply succeeds_choice_list; discriminate|].
  intros activation_choice _.
  eapply (succeeds_bind _ _
            (fun a => (exists s, a = PStr s) \/ exists l, a = PList l /\ l <> [])).
  { destruct (eq_str activation_choice "uniform" || eq_str layers "smooth") eqn:E.
    - eapply succeeds_weaken; [apply succeeds_default_activation|].
      intros a Ha. left. exact Ha.
    - destruct Hlayers as [-> | (l & ->)].
      + rewrite orb_true_r in E. discriminate E.
      + step_lift.
        eapply succeeds_bind.
        * apply (succeeds_comprehension _ _ (fun _ => True)).
          eapply succeeds_weaken;
            [apply succeeds_choice_list; discriminate | intros; exact I].
        * intros acts [Hlen _]. apply succeeds_ret. right.
          exists acts. split; [reflexivity|].
          intros ->. simpl in Hlen. lia. }
  intros activation Hact.
  eapply succeeds_bind.
  { destruct (String.eqb task CLASSIFICATION);
      [|apply (succeeds_ret _ (fun _ => True)); exact I].
    destruct Hact as [(s & ->) | (l & -> & Hl)].
    - apply (succeeds_ret _ (fun _ => True)). exact I.
    - destruct l as [|x l]; [contradiction|].
      unfold set_last. step_lift.
      apply (succeeds_ret _ (fun _ => True)). exact I. }
  intros activation' _.
  eapply succeeds_bind; [eapply succeeds_uniform_star; reflexivity|].
  intros dropout _. apply succeeds_ret. exact I.
Qed.

(** C9. Every candidate that [create_deep_learning_model] returns for the
    classification task has ["sigmoid"] as its final-layer activation: the
    [ACTIVATIONS] entry of its configuration is the string ["sigmoid"] when
    one activation applies network-wide, and otherwise a list whose last
    element is ["sigmoid"], whatever the random draws were. *)
Theorem classification_final_activation_is_sigmoid
    (in_size out_size : Z) (config : gmap string pyval) (criterion : entry)
    (g g' : rng) (m : DeepLearningModel) :
  create_deep_learning_model in_size out_size config CLASSIFICATION criterion g
    = (Ok m, g') ->
  final_activation (dl_config m) = Some (PStr "sigmoid").
Proof.
  intros E. unfold create_deep_learning_model in E.
  split_run E.
  apply ret_Ok in E as [<- _].
  match goal with
  | Ho : context [String.eqb CLASSIFICATION CLASSIFICATION] |- _ =>
      rewrite String.eqb_refl in Ho;
      apply override_sigmoid in Ho as [-> | (l & -> & Hl)]
  end; unfold final_activation; simpl.
  - rewrite !lookup_insert_ne by discriminate.
    rewrite lookup_insert_eq. reflexivity.
  - replace (_ !! "ACTIVATIONS") with (Some (Val (PList l))); [exact Hl|].
    symmetry. rewrite !lookup_insert_ne by discriminate.
    apply lookup_insert_eq.
Qed.

Lemma classification_final_activation_is_sigmoid_witness :
  exists m g',
    create_deep_learning_model 4 1 ∅ CLASSIFICATION (Val (PStr "MSE"))
      (samples.constant_rng 1) = (Ok m, g') /\
    dl_config m !! "HIDDEN_LAYERS" = Some (Val (PList [PInt 11; PInt 11])) /\
    final_activation (dl_config m) = Some (PStr "sigmoid").
Proof.
  eexists _, _. split; [vm_compute; reflexivity|]. split.
  - vm_compute. reflexivity.
  - eapply (classification_final_activation_is_sigmoid 4 1 ∅ (Val (PStr "MSE"))
              (samples.constant_rng 1)).
    vm_compute. reflexivity.
Defined.

Lemma create_random_model_mixed_unrecognized (in_size out_size : Z)
    (task : string) (g : rng) :
  (forall i, tape g i = 1%N) ->
  create_random_model in_size out_size samples.mixed_models task g
  = (Ok None, {| tape := tape g; pos := S (pos g) |}).
Proof.
  intros Hg. unfold create_random_model.
  replace (get samples.mixed_models "MODELS" (Val (PList [PStr "neural_network"])))
    with (Val (PList [PStr "neural_network"; PStr "random_forest"]))
    by (vm_compute; reflexivity).
  unfold bind, Random.choice_entry, Random.choice, Random.choice_list,
    Random.randbelow, bind, draw, ret.
  rewrite Hg. reflexivity.
Qed.

Lemma create_loop_all_None (in_size out_size : Z) (task : string) (n : nat) :
  forall (g : rng) (acc : list (chromosome.Chromosome (option DeepLearningModel))),
    (forall i, tape g i = 1%N) ->
    fst (population.create_loop
           (fun _ => create_random_model in_size out_size samples.mixed_models task)
           n None acc g)
    = Ok (acc ++ replicate n (chromosome.new None)).
Proof.
  induction n as [|n IH]; intros g acc Hg; simpl.
  - rewrite app_nil_r. reflexivity.
  - unfold bind at 1.
    rewrite (create_random_model_mixed_unrecognized _ _ _ _ Hg).
    rewrite IH by exact Hg.
    rewrite <- app_assoc. reflexivity.
Qed.

(** C10. When the tag drawn from the [MODELS] list is not
    ["neural_network"], [create_random_model] returns [None] and raises
    nothing, having consumed the one draw; and a search space whose
    [MODELS] list holds an unrecognized tag next to the recognized one can
    seed, through this function, a population of any size all of whose
    chromosomes wrap [None]. *)
Theorem unrecognized_backend_gives_None :
  (forall (in_size out_size : Z) (config : gmap string entry) (task : string)
          (g g' : rng) (model_type : pyval),
      Random.choice_entry
        (get config "MODELS" (Val (PList [PStr "neural_network"]))) g
      = (Ok model_type, g') ->
      eq_str model_type "neural_network" = false ->
      create_random_model in_size out_size config task g = (Ok None, g')) /\
  (forall (in_size out_size : Z) (task : string) (population_size : Z),
      exists g : rng,
        fst (population._create_population
               (fun _ => create_random_model in_size out_size
                           samples.mixed_models task)
               population_size None g)
        = Ok (replicate (Z.to_nat population_size) (chromosome.new None))).
Proof.
  split.
  - intros in_size out_size config task g g' model_type E Hne.
    unfold create_random_model.
    rewrite (bind_eq_Ok _ _ _ _ _ E), Hne.
    destruct (eq_str model_type "some_future_type"); reflexivity.
  - intros in_size out_size task population_size.
    exists (samples.constant_rng 1).
    unfold population._create_population.
    rewrite create_loop_all_None by reflexivity.
    reflexivity.
Qed.

Lemma unrecognized_backend_gives_None_witness :
  create_random_model 4 1 samples.mixed_models CLASSIFICATION
    (samples.constant_rng 1)
  = (Ok None, {| tape := fun _ => 1%N; pos := 1 |}).
Proof.
  apply (proj1 unrecognized_backend_gives_None 4 1 samples.mixed_models
           CLASSIFICATION (samples.constant_rng 1) _ (PStr "random_forest")).
  - vm_compute. reflexivity.
  - reflexivity.
Defined.

(** ** population.py *)

Section PopulationFacts.
Import chromosome population.
Context {Model : Type}.
Variable _random_model : option (gmap string entry) -> M Model.
Variable _is_fitter : Q -> Q -> bool.
Variable evaluate : Model -> result (Model * Q).

Lemma create_loop_length (n : nat) :
  forall config (acc l : list (Chromosome Model)) (g g' : rng),
    create_loop _random_model n config acc g = (Ok l, g') ->
    length l = (length acc + n)%nat.
Proof.
  induction n as [|n IH]; intros config acc l g g' E; simpl in E.
  - apply ret_Ok in E as [<- _]. lia.
  - apply bind_Ok in E as (model & g1 & _ & E).
    apply IH in E. rewrite length_app in E. simpl in E. lia.
Qed.

Lemma eval_loop_length (todo : list (Chromosome Model)) :
  forall i best best_fitness (self : Population),
    length (_population (snd (eval_loop _is_fitter evaluate todo i best
                                best_fitness self)))
    = length (_population self).
Proof.
  induction todo as [|c rest IH]; intros i best best_fitness self; simpl.
  - reflexivity.
  - unfold bind at 1, lift.
    destruct (chromosome.eval evaluate c) as [r|e]; [|reflexivity].
    unfold bind, read, write.
    destruct (match best_fitness with
              | Some b => _is_fitter (snd r) b
              | None => true
              end);
      rewrite IH; simpl; apply length_insert.
Qed.

Lemma replace_length (model : Model) (self : Population) :
  length (_population (snd (replace _is_fitter model self)))
  = length (_population self).
Proof.
  unfold replace, bind, read, lift.
  destruct (worst_loop _is_fitter (_population self) 0 None None) as [[p|]|e];
    simpl; try reflexivity.
  apply length_insert.
Qed.

Lemma after_length (self : Population) (c : call) :
  length (_population (after _is_fitter evaluate self c))
  = length (_population self).
Proof.
  destruct c as [| | model]; simpl.
  - unfold eval, bind, read. apply eval_loop_length.
  - unfold get_best, bind, read, lift.
    destruct (best_loop _is_fitter (_population self) None None); reflexivity.
  - apply replace_length.
Qed.

Lemma after_all_length (calls : list call) :
  forall self : Population,
    length (_population (after_all _is_fitter evaluate self calls))
    = length (_population self).
Proof.
  unfold after_all.
  induction calls as [|c cs IH]; intros self; simpl; [reflexivity|].
  rewrite IH. apply after_length.
Qed.

(** C4. A population seeded with size [n] holds exactly [n] chromosomes,
    and after any sequence of calls of [replace], interleaved at will with
    [eval] and [get_best], whether they return or raise, it still holds
    exactly [n]: a replacement overwrites one position of the list. *)
Theorem population_cardinality_invariant
    (population_size : Z) (config : option (gmap string entry))
    (g g' : rng) (self : Population) (calls : list call) :
  0 <= population_size ->
  __init__ _random_model population_size config g = (Ok self, g') ->
  Z.of_nat (length (_population self)) = population_size /\
  Z.of_nat (length (_population (after_all _is_fitter evaluate self calls)))
  = population_size.
Proof.
  intros Hn E. unfold __init__ in E.
  apply bind_Ok in E as (l & g1 & El & E).
  apply ret_Ok in E as [<- _]. simpl.
  apply create_loop_length in El. simpl in El.
  assert (Hl : Z.of_nat (length l) = population_size) by lia.
  split; [exact Hl|].
  rewrite after_all_length. exact Hl.
Qed.

End PopulationFacts.

Lemma Qltb_lt (a b : Q) : Qltb a b = true <-> (a < b)%Q.
Proof.
  unfold Qltb. rewrite negb_true_iff, <- not_true_iff_false, Qle_bool_iff.
  split; [apply Qnot_le_lt | apply Qlt_not_le].
Qed.

Lemma Qltb_irrefl (a : Q) : Qltb a a = false.
Proof.
  apply not_true_iff_false. rewrite Qltb_lt. apply Qlt_irrefl.
Qed.

Lemma Qltb_trans (a b c : Q) :
  Qltb a b = true -> Qltb b c = true -> Qltb a c = true.
Proof. rewrite !Qltb_lt. apply Qlt_trans. Qed.

Lemma Qltb_cotrans (a b c : Q) :
  Qltb a b = true -> Qltb a c = true \/ Qltb c b = true.
Proof.
  rewrite !Qltb_lt. intros Hab.
  destruct (Qlt_le_dec a c) as [Hac | Hca]; [left; exact Hac|].
  right. eapply Qle_lt_trans; eassumption.
Qed.

Section ReplaceFacts.
Import population chromosome ranking.
Context {Model : Type}.
Variable fit : Q -> Q -> bool.
Hypothesis fit_irrefl : forall a, fit a a = false.
Hypothesis fit_trans : forall a b c, fit a b = true -> fit b c = true -> fit a c = true.
Hypothesis fit_cotrans :
  forall a b c, fit a b = true -> fit a c = true \/ fit c b = true.






End ReplaceFacts.

(** With the comparator as the source has it, a stub that answers nothing,
    the loop of [replace] never moves past the first position. *)
Lemma worst_loop_stub {Model : Type}
    (todo : list (chromosome.Chromosome Model)) :
  forall (i : nat) (f : Q) (p : nat),
    ranking.all_evaluated todo ->
    population.worst_loop population._is_fitter_stub todo i (Some f) (Some p)
    = Ok (Some p).
Proof.
  induction todo as [|c rest IH]; intros i f p Hev; simpl; [reflexivity|].
  destruct (Hev c) as [fc Hc]; [left|].
  unfold chromosome.get_fitness. rewrite Hc. simpl.
  apply IH. intros c' Hin. apply Hev. right. exact Hin.
Qed.

Lemma replace_with_stub_overwrites_first {Model : Type} (model : Model)
    (self : population.Population) (c : chromosome.Chromosome Model)
    (rest : list (chromosome.Chromosome Model)) :
  population._population self = c :: rest ->
  ranking.all_evaluated (c :: rest) ->
  population.replace population._is_fitter_stub model self
  = (Ok (chromosome.new model :: rest),
     population.set_population self (chromosome.new model :: rest)).
Proof.
  intros Hpop Hev.
  unfold population.replace, bind, read, lift. rewrite Hpop. simpl.
  destruct (Hev c) as [fc Hc]; [left|].
  unfold chromosome.get_fitness. rewrite Hc.
  rewrite worst_loop_stub; [reflexivity|].
  intros c' Hin. apply Hev. right. exact Hin.
Qed.

Lemma population_cardinality_invariant_witness :
  exists self g',
    population.__init__
      (fun _ => create_random_model 4 1 ∅ CLASSIFICATION) 3 None
      (samples.constant_rng 1) = (Ok self, g') /\
    Z.of_nat
      (length
         (population._population
            (population.after_all (ranking.spec_is_fitter CLASSIFICATION)
               samples.half self
               [population.CallReplace None; population.CallEval;
                population.CallReplace None; population.CallGetBest;
                population.CallReplace None]))) = 3.
Proof.
  eexists _, _. split; [vm_compute; reflexivity|].
  refine (proj2 (population_cardinality_invariant
                   (fun _ => create_random_model 4 1 ∅ CLASSIFICATION)
                   (ranking.spec_is_fitter CLASSIFICATION) samples.half
                   3 None (samples.constant_rng 1) _ _ _ _ _)).
  - lia.
  - vm_compute. reflexivity.
Defined.

Lemma spec_is_fitter_irrefl (task : string) (a : Q) :
  ranking.spec_is_fitter task a a = false.
Proof.
  unfold ranking.spec_is_fitter.
  destruct (String.eqb task CLASSIFICATION); [apply Qltb_irrefl|].
  destruct (String.eqb task REGRESSION); [apply Qltb_irrefl | reflexivity].
Qed.

Lemma spec_is_fitter_trans (task : string) (a b c : Q) :
  ranking.spec_is_fitter task a b = true ->
  ranking.spec_is_fitter task b c = true ->
  ranking.spec_is_fitter task a c = true.
Proof.
  unfold ranking.spec_is_fitter.
  destruct (String.eqb task CLASSIFICATION).
  - intros Hab Hbc. eapply Qltb_trans; eassumption.
  - destruct (String.eqb task REGRESSION); [apply Qltb_trans | discriminate].
Qed.

Lemma spec_is_fitter_cotrans (task : string) (a b c : Q) :
  ranking.spec_is_fitter task a b = true ->
  ranking.spec_is_fitter task a c = true \/ ranking.spec_is_fitter task c b = true.
Proof.
  unfold ranking.spec_is_fitter.
  destruct (String.eqb task CLASSIFICATION).
  - intros Hab. destruct (Qltb_cotrans _ _ c Hab); [right | left]; assumption.
  - destruct (String.eqb task REGRESSION); [apply Qltb_cotrans | discriminate].
Qed.




(** ** Floats: rounding is exact on the values of binary64 *)

Section FloatFacts.
Import Float64.




















End FloatFacts.

(** ** randomForestModel.py: the time budget *)

Section TimeBudget.
Import randomForestModel.




Lemma Qeq_bool_false (x y : Q) : ~ (x == y)%Q -> Qeq_bool x y = false.
Proof.
  intros Hne. destruct (Qeq_bool x y) eqn:E; [|reflexivity].
  apply Qeq_bool_eq in E. contradiction.
Qed.










(** The bookkeeping rounds as binary64 does.  After three iterations that
    took one second together, with the float nearest to 1/6 left of the
    budget, the average is the float nearest to 1/3 and their quotient is
    one half exactly: one more iteration is scheduled. *)
Lemma time_budget_at_the_rounded_threshold :
  Float64.div (Float64.round (1 # 6)) (Float64.round (1 # 3)) = Fin (1 # 2) /\
  time_budget (Fin (1 # 2)) 2 (Float64.round (1 # 6)) (Fin (-1 # 2)) (Fin 0)
  = Ok (Fin 1, 3, Float64.round (1 # 3), 1, true).
Proof. split; vm_compute; reflexivity. Qed.

(** A budget without bound, or one of 1e308 seconds after an iteration of
    a microsecond, makes the estimate infinite, and its conversion to an
    int raises. *)
Lemma time_budget_overflows_on_an_unbounded_budget :
  time_budget (Fin 0) 0 (Inf false) (Fin 0) (Fin 1) = Raise OverflowError /\
  time_budget (Fin 0) 0 (Float64.round (10 ^ 308)) (Fin 0)
    (Float64.round (1 # 1000000))
  = Raise OverflowError.
Proof. split; vm_compute; reflexivity. Qed.

End TimeBudget.

(** ** randomForestModel.py: validation, training, prediction *)

Section RandomForestFacts.
Import randomForestModel.
Context `{Collaborators}.

(** C7. A float validation fraction below 0 or from 1 on, an infinity
    included, is replaced by 0.2, and from there on the call runs exactly
    as a call made with 0.2.  A NaN is a float outside [0, 1) too, but
    both comparisons of the guard are false for it: it is not replaced, it
    reaches [train_test_split] as it is, and when [train_test_split]
    rejects it, as scikit-learn does, [train] raises. *)
Theorem nan_validation_fraction_is_not_replaced
    (X Y : DataFrame) (train_time : value) (fuel : nat)
    (self : RandomForestModel) (w : world) (e : exn) :
  (forall a b seed, train_test_split a b NaN seed = Raise e) ->
  in_available_tasks (_task self) = true ->
  check_validation_split (VFloat NaN) = Ok (Some NaN) /\
  fst (train X Y train_time (VFloat NaN) fuel (self, w)) = Raise e /\
  (forall x : float,
      Float64.ltb x (Fin 0) = true \/ Float64.leb (Fin 1) x = true ->
      check_validation_split (VFloat x)
      = Ok (Some (Float64.round (2 # 10))) /\
      train X Y train_time (VFloat x) fuel (self, w)
      = train X Y train_time (VFloat (Float64.round (2 # 10))) fuel
          (self, w)).
Proof.
  intros Hsplit Htask. split; [reflexivity|]. split.
  - unfold train, bind, get_self, set_self, on_fst, on_snd, with_rng, read,
      write, lift, ret.
    cbn [fst snd].
    destruct (is_none (_predicted_name self));
      cbn [fst snd _task set_predicted_name]; rewrite Htask;
      cbn [negb fst snd check_validation_split];
      unfold Random.randrange, Random.randbelow, bind, draw, ret;
      cbn [Z.leb Z.compare fst snd Float64.ltb Float64.leb orb];
      rewrite Hsplit; reflexivity.
  - intros x Hx.
    assert (E : check_validation_split (VFloat x)
                = Ok (Some (Float64.round (2 # 10)))).
    { unfold check_validation_split.
      destruct Hx as [Hx | Hx]; rewrite Hx, ?orb_true_r; reflexivity. }
    split; [exact E|].
    unfold train. rewrite E. reflexivity.
Qed.

(** Whenever [train] returns, it returns [None]. *)
Lemma train_result_None (X Y : DataFrame)
    (train_time validation_split : value) (fuel : nat)
    (st st' : RandomForestModel * world) (r : option RandomForestModel) :
  train X Y train_time validation_split fuel st = (Ok r, st') -> r = None.
Proof.
  intros E. unfold train in E. split_run E.
  match goal with
  | d : (ndarray * ndarray * option (ndarray * ndarray))%type |- _ =>
      destruct d as [[x_train y_train] val]
  end.
  split_run E. apply ret_Ok in E as [<- _]. reflexivity.
Qed.

(** The constructor, called without a dictionary, stores no fitted model. *)
Lemma init_untrained (task config predicted_name dictionary : value)
    (self : RandomForestModel) :
  (forall d, dictionary <> VDict d) ->
  __init__ task config predicted_name dictionary = Ok self ->
  _model self = None.
Proof.
  intros Hd E. unfold __init__ in E.
  destruct dictionary; try (injection E as <-; reflexivity).
  exfalso. eapply Hd. reflexivity.
Qed.

Lemma predict_untrained (self : RandomForestModel) (X : DataFrame) :
  _model self = None ->
  predict X self
  = (Raise (RandomForestModelException "Could not call predict before train."),
     self).
Proof. intros E. unfold predict, bind, read. rewrite E. reflexivity. Qed.

(** Decoding the encoding of a random forest model restores the fitted
    forest and the predicted names. *)
Lemma reconstruct_to_dict (self : RandomForestModel) :
  (forall m, pickle_loads (pickle_dumps m) = Ok m) ->
  reconstruct (to_dict self)
  = Ok {| _task := _task self; _config := _config self;
          _predicted_name := _predicted_name self; _criterion := Unset;
          _model := _model self; _model_score := Unset |}.
Proof.
  intros Hpickle.
  unfold reconstruct, __init__, to_dict, _init_from_dictionary, dict_get, get.
  repeat (first [ rewrite lookup_insert_eq
                | rewrite lookup_insert_ne by discriminate ]; simpl).
  rewrite Hpickle. reflexivity.
Qed.

Lemma forest_round_trip (self : RandomForestModel) (X : DataFrame) :
  (forall m, pickle_loads (pickle_dumps m) = Ok m) ->
  exists self',
    reconstruct (to_dict self) = Ok self' /\
    fst (predict X self') = fst (predict X self).
Proof.
  intros Hpickle. eexists. split; [apply reconstruct_to_dict, Hpickle|].
  unfold predict, bind, read, lift. simpl.
  destruct (_model self) as [m|]; [|reflexivity].
  destruct (estimator_predict m (to_numpy X)); reflexivity.
Qed.

End RandomForestFacts.

(** ** evolutionaryModel.py: persistence and prediction *)

Section EvolutionaryFacts.
Import abstractModel evolutionaryModel.
Context `{Collaborators} {W Pop Chrom Model : Type}.
Context `{!AbstractModel Model} `{!Engine W Pop Chrom Model}.
Variable registry : gmap string (value -> result Model).

Lemma search_predict_untrained (self : EvolutionaryModel (Pop := Pop) (Model := Model)) (X : DataFrame) :
  _model self = None ->
  predict X self
  = (Raise (EvolutionaryModelException
              "Train the model before performing a prediction."),
     self).
Proof. intros E. unfold predict, bind, read. rewrite E. reflexivity. Qed.

(** The constructor, called without a dictionary, stores no model. *)
Lemma search_init_untrained
    (in_size out_size task config predicted_name dictionary : value)
    (w w' : W) (self : EvolutionaryModel (Pop := Pop) (Model := Model)) :
  (forall d, dictionary <> VDict d) ->
  __init__ registry in_size out_size task config predicted_name dictionary w
  = (Ok self, w') ->
  _model self = None.
Proof.
  intros Hd E. unfold __init__ in E.
  destruct dictionary; try (exfalso; eapply Hd; reflexivity);
    split_run E; apply ret_Ok in E as [<- _]; reflexivity.
Qed.

(** Decoding the encoding of a trained evolutionary model, when the
    registry reconstructs its candidate. *)
Lemma search_round_trip (self : EvolutionaryModel (Pop := Pop) (Model := Model)) (inner inner' : Model)
    (in_size out_size task config predicted_name : value) (w : W)
    (X : DataFrame) :
  _model self = Some inner ->
  load_model registry (abstractModel.to_dict inner) = Ok inner' ->
  abstractModel.predict inner' X = abstractModel.predict inner X ->
  exists self',
    __init__ registry in_size out_size task config predicted_name
      (to_dict self) w = (Ok self', w) /\
    fst (predict X self') = fst (predict X self).
Proof.
  intros Hm Hload Hpred.
  unfold __init__, to_dict, _init_from_dictionary, dict_get, get, lift.
  rewrite Hm.
  repeat (first [ rewrite lookup_insert_eq
                | rewrite lookup_insert_ne by discriminate ]; simpl).
  rewrite Hload. eexists. split; [reflexivity|].
  unfold predict, bind, read, lift. simpl. rewrite Hm, Hpred. reflexivity.
Qed.

End EvolutionaryFacts.

(** C2. Under the round-trip law of [pickle], decoding the encoding of a
    model gives a model that predicts as the original does, on every
    input: for every random forest model, and for every trained
    evolutionary model whose candidate is a random forest model that the
    registry reconstructs by its constructor. *)
Theorem decode_encode_predicts_identically `{Collaborators} :
  (forall m, pickle_loads (pickle_dumps m) = Ok m) ->
  (forall (self : randomForestModel.RandomForestModel) (X : DataFrame),
      exists self',
        randomForestModel.reconstruct (randomForestModel.to_dict self)
        = Ok self' /\
        fst (randomForestModel.predict X self')
        = fst (randomForestModel.predict X self)) /\
  (forall (W Pop Chrom : Type)
          (E : evolutionaryModel.Engine W Pop Chrom
                 randomForestModel.RandomForestModel)
          (registry : gmap string
                        (value -> result randomForestModel.RandomForestModel))
          (self : evolutionaryModel.EvolutionaryModel (Pop := Pop))
          (inner : randomForestModel.RandomForestModel)
          (in_size out_size task config predicted_name : value) (w : W)
          (X : DataFrame),
      registry !! RANDOM_FOREST_MODEL = Some randomForestModel.reconstruct ->
      evolutionaryModel._model self = Some inner ->
      exists self',
        evolutionaryModel.__init__ registry in_size out_size task config
          predicted_name (evolutionaryModel.to_dict self) w = (Ok self', w) /\
        fst (evolutionaryModel.predict X self')
        = fst (evolutionaryModel.predict X self)).
Proof.
  intros Hpickle. split.
  - intros self X. apply forest_round_trip, Hpickle.
  - intros W Pop Chrom E registry self inner in_size out_size task config
      predicted_name w X Hreg Hm.
    destruct (forest_round_trip inner X Hpickle) as (inner' & Hdec & Hpred).
    eapply search_round_trip; [exact Hm | | exact Hpred].
    unfold evolutionaryModel.load_model. simpl.
    unfold randomForestModel.to_dict at 1. unfold dict_get, get.
    rewrite lookup_insert_eq. simpl.
    unfold randomForestModel.model_type. rewrite Hreg. exact Hdec.
Qed.

Lemma toy_pickle_round_trip (m : option (estimator (Collaborators := samples.toy))) :
  pickle_loads (pickle_dumps m) = Ok m.
Proof. destruct m as [[|]|]; reflexivity. Qed.

Lemma decode_encode_predicts_identically_witness :
  exists self',
    randomForestModel.reconstruct (H := samples.toy)
      (randomForestModel.to_dict
         (randomForestModel.set_best samples.fresh_forest (1 # 2) true))
    = Ok self' /\
    fst (randomForestModel.predict samples.features self')
    = fst (randomForestModel.predict samples.features
             (randomForestModel.set_best samples.fresh_forest (1 # 2) true)) /\
    fst (randomForestModel.predict samples.features self')
    = Ok ([], [[1%Q]; [2%Q]]).
Proof.
  destruct (proj1 (decode_encode_predicts_identically (H := samples.toy)
                     toy_pickle_round_trip)
              (randomForestModel.set_best samples.fresh_forest (1 # 2) true)
              samples.features) as (self' & Hdec & Hpred).
  exists self'. split; [exact Hdec|]. split; [exact Hpred|].
  rewrite Hpred. vm_compute. reflexivity.
Defined.

Lemma nan_validation_fraction_is_not_replaced_witness :
  fst (randomForestModel.train (H := samples.toy) samples.features
         samples.targets (VInt 3) (VFloat NaN) 10
         (samples.fresh_forest, samples.ticking))
  = Raise ValueError /\
  randomForestModel.train (H := samples.toy) samples.features samples.targets
    (VInt 3) (VFloat (Fin (15 # 10))) 10
    (samples.fresh_forest, samples.ticking)
  = randomForestModel.train samples.features samples.targets
      (VInt 3) (VFloat (Float64.round (2 # 10))) 10
      (samples.fresh_forest, samples.ticking) /\
  fst (randomForestModel.train (H := samples.toy) samples.features
         samples.targets (VInt 3) (VFloat (Fin (15 # 10))) 10
         (samples.fresh_forest, samples.ticking))
  = Ok None.
Proof.
  destruct (nan_validation_fraction_is_not_replaced (H := samples.toy)
              samples.features samples.targets (VInt 3) 10
              samples.fresh_forest samples.ticking ValueError)
    as (_ & Hnan & Hout).
  { reflexivity. }
  { reflexivity. }
  destruct (Hout (Fin (15 # 10))) as [_ Ht].
  { right. reflexivity. }
  split; [exact Hnan|]. split; [exact Ht|].
  rewrite Ht. vm_compute. reflexivity.
Defined.

(** C8, as the code has it.  What [predict] asks is whether the model
    stores a fitted model, not how the calls of [train] ended.  A model
    that stores none, as every model does from its construction without a
    dictionary until a [train] call stores one, raises on [predict], for
    every input, the exception of its class, and the call leaves the model
    as it was: so does a random forest model and so does an evolutionary
    model. *)
Theorem predict_before_train_raises `{Collaborators} :
  (forall (self : randomForestModel.RandomForestModel) (X : DataFrame),
      randomForestModel._model self = None ->
      randomForestModel.predict X self
      = (Raise (RandomForestModelException
                  "Could not call predict before train."), self)) /\
  (forall (task config predicted_name dictionary : value)
          (self : randomForestModel.RandomForestModel) (X : DataFrame),
      (forall d, dictionary <> VDict d) ->
      randomForestModel.__init__ task config predicted_name dictionary
      = Ok self ->
      randomForestModel.predict X self
      = (Raise (RandomForestModelException
                  "Could not call predict before train."), self)) /\
  (forall (Pop Model : Type) (A : abstractModel.AbstractModel Model)
          (self : evolutionaryModel.EvolutionaryModel (Pop := Pop))
          (X : DataFrame),
      evolutionaryModel._model self = None ->
      evolutionaryModel.predict X self
      = (Raise (EvolutionaryModelException
                  "Train the model before performing a prediction."), self)) /\
  (forall (W Pop Chrom Model : Type) (A : abstractModel.AbstractModel Model)
          (E : evolutionaryModel.Engine W Pop Chrom Model)
          (registry : gmap string (value -> result Model))
          (in_size out_size task config predicted_name dictionary : value)
          (w w' : W) (self : evolutionaryModel.EvolutionaryModel (Pop := Pop))
          (X : DataFrame),
      (forall d, dictionary <> VDict d) ->
      evolutionaryModel.__init__ registry in_size out_size task config
        predicted_name dictionary w = (Ok self, w') ->
      evolutionaryModel.predict X self
      = (Raise (EvolutionaryModelException
                  "Train the model before performing a prediction."), self)).
Proof.
  split; [|split; [|split]].
  - intros self X. apply predict_untrained.
  - intros task config predicted_name dictionary self X Hd E.
    apply predict_untrained. eapply init_untrained; eassumption.
  - intros Pop Model A self X. apply search_predict_untrained.
  - intros W Pop Chrom Model A E registry in_size out_size task config
      predicted_name dictionary w w' self X Hd Hi.
    apply search_predict_untrained.
    eapply search_init_untrained; eassumption.
Qed.

Lemma predict_before_train_raises_witness :
  randomForestModel.predict (H := samples.toy) samples.features
    samples.fresh_forest
  = (Raise (RandomForestModelException "Could not call predict before train."),
     samples.fresh_forest) /\
  evolutionaryModel.predict (H := samples.toy)
    (AbstractModel0 := samples.toy_candidate) samples.features
    samples.fresh_search
  = (Raise (EvolutionaryModelException
              "Train the model before performing a prediction."),
     samples.fresh_search).
Proof.
  split.
  - apply (proj1 (proj2 (predict_before_train_raises (H := samples.toy)))
             (VStr CLASSIFICATION) (VDict ∅) VNone VNone).
    + discriminate.
    + reflexivity.
  - apply (proj1 (proj2 (proj2 (predict_before_train_raises (H := samples.toy))))).
    reflexivity.
Defined.

(** C8, as the claim has it, fails: a call of [train] that raises may
    already have stored a fitted forest.  On a clock that stands still the
    first iteration stores its forest and then divides by a zero average;
    [train] raises [ZeroDivisionError], and [predict] on the model it
    leaves returns predictions. *)
Lemma predict_after_failed_train_returns :
  fst (randomForestModel.train (H := samples.toy) samples.features
         samples.targets (VInt 3) VNone 10
         (samples.fresh_forest, samples.stalled))
  = Raise ZeroDivisionError /\
  randomForestModel._model
    (fst (snd (randomForestModel.train (H := samples.toy) samples.features
                 samples.targets (VInt 3) VNone 10
                 (samples.fresh_forest, samples.stalled))))
  = Some true /\
  fst (randomForestModel.predict (H := samples.toy) samples.features
         (fst (snd (randomForestModel.train (H := samples.toy)
                      samples.features samples.targets (VInt 3) VNone 10
                      (samples.fresh_forest, samples.stalled)))))
  = Ok (["y"], [[1%Q]; [2%Q]]).
Proof. repeat split; vm_compute; reflexivity. Qed.

(** ** What [train] returns *)

(** C5. On a fresh random forest model, a training run that completes
    stores a fitted forest in the model and returns [None], not the model;
    on a fresh evolutionary model, [train] returns the candidate it has
    selected, which is not the evolutionary model either. *)
Theorem train_does_not_return_the_model :
  fst (randomForestModel.train (H := samples.toy) samples.features
         samples.targets (VInt 3) VNone 10 (samples.fresh_forest, samples.ticking))
  = Ok None /\
  randomForestModel._model
    (fst (snd (randomForestModel.train (H := samples.toy) samples.features
                 samples.targets (VInt 3) VNone 10
                 (samples.fresh_forest, samples.ticking))))
  = Some true /\
  fst (evolutionaryModel.train (Engine0 := samples.toy_engine)
         samples.features samples.targets 600 VNone
         (samples.fresh_search, 0%nat))
  = Ok 1%nat.
Proof. repeat split; vm_compute; reflexivity. Qed.

(** ** The record of the best offspring *)

(** The guard of the record compares scores the same way for every task:
    it is the comparator of regression, and the reverse of the comparator
    of classification. *)
Lemma overwrites_is_regression_comparator (best score : Q) :
  evolutionaryModel.overwrites (Some best) score
  = ranking.spec_is_fitter REGRESSION score best.
Proof. reflexivity. Qed.

Lemma overwrites_reverses_classification_comparator (best score : Q) :
  evolutionaryModel.overwrites (Some best) score
  = ranking.spec_is_fitter CLASSIFICATION best score.
Proof. reflexivity. Qed.

(** On a scripted engine whose first offspring scores 9/10 and whose second
    scores 5/10, a classification run holds 9/10 as its best score after
    the first generation and 5/10 after the second. *)
Lemma scripted_run_overwrites_with_less_fit_score :
  evolutionaryModel._task samples.fresh_search = VStr CLASSIFICATION /\
  evolutionaryModel._model_score
    (fst (snd (evolutionaryModel.epochs_loop (Engine0 := samples.toy_engine)
                 1 samples.features samples.targets 600 VNone
                 (samples.fresh_search, 0%nat))))
  = Assigned (Some (9 # 10)) /\
  evolutionaryModel._model_score
    (fst (snd (evolutionaryModel.epochs_loop (Engine0 := samples.toy_engine)
                 2 samples.features samples.targets 600 VNone
                 (samples.fresh_search, 0%nat))))
  = Assigned (Some (5 # 10)).
Proof. repeat split; vm_compute; reflexivity. Qed.


(** * Further properties *)

(** ** Specifications of runs *)

Section Triples.
Import runs.
Context {S : Type}.

Lemma triple_ret {A} (a : A) (P : S -> Prop) (Q : A -> S -> Prop)
    (R : S -> Prop) :
  (forall s, P s -> Q a s) -> triple P (ret a) Q R.
Proof. intros H s Hs. apply H, Hs. Qed.

Lemma triple_raise {A} (e : exn) (P : S -> Prop) (Q : A -> S -> Prop)
    (R : S -> Prop) :
  (forall s, P s -> R s) -> triple P (raise e) Q R.
Proof. intros H s Hs. apply H, Hs. Qed.

Lemma triple_lift {A} (r : result A) (P : S -> Prop) (Q : A -> S -> Prop)
    (R : S -> Prop) :
  (forall a s, r = Ok a -> P s -> Q a s) -> (forall s, P s -> R s) ->
  triple P (lift r) Q R.
Proof.
  intros HQ HR s Hs. unfold lift. destruct r as [a|e].
  - apply HQ; [reflexivity | exact Hs].
  - apply HR, Hs.
Qed.

Lemma triple_bind {A B} (m : ST S A) (k : A -> ST S B)
    (P : S -> Prop) (Q : A -> S -> Prop) (Q' : B -> S -> Prop)
    (R : S -> Prop) :
  triple P m Q R -> (forall a, triple (Q a) (k a) Q' R) ->
  triple P (bind m k) Q' R.
Proof.
  intros Hm Hk s Hs. unfold bind. specialize (Hm s Hs).
  destruct (m s) as [[a|e] s1]; [apply Hk, Hm | exact Hm].
Qed.

Lemma triple_weaken {A} (m : ST S A) (P P' : S -> Prop)
    (Q Q' : A -> S -> Prop) (R R' : S -> Prop) :
  triple P m Q R -> (forall s, P' s -> P s) ->
  (forall a s, Q a s -> Q' a s) -> (forall s, R s -> R' s) ->
  triple P' m Q' R'.
Proof.
  intros Hm HP HQ HR s Hs. specialize (Hm s (HP s Hs)).
  destruct (m s) as [[a|e] s1]; [apply HQ, Hm | apply HR, Hm].
Qed.

Lemma triple_read (P : S -> Prop) (R : S -> Prop) :
  triple P read (fun a s => a = s /\ P s) R.
Proof. intros s Hs. split; [reflexivity | exact Hs]. Qed.

Lemma triple_if {A} (b : bool) (m1 m2 : ST S A) (P : S -> Prop)
    (Q : A -> S -> Prop) (R : S -> Prop) :
  (b = true -> triple P m1 Q R) -> (b = false -> triple P m2 Q R) ->
  triple P (if b then m1 else m2) Q R.
Proof. destruct b; intros H1 H2; [apply H1 | apply H2]; reflexivity. Qed.

End Triples.

(** Effects on the second component leave the first as it is. *)
Lemma triple_on_snd {S T A} (m : ST T A) (P : S -> Prop) :
  runs.triple (fun st : S * T => P (fst st)) (on_snd m)
    (fun _ st => P (fst st)) (fun st => P (fst st)).
Proof.
  intros [s t] Hs. unfold on_snd. simpl.
  destruct (m t) as [[a|e] t']; exact Hs.
Qed.

Lemma triple_get_self {S T} (P : S * T -> Prop) (R : S * T -> Prop) :
  runs.triple P (on_fst read) (fun a st => a = fst st /\ P st) R.
Proof. intros [s t] Hs. simpl. split; [reflexivity | exact Hs]. Qed.

Lemma triple_set_self {S T} (x : S) (P : S * T -> Prop)
    (Q : unit -> S * T -> Prop) (R : S * T -> Prop) :
  (forall st, P st -> Q tt (x, snd st)) ->
  runs.triple P (on_fst (write x)) Q R.
Proof. intros H [s t] Hs. simpl. apply (H (s, t) Hs). Qed.

(** ** model_creation.py: what the factory draws *)

Section FactoryFacts.
Import model_creation runs.

Lemma choice_list_in {A} (l : list A) (g g' : rng) (x : A) :
  Random.choice_list l g = (Ok x, g') -> x ∈ l.
Proof.
  unfold Random.choice_list. destruct l as [|y l']; [discriminate|].
  intros E. apply bind_Ok in E as (i & g1 & _ & E).
  destruct ((y :: l') !! i) as [z|] eqn:Hz; [|discriminate E].
  apply ret_Ok in E as [<- _]. eapply list_elem_of_lookup_2, Hz.
Qed.

Lemma choice_in_elements (v x : pyval) (g g' : rng) :
  Random.choice v g = (Ok x, g') -> x ∈ elements v.
Proof.
  destruct v; simpl; try discriminate; apply choice_list_in.
Qed.

Lemma randint_range (a b r : Z) (g g' : rng) :
  Random.randint a b g = (Ok r, g') -> a <= r <= b.
Proof.
  unfold Random.randint, Random.randbelow.
  destruct (b <? a) eqn:Hab; [discriminate|]. apply Z.ltb_ge in Hab.
  intros E. apply bind_Ok in E as (i & g1 & Ei & E).
  apply ret_Ok in E as [<- _].
  apply bind_Ok in Ei as (raw & g2 & _ & Ei). apply ret_Ok in Ei as [<- _].
  assert (Hlt : (N.to_nat raw mod Z.to_nat (b - a + 1) < Z.to_nat (b - a + 1))%nat)
    by (apply Nat.mod_upper_bound; lia).
  lia.
Qed.

Lemma comprehension_inv {A} (P : A -> Prop) (m : M A) (n : nat) :
  (forall g x g', m g = (Ok x, g') -> P x) ->
  forall g l g', comprehension n m g = (Ok l, g') ->
                 length l = n /\ Forall P l.
Proof.
  intros Hm. induction n as [|n IH]; intros g l g' E; simpl in E.
  - apply ret_Ok in E as [<- _]. split; [reflexivity | constructor].
  - apply bind_Ok in E as (x & g1 & Ex & E).
    apply bind_Ok in E as (xs & g2 & Exs & E).
    apply ret_Ok in E as [<- _].
    destruct (IH _ _ _ Exs) as [Hlen Hall].
    split; [simpl; lia|]. constructor; [eapply Hm, Ex | exact Hall].
Qed.

Lemma as_int_inv (v : pyval) (z : Z) : as_int v = Ok z -> integer_value v z.
Proof.
  destruct v as [| z' | q | |]; simpl; try discriminate.
  - intros E. injection E as ->. left. reflexivity.
  - destruct (Qeq_bool (inject_Z (Qfloor q)) q) eqn:Eq; [|discriminate].
    intros E. injection E as <-. right. exists q. split; [reflexivity|].
    symmetry. apply Qeq_bool_eq, Eq.
Qed.

Lemma plus_one_value (v stop : pyval) (z : Z) :
  plus_one v = Ok stop -> as_int stop = Ok z -> integer_value v (z - 1).
Proof.
  destruct v as [| z' | q | |]; simpl; try discriminate;
    intros E; injection E as <-; intros Es; apply as_int_inv in Es.
  - destruct Es as [Es | (q & Es & _)]; [|discriminate Es].
    injection Es as <-. left. f_equal. lia.
  - destruct Es as [Es | (q' & Es & Hq)]; [discriminate Es|].
    injection Es as <-. right. exists q. split; [reflexivity|].
    unfold Z.sub. rewrite inject_Z_plus, inject_Z_opp.
    change (inject_Z 1) with 1%Q. lra.
Qed.

(** A successful [randint] on values. *)
Lemma randint__range (a b : pyval) (r : Z) (g g' : rng) :
  randint_ a b g = (Ok r, g') ->
  exists stop lo istop,
    plus_one b = Ok stop /\ as_int a = Ok lo /\ as_int stop = Ok istop /\
    lo <= r <= istop - 1.
Proof.
  intros E. unfold randint_ in E.
  apply bind_Ok in E as (stop & g0 & Es & E). apply lift_Ok in Es as [Es ->].
  apply bind_Ok in E as (lo & g1 & Elo & E). apply lift_Ok in Elo as [Elo ->].
  apply bind_Ok in E as (istop & g2 & Ei & E). apply lift_Ok in Ei as [Ei ->].
  apply randint_range in E. exists stop, lo, istop. repeat split; tauto.
Qed.

(** A successful draw of one width from the range of a layer choice. *)
Lemma width_draw (layer_choice x : pyval) (g g' : rng) :
  (do c0 <- lift (subscript layer_choice 0);
   do c1 <- lift (subscript layer_choice 1);
   do w <- randint_ c0 c1;
   ret (PInt w)) g = (Ok x, g') ->
  exists c0 c1 stop lo istop w,
    subscript layer_choice 0 = Ok c0 /\
    subscript layer_choice 1 = Ok c1 /\
    plus_one c1 = Ok stop /\ as_int c0 = Ok lo /\ as_int stop = Ok istop /\
    x = PInt w /\ lo <= w <= istop - 1.
Proof.
  intros E.
  apply bind_Ok in E as (c0 & g0 & E0 & E). apply lift_Ok in E0 as [E0 ->].
  apply bind_Ok in E as (c1 & g1 & E1 & E). apply lift_Ok in E1 as [E1 ->].
  apply bind_Ok in E as (w & g4 & Ew & E). apply ret_Ok in E as [<- _].
  apply randint__range in Ew as (stop & lo & istop & Hs & Hlo & Hi & Hw).
  exists c0, c1, stop, lo, istop, w. repeat split; try assumption; lia.
Qed.

Lemma Forall_PInt (P : Z -> Prop) (l : list pyval) :
  Forall (fun v => exists w, v = PInt w /\ P w) l ->
  exists ws, l = PInt <$> ws /\ Forall P ws.
Proof.
  induction 1 as [|v l (w & -> & Hw) _ (ws & -> & Hws)].
  - exists []. split; [reflexivity | constructor].
  - exists (w :: ws). split; [reflexivity | constructor; assumption].
Qed.

(** The number of layers drawn for the third entry of a layer choice. *)
Lemma layer_count_drawn (c2 top : pyval) (count : Z) (g g' : rng) :
  max_one c2 = Ok top ->
  randint_ (PInt 1) top g = (Ok count, g') ->
  1 <= count /\ layer_count_for c2 (Z.to_nat count).
Proof.
  intros Ht Ec.
  apply randint__range in Ec as (stop & lo & istop & Hs & Hlo & Hi & Hc).
  injection Hlo as <-. split; [lia|].
  pose proof (plus_one_value _ _ _ Hs Hi) as Hv.
  destruct c2 as [| z | q | |]; simpl in Ht; try discriminate Ht;
    injection Ht as <-.
  - left. exists z. split; [left; reflexivity|].
    destruct (z <? 1) eqn:Ez.
    + destruct Hv as [Hv | (q & Hv & _)]; [|discriminate Hv].
      injection Hv as Hv. lia.
    + apply Z.ltb_ge in Ez.
      destruct Hv as [Hv | (q & Hv & _)]; [|discriminate Hv].
      injection Hv as Hv. lia.
  - destruct (Qltb q 1) eqn:Eq.
    + right. exists q. apply Qltb_lt in Eq.
      destruct Hv as [Hv | (q' & Hv & _)]; [|discriminate Hv].
      injection Hv as Hv. repeat split; [exact Eq | lia].
    + left. exists (istop - 1). split; [exact Hv | lia].
Qed.

(** The value bound to [layers]: either ["smooth"], or widths drawn for a
    layer choice [[lo, hi, n]] of the search space. *)
Lemma layers_shape (layer_choice layers : pyval) (g g' : rng) :
  match layer_choice with
  | PStr _ => ret (PStr "smooth")
  | _ =>
      do c2 <- lift (subscript layer_choice 2);
      do top <- lift (max_one c2);
      do layer_count <- randint_ (PInt 1) top;
      do widths <-
        comprehension (Z.to_nat layer_count)
          (do c0 <- lift (subscript layer_choice 0);
           do c1 <- lift (subscript layer_choice 1);
           do w <- randint_ c0 c1;
           ret (PInt w));
      ret (PList widths)
  end g = (Ok layers, g') ->
  (is_str layer_choice /\ layers = PStr "smooth") \/
  exists c0 c1 c2 lo hi widths,
    subscript layer_choice 0 = Ok c0 /\ integer_value c0 lo /\
    subscript layer_choice 1 = Ok c1 /\ integer_value c1 hi /\
    subscript layer_choice 2 = Ok c2 /\
    layer_count_for c2 (length widths) /\
    layers = PList (PInt <$> widths) /\
    (1 <= length widths)%nat /\
    Forall (fun w => lo <= w <= hi) widths.
Proof.
  intros E.
  destruct layer_choice as [| z | q | s | lc];
    try (apply ret_Ok in E as [<- _]; left; split; [eexists|]; reflexivity);
    try (apply bind_Ok in E as (? & ? & E0 & _); discriminate E0).
  right.
  apply bind_Ok in E as (c2 & g0 & E2 & E). apply lift_Ok in E2 as [E2 ->].
  apply bind_Ok in E as (top & g1 & Et & E). apply lift_Ok in Et as [Et ->].
  apply bind_Ok in E as (layer_count & g2 & Ec & E).
  apply bind_Ok in E as (widths & g3 & Ew & E).
  apply ret_Ok in E as [<- _].
  destruct (layer_count_drawn _ _ _ _ _ Et Ec) as [Hc1 Hcount].
  destruct (Z.to_nat layer_count) as [|k] eqn:Hk; [lia|].
  pose proof Ew as Ew'. simpl in Ew'.
  apply bind_Ok in Ew' as (x & g4 & Ex & _).
  apply (width_draw (PList lc)) in Ex
    as (c0 & c1 & stop & lo & istop & w & H0 & H1 & Hs & Hlo & Hi & _ & _).
  apply (comprehension_inv
           (fun v => exists w, v = PInt w /\ lo <= w <= istop - 1))
    in Ew as [Hlen Hall].
  - apply Forall_PInt in Hall as (ws & -> & Hws).
    rewrite length_fmap in Hlen.
    exists c0, c1, c2, lo, (istop - 1), ws.
    rewrite Hlen.
    repeat split; try assumption; try lia.
    + apply as_int_inv, Hlo.
    + eapply plus_one_value; eassumption.
  - intros g5 y g5' Ey.
    apply width_draw in Ey
      as (c0' & c1' & stop' & lo' & istop' & w' & H0' & H1' & Hs' & Hlo' & Hi'
          & -> & Hw).
    rewrite H0 in H0'. injection H0' as <-.
    rewrite H1 in H1'. injection H1' as <-.
    rewrite Hs in Hs'. injection Hs' as <-.
    rewrite Hlo in Hlo'. injection Hlo' as <-.
    rewrite Hi in Hi'. injection Hi' as <-.
    exists w'. split; [reflexivity | exact Hw].
Qed.

(** The steps of a run of [create_deep_learning_model] that returns. *)
Lemma create_deep_learning_model_inv (in_size out_size : Z)
    (config : gmap string pyval) (task : string) (criterion : entry)
    (g g' : rng) (m : DeepLearningModel) :
  create_deep_learning_model in_size out_size config task criterion g
  = (Ok m, g') ->
  exists optimizer learning_rate momentum layer_choice layers
         activation_choice sampled activation dropout,
    layer_choice ∈ elements (get config "HIDDEN_LAYERS_CHOICES"
                               (PList [PStr "smooth";
                                       PList [PInt 10; PInt 512; PInt 6]])) /\
    ((is_str layer_choice /\ layers = PStr "smooth") \/
     exists c0 c1 c2 lo hi widths,
       subscript layer_choice 0 = Ok c0 /\ integer_value c0 lo /\
       subscript layer_choice 1 = Ok c1 /\ integer_value c1 hi /\
       subscript layer_choice 2 = Ok c2 /\
       layer_count_for c2 (length widths) /\
       layers = PList (PInt <$> widths) /\
       (1 <= length widths)%nat /\
       Forall (fun w => lo <= w <= hi) widths) /\
    ((eq_str activation_choice "uniform" || eq_str layers "smooth" = true /\
      exists a, a ∈ elements (get config "ACTIVATION_CHOICES" default_activations)
                /\ sampled ∈ elements a) \/
     (eq_str activation_choice "uniform" || eq_str layers "smooth" = false /\
      exists n acts,
        len layers = Ok n /\ sampled = PList acts /\
        length acts = (n + 1)%nat /\
        Forall (fun a => a ∈ elements (get config "ACTIVATION_CHOICES"
                                         default_activations)) acts)) /\
    ((String.eqb task CLASSIFICATION = false /\ activation = sampled) \/
     (String.eqb task CLASSIFICATION = true /\
      ((is_str sampled /\ activation = PStr "sigmoid") \/
       exists l l', sampled = PList l /\ set_last l (PStr "sigmoid") = Ok l' /\
                    activation = PList l'))) /\
    m = {| dl_in_size := in_size; dl_out_size := out_size; dl_task := task;
           dl_config :=
             <["CRITERION" := criterion]>
             (<["OPTIMIZER" := Val optimizer]>
             (<["LEARNING_RATE" := Val (PFloat learning_rate)]>
             (<["MOMENTUM" := Val (PFloat momentum)]>
             (<["HIDDEN_LAYERS" := Val layers]>
             (<["ACTIVATIONS" := Val activation]>
             (<["DROPOUT" := Val (PFloat dropout)]> ∅)))))) |}.
Proof.
  intros E. unfold create_deep_learning_model in E.
  apply bind_Ok in E as (optimizer & g1 & _ & E).
  apply bind_Ok in E as (learning_rate & g2 & _ & E).
  apply bind_Ok in E as (momentum & g3 & _ & E).
  apply bind_Ok in E as (layer_choice & g4 & Elc & E).
  apply bind_Ok in E as (layers & g5 & Elayers & E).
  apply bind_Ok in E as (activation_choice & g6 & _ & E).
  apply bind_Ok in E as (sampled & g7 & Esampled & E).
  apply bind_Ok in E as (activation & g8 & Eact & E).
  apply bind_Ok in E as (dropout & g9 & _ & E).
  apply ret_Ok in E as [<- _].
  exists optimizer, learning_rate, momentum, layer_choice, layers,
    activation_choice, sampled, activation, dropout.
  split; [eapply choice_in_elements, Elc|].
  split; [eapply layers_shape, Elayers|].
  split; [|split; [|reflexivity]].
  - destruct (eq_str activation_choice "uniform" || eq_str layers "smooth").
    + left. split; [reflexivity|].
      apply bind_Ok in Esampled as (a & ga & Ea & Es).
      exists a. split; eapply choice_in_elements; eassumption.
    + right. split; [reflexivity|].
      apply bind_Ok in Esampled as (n & gn & En & Es).
      apply lift_Ok in En as [En ->].
      apply bind_Ok in Es as (acts & gacts & Eacts & Es).
      apply ret_Ok in Es as [<- _].
      apply (comprehension_inv
               (fun a => a ∈ elements (get config "ACTIVATION_CHOICES"
                                         default_activations)))
        in Eacts as [Hlen Hall].
      * exists n, acts. repeat split; assumption.
      * intros gx x gx'. apply choice_in_elements.
  - destruct (String.eqb task CLASSIFICATION).
    + right. split; [reflexivity|].
      destruct sampled as [| z | q | s | l];
        try (unfold raise in Eact; discriminate Eact).
      * apply ret_Ok in Eact as [<- _]. left.
        split; [eexists|]; reflexivity.
      * apply bind_Ok in Eact as (l' & gl & El & Eact).
        apply lift_Ok in El as [El ->]. apply ret_Ok in Eact as [<- _].
        right. exists l, l'. repeat split. exact El.
    + left. split; [reflexivity|].
      apply ret_Ok in Eact as [<- _]. reflexivity.
Qed.

Lemma chars_are_strings (s : string) (c : pyval) :
  c ∈ Random.chars s -> exists ch, c = PStr (String ch EmptyString).
Proof.
  induction s as [|ch s IH]; simpl; intros Hc.
  - apply elem_of_nil in Hc. contradiction.
  - apply elem_of_cons in Hc as [-> | Hc]; [eexists; reflexivity | apply IH, Hc].
Qed.

Lemma set_last_length {A} (l l' : list A) (x : A) :
  set_last l x = Ok l' -> length l' = length l.
Proof.
  unfold set_last. destruct l; [discriminate|].
  intros E. injection E as <-. apply length_insert.
Qed.

End FactoryFacts.

(** X1. Whenever [create_deep_learning_model] returns, the [HIDDEN_LAYERS]
    entry of the configuration it builds is ["smooth"], for a layer choice
    of the search space that is a string, or a list of widths drawn for a
    layer choice of the search space that is a list [[c0, c1, c2, ...]].
    Then [c0] and [c1] are the integers [lo] and [hi], each an int or a
    float without a fraction, which [randint] takes up to Python 3.11, and
    every width is an int between [lo] and [hi].  The list has at least
    one width, and at most [max(n, 1)] when [c2] is the integer [n]; it
    has one when [c2] is a float below one.  Floats are taken as
    rationals. *)
Theorem hidden_layers_within_declared_bounds
    (in_size out_size : Z) (config : gmap string pyval) (task : string)
    (criterion : entry) (g g' : rng) (m : model_creation.DeepLearningModel) :
  model_creation.create_deep_learning_model in_size out_size config task
    criterion g = (Ok m, g') ->
  (exists layer_choice,
      layer_choice ∈ runs.elements
                       (get config "HIDDEN_LAYERS_CHOICES"
                          (PList [PStr "smooth";
                                  PList [PInt 10; PInt 512; PInt 6]])) /\
      runs.is_str layer_choice /\
      model_creation.dl_config m !! "HIDDEN_LAYERS"
      = Some (Val (PStr "smooth"))) \/
  exists layer_choice c0 c1 c2 lo hi widths,
    layer_choice ∈ runs.elements
                     (get config "HIDDEN_LAYERS_CHOICES"
                        (PList [PStr "smooth";
                                PList [PInt 10; PInt 512; PInt 6]])) /\
    model_creation.subscript layer_choice 0 = Ok c0 /\
    runs.integer_value c0 lo /\
    model_creation.subscript layer_choice 1 = Ok c1 /\
    runs.integer_value c1 hi /\
    model_creation.subscript layer_choice 2 = Ok c2 /\
    runs.layer_count_for c2 (length widths) /\
    model_creation.dl_config m !! "HIDDEN_LAYERS"
    = Some (Val (PList (PInt <$> widths))) /\
    (1 <= length widths)%nat /\
    Forall (fun w => lo <= w <= hi) widths.
Proof.
  intros E.
  apply create_deep_learning_model_inv in E
    as (optimizer & learning_rate & momentum & layer_choice & layers
        & activation_choice & sampled & activation & dropout
        & Hlc & Hlayers & _ & _ & ->).
  simpl. rewrite !lookup_insert_ne by discriminate. rewrite lookup_insert_eq.
  destruct Hlayers
    as [[Hs ->] | (c0 & c1 & c2 & lo & hi & widths & H0 & Hlo & H1 & Hhi & H2
                   & Hcount & -> & Hw)].
  - left. exists layer_choice. repeat split; assumption.
  - right. exists layer_choice, c0, c1, c2, lo, hi, widths.
    split; [exact Hlc|]. repeat (split; [assumption|]).
    split; [reflexivity | exact Hw].
Qed.

Lemma hidden_layers_within_declared_bounds_witness :
  exists m g',
    model_creation.create_deep_learning_model 4 1
      (<["HIDDEN_LAYERS_CHOICES" :=
           PList [PList [PFloat 10; PFloat 20; PInt 2]]]> ∅)
      REGRESSION (Val (PStr "MSE")) (samples.constant_rng 1) = (Ok m, g') /\
    exists widths,
      model_creation.dl_config m !! "HIDDEN_LAYERS"
      = Some (Val (PList (PInt <$> widths))) /\
      (1 <= length widths)%nat /\ Z.of_nat (length widths) <= 2 /\
      Forall (fun w => 10 <= w <= 20) widths.
Proof.
  pose proof (hidden_layers_within_declared_bounds 4 1
                (<["HIDDEN_LAYERS_CHOICES" :=
                     PList [PList [PFloat 10; PFloat 20; PInt 2]]]> ∅)
                REGRESSION
                (Val (PStr "MSE")) (samples.constant_rng 1)) as H.
  remember (model_creation.create_deep_learning_model 4 1
              (<["HIDDEN_LAYERS_CHOICES" :=
                   PList [PList [PFloat 10; PFloat 20; PInt 2]]]> ∅)
              REGRESSION
              (Val (PStr "MSE")) (samples.constant_rng 1)) as r eqn:Hr.
  vm_compute in Hr. destruct r as [[m|e] g']; [|discriminate Hr].
  exists m, g'. split; [reflexivity|].
  destruct (H g' m eq_refl)
    as [Hs | (lc & c0 & c1 & c2 & lo & hi & widths & Hlc & H0 & Hlo & H1 & Hhi
              & H2 & Hcount & Hl & Hlen & Hw)].
  - destruct Hs as (lc & _ & _ & Hs).
    injection Hr as -> _. vm_compute in Hs. discriminate Hs.
  - exists widths. split; [exact Hl|].
    unfold get in Hlc. rewrite lookup_insert_eq in Hlc. simpl in Hlc.
    apply list_elem_of_singleton in Hlc as ->.
    injection H0 as <-. injection H1 as <-. injection H2 as <-.
    assert (lo = 10).
    { destruct Hlo as [Hlo | (q & Hq & Hv)]; [discriminate Hlo|].
      injection Hq as <-. symmetry. apply (inject_Z_injective 10 lo), Hv. }
    assert (hi = 20).
    { destruct Hhi as [Hhi | (q & Hq & Hv)]; [discriminate Hhi|].
      injection Hq as <-. symmetry. apply (inject_Z_injective 20 hi), Hv. }
    subst lo hi. split; [exact Hlen|]. split; [|exact Hw].
    destruct Hcount as [(n & Hn & Hle) | (q & Hq & _)]; [|discriminate Hq].
    destruct Hn as [Hn | (q & Hq & _)]; [|discriminate Hq].
    injection Hn as <-. exact Hle.
Defined.

(** X2. When every entry of [ACTIVATION_CHOICES] is a string and the
    factory returns a configuration whose [ACTIVATIONS] is a list, then
    [HIDDEN_LAYERS] is a list of widths and there is one activation more
    than there are hidden layers. *)
Theorem activations_one_more_than_layers
    (in_size out_size : Z) (config : gmap string pyval) (task : string)
    (criterion : entry) (g g' : rng) (m : model_creation.DeepLearningModel)
    (acts : list pyval) :
  Forall runs.is_str
    (runs.elements (get config "ACTIVATION_CHOICES"
                      model_creation.default_activations)) ->
  model_creation.create_deep_learning_model in_size out_size config task
    criterion g = (Ok m, g') ->
  model_creation.dl_config m !! "ACTIVATIONS" = Some (Val (PList acts)) ->
  exists widths,
    model_creation.dl_config m !! "HIDDEN_LAYERS"
    = Some (Val (PList (PInt <$> widths))) /\
    length acts = (length widths + 1)%nat.
Proof.
  intros Hstr E Hacts.
  apply create_deep_learning_model_inv in E
    as (optimizer & learning_rate & momentum & layer_choice & layers
        & activation_choice & sampled & activation & dropout
        & _ & Hlayers & Hsampled & Hact & ->).
  simpl in *. rewrite !lookup_insert_ne in * by discriminate.
  rewrite lookup_insert_eq in *. injection Hacts as ->.
  assert (Hs : exists l, sampled = PList l /\ length l = length acts).
  { destruct Hact as [[_ <-] | [_ [[_ Habs] | (l & l' & -> & Hl & Heq)]]].
    - eexists. split; reflexivity.
    - discriminate Habs.
    - injection Heq as <-. exists l. split; [reflexivity|].
      symmetry. eapply set_last_length, Hl. }
  destruct Hs as (l & -> & Hlen).
  destruct Hsampled as [[_ (a & Ha & Hin)] | [Hb (n & acts' & Hn & Heq & Hlen' & _)]].
  - rewrite Forall_forall in Hstr. destruct (Hstr a Ha) as [s ->].
    simpl in Hin. apply chars_are_strings in Hin as [ch Hch]. discriminate Hch.
  - injection Heq as <-.
    destruct Hlayers
      as [[_ ->] | (c0 & c1 & c2 & lo & hi & widths & _ & _ & _ & _ & _ & _
                    & -> & _)].
    + rewrite orb_true_r in Hb. discriminate Hb.
    + exists widths. split; [reflexivity|].
      simpl in Hn. injection Hn as <-. rewrite length_fmap in Hlen'. lia.
Qed.

Lemma default_activations_are_strings :
  Forall runs.is_str
    (runs.elements (get (∅ : gmap string pyval) "ACTIVATION_CHOICES"
                      model_creation.default_activations)).
Proof. repeat constructor; eexists; reflexivity. Qed.

Lemma activations_one_more_than_layers_witness :
  exists m g',
    model_creation.create_deep_learning_model 4 1 ∅ CLASSIFICATION
      (Val (PStr "MSE")) (samples.constant_rng 1) = (Ok m, g') /\
    model_creation.dl_config m !! "ACTIVATIONS"
    = Some (Val (PList [PStr "relu"; PStr "relu"; PStr "sigmoid"])) /\
    exists widths,
      model_creation.dl_config m !! "HIDDEN_LAYERS"
      = Some (Val (PList (PInt <$> widths))) /\
      3%nat = (length widths + 1)%nat.
Proof.
  pose proof (activations_one_more_than_layers 4 1 ∅ CLASSIFICATION
                (Val (PStr "MSE")) (samples.constant_rng 1)) as H.
  remember (model_creation.create_deep_learning_model 4 1 ∅ CLASSIFICATION
              (Val (PStr "MSE")) (samples.constant_rng 1)) as r eqn:Hr.
  vm_compute in Hr. destruct r as [[m|e] g']; [|discriminate Hr].
  exists m, g'. split; [reflexivity|].
  assert (Ha : model_creation.dl_config m !! "ACTIVATIONS"
               = Some (Val (PList [PStr "relu"; PStr "relu"; PStr "sigmoid"]))).
  { injection Hr as -> _. vm_compute. reflexivity. }
  split; [exact Ha|].
  exact (H g' m _ default_activations_are_strings eq_refl Ha).
Defined.

(** X3. For a task other than classification, when every entry of
    [ACTIVATION_CHOICES] is a string and the factory returns a
    configuration whose [ACTIVATIONS] is a string, that string is one
    character of one of the entries: the network-wide activation is drawn
    by [choice(choice(...))], and the inner [choice] draws from the
    characters of the name the outer one drew. *)
Theorem network_wide_activation_is_one_character
    (in_size out_size : Z) (config : gmap string pyval) (task : string)
    (criterion : entry) (g g' : rng) (m : model_creation.DeepLearningModel)
    (activation : string) :
  String.eqb task CLASSIFICATION = false ->
  Forall runs.is_str
    (runs.elements (get config "ACTIVATION_CHOICES"
                      model_creation.default_activations)) ->
  model_creation.create_deep_learning_model in_size out_size config task
    criterion g = (Ok m, g') ->
  model_creation.dl_config m !! "ACTIVATIONS" = Some (Val (PStr activation)) ->
  exists name ch,
    PStr name ∈ runs.elements (get config "ACTIVATION_CHOICES"
                                 model_creation.default_activations) /\
    PStr activation ∈ Random.chars name /\
    activation = String ch EmptyString.
Proof.
  intros Htask Hstr E Hact.
  apply create_deep_learning_model_inv in E
    as (optimizer & learning_rate & momentum & layer_choice & layers
        & activation_choice & sampled & activation' & dropout
        & _ & _ & Hsampled & Hov & ->).
  simpl in Hact. rewrite !lookup_insert_ne in Hact by discriminate.
  rewrite lookup_insert_eq in Hact. injection Hact as ->.
  destruct Hov as [[_ <-] | [Habs _]]; [|congruence].
  destruct Hsampled as [[_ (a & Ha & Hin)] | [_ (n & acts & _ & Heq & _)]];
    [|discriminate Heq].
  rewrite Forall_forall in Hstr. destruct (Hstr a Ha) as [name ->].
  simpl in Hin. destruct (chars_are_strings _ _ Hin) as [ch Hch].
  injection Hch as ->. exists name, ch. repeat split; assumption.
Qed.

Lemma network_wide_activation_is_one_character_witness :
  exists m g',
    model_creation.create_deep_learning_model 4 1 ∅ REGRESSION
      (Val (PStr "MSE")) (samples.constant_rng 0) = (Ok m, g') /\
    model_creation.dl_config m !! "ACTIVATIONS" = Some (Val (PStr "s")) /\
    exists name ch,
      PStr name ∈ runs.elements (get (∅ : gmap string pyval) "ACTIVATION_CHOICES"
                                   model_creation.default_activations) /\
      PStr "s" ∈ Random.chars name /\ "s" = String ch EmptyString.
Proof.
  pose proof (network_wide_activation_is_one_character 4 1 ∅ REGRESSION
                (Val (PStr "MSE")) (samples.constant_rng 0)) as H.
  remember (model_creation.create_deep_learning_model 4 1 ∅ REGRESSION
              (Val (PStr "MSE")) (samples.constant_rng 0)) as r eqn:Hr.
  vm_compute in Hr. destruct r as [[m|e] g']; [|discriminate Hr].
  exists m, g'. split; [reflexivity|].
  assert (Ha : model_creation.dl_config m !! "ACTIVATIONS"
               = Some (Val (PStr "s"))).
  { injection Hr as -> _. vm_compute. reflexivity. }
  split; [exact Ha|].
  exact (H g' m "s" eq_refl default_activations_are_strings eq_refl Ha).
Defined.

(** X4. With a search space that names no [MODELS] and no
    [NEURAL_NETWORK_EVOL_CONFIG], [create_random_model] returns a candidate
    whatever the random draws are, never [None] and never an exception;
    the candidate carries the sizes and the task it was asked for, and the
    [GENERAL_CRITERION] of the search space, or ["MSE"] in its absence, as
    its [CRITERION]. *)
Theorem create_random_model_defaults_give_candidate
    (in_size out_size : Z) (config : gmap string entry) (task : string)
    (g : rng) :
  config !! "MODELS" = None ->
  config !! "NEURAL_NETWORK_EVOL_CONFIG" = None ->
  exists m g',
    model_creation.create_random_model in_size out_size config task g
    = (Ok (Some m), g') /\
    model_creation.dl_in_size m = in_size /\
    model_creation.dl_out_size m = out_size /\
    model_creation.dl_task m = task /\
    model_creation.dl_config m !! "CRITERION"
    = Some (get config "GENERAL_CRITERION" (Val (PStr "MSE"))).
Proof.
  intros Hmodels Hnn.
  unfold model_creation.create_random_model, get. rewrite Hmodels, Hnn.
  destruct (succeeds_choice_list [PStr "neural_network"] ltac:(discriminate) g)
    as (model_type & g1 & Echoice & Hin).
  apply list_elem_of_singleton in Hin as ->.
  simpl Random.choice_entry. unfold Random.choice.
  rewrite (bind_eq_Ok _ _ _ _ _ Echoice). simpl model_creation.eq_str. cbv iota.
  destruct (create_deep_learning_model_default_returns in_size out_size task
              match config !! "GENERAL_CRITERION" with
              | Some v => v
              | None => Val (PStr "MSE")
              end g1) as (m & g' & E & _).
  exists m, g'.
  change (model_creation.eq_str (PStr "neural_network") "neural_network")
    with true.
  cbv iota. rewrite (bind_eq_Ok _ _ _ _ _ E). split; [reflexivity|].
  apply create_deep_learning_model_inv in E
    as (optimizer & learning_rate & momentum & layer_choice & layers
        & activation_choice & sampled & activation & dropout
        & _ & _ & _ & _ & ->).
  simpl. repeat split; try apply lookup_insert_eq.
Qed.

Lemma create_random_model_defaults_give_candidate_witness :
  exists m g',
    model_creation.create_random_model 4 1
      (<["GENERAL_CRITERION" := Val (PStr "CROSS_ENTROPY")]> ∅) CLASSIFICATION
      (samples.constant_rng 7)
    = (Ok (Some m), g') /\
    model_creation.dl_config m !! "CRITERION"
    = Some (Val (PStr "CROSS_ENTROPY")).
Proof.
  destruct (create_random_model_defaults_give_candidate 4 1
              (<["GENERAL_CRITERION" := Val (PStr "CROSS_ENTROPY")]> ∅)
              CLASSIFICATION (samples.constant_rng 7))
    as (m & g' & E & _ & _ & _ & Hc).
  - reflexivity.
  - reflexivity.
  - exists m, g'. split; [exact E|]. rewrite Hc. reflexivity.
Defined.

(** X5. [create_random_model] raises [IndexError], before any draw, when
    [MODELS] is an empty list; and when the tag drawn is
    ["neural_network"] but [NEURAL_NETWORK_EVOL_CONFIG] is not a
    dictionary, it raises [AttributeError]. *)
Theorem create_random_model_ill_formed_search_space
    (in_size out_size : Z) (config : gmap string entry) (task : string)
    (g : rng) :
  (config !! "MODELS" = Some (Val (PList [])) ->
   model_creation.create_random_model in_size out_size config task g
   = (Raise IndexError, g)) /\
  (forall (g' : rng) (v : pyval),
      Random.choice_entry
        (get config "MODELS" (Val (PList [PStr "neural_network"]))) g
      = (Ok (PStr "neural_network"), g') ->
      config !! "NEURAL_NETWORK_EVOL_CONFIG" = Some (Val v) ->
      model_creation.create_random_model in_size out_size config task g
      = (Raise AttributeError, g')).
Proof.
  split.
  - intros Hm. unfold model_creation.create_random_model, get.
    rewrite Hm. reflexivity.
  - intros g' v E Hnn. unfold model_creation.create_random_model.
    rewrite (bind_eq_Ok _ _ _ _ _ E).
    change (model_creation.eq_str (PStr "neural_network") "neural_network")
      with true.
    cbv iota. unfold get. rewrite Hnn. reflexivity.
Qed.

Lemma create_random_model_ill_formed_search_space_witness :
  model_creation.create_random_model 4 1
    (<["MODELS" := Val (PList [])]> ∅) CLASSIFICATION (samples.constant_rng 1)
  = (Raise IndexError, samples.constant_rng 1) /\
  fst (model_creation.create_random_model 4 1
         (<["NEURAL_NETWORK_EVOL_CONFIG" := Val (PInt 3)]> ∅) CLASSIFICATION
         (samples.constant_rng 1))
  = Raise AttributeError.
Proof.
  split.
  - apply (proj1 (create_random_model_ill_formed_search_space 4 1
                    (<["MODELS" := Val (PList [])]> ∅) CLASSIFICATION
                    (samples.constant_rng 1))).
    reflexivity.
  - erewrite (proj2 (create_random_model_ill_formed_search_space 4 1
                       (<["NEURAL_NETWORK_EVOL_CONFIG" := Val (PInt 3)]> ∅)
                       CLASSIFICATION (samples.constant_rng 1))).
    + reflexivity.
    + vm_compute. reflexivity.
    + reflexivity.
Defined.

(** ** population.py: seeding, errors of [replace], [eval], [get_best] *)

Section PopulationErrors.
Import population chromosome ranking.
Context {Model : Type}.
Variable fit : Q -> Q -> bool.

Lemma create_loop_stub {A} (n : nat) :
  forall (config : option (gmap string entry))
         (acc : list (Chromosome (option A))) (g : rng),
    create_loop (_random_model_stub (A := A)) n config acc g
    = (Ok (acc ++ replicate n (chromosome.new None)), g).
Proof.
  induction n as [|n IH]; intros config acc g; simpl.
  - rewrite app_nil_r. reflexivity.
  - unfold bind at 1. simpl. rewrite IH, <- app_assoc. reflexivity.
Qed.

(** The loop of [replace] raises exactly on a chromosome without a score. *)
Lemma worst_loop_unevaluated (todo : list (Chromosome Model)) :
  forall i wf wp c,
    c ∈ todo -> _fitness c = None ->
    worst_loop fit todo i wf wp = Raise NotEvaluatedError.
Proof.
  induction todo as [|c' rest IH]; intros i wf wp c Hin Hc.
  - apply elem_of_nil in Hin. contradiction.
  - simpl. unfold get_fitness.
    destruct (_fitness c') as [f|] eqn:Hc'; [|reflexivity].
    apply elem_of_cons in Hin as [-> | Hin]; [congruence|].
    destruct (match wf with Some w => fit w f | None => true end);
      eapply IH; eassumption.
Qed.

Lemma worst_loop_raises (todo : list (Chromosome Model)) :
  forall i wf wp e,
    worst_loop fit todo i wf wp = Raise e ->
    e = NotEvaluatedError /\ exists c, c ∈ todo /\ _fitness c = None.
Proof.
  induction todo as [|c' rest IH]; intros i wf wp e E; simpl in E.
  - discriminate E.
  - unfold get_fitness in E.
    destruct (_fitness c') as [f|] eqn:Hc'.
    + destruct (match wf with Some w => fit w f | None => true end);
        apply IH in E as (-> & c & Hin & Hc);
        (split; [reflexivity|]; exists c; split; [right; exact Hin | exact Hc]).
    + injection E as <-. split; [reflexivity|].
      exists c'. split; [left | exact Hc'].
Qed.

(** The position the loop of [replace] returns is the one it started
    with or one of those it scanned; it returns none only when it started
    with none and scanned nothing. *)
Lemma worst_loop_position (todo : list (Chromosome Model)) :
  forall i wf wp r,
    (wp = None -> wf = None) ->
    worst_loop fit todo i wf wp = Ok r ->
    match r with
    | None => todo = [] /\ wp = None
    | Some p => wp = Some p \/ (i <= p < i + length todo)%nat
    end.
Proof.
  induction todo as [|c' rest IH]; intros i wf wp r Hinv E; simpl in E.
  - injection E as <-. destruct wp as [p|]; [left | split]; reflexivity.
  - unfold get_fitness in E.
    destruct (_fitness c') as [f|] eqn:Hc'; [|discriminate E].
    destruct (match wf with Some w => fit w f | None => true end) eqn:Hb.
    + apply IH in E; [|discriminate].
      destruct r as [p|]; [|destruct E as [_ E]; discriminate E].
      right. destruct E as [E | E]; [injection E as <-|]; simpl; lia.
    + destruct wf as [w|]; [|discriminate Hb].
      destruct wp as [q|]; [|specialize (Hinv eq_refl); discriminate Hinv].
      apply IH in E; [|discriminate].
      destruct r as [p|]; [|destruct E as [_ E]; discriminate E].
      destruct E as [E | E]; [left; exact E | right; simpl; lia].
Qed.

Lemma replace_raises_empty (model : Model) (self : Population) :
  _population self = [] ->
  replace fit model self = (Raise TypeError, self).
Proof.
  intros Hpop. unfold replace, bind, read, lift. rewrite Hpop. reflexivity.
Qed.

Lemma replace_raises_unevaluated (model : Model) (self : Population)
    (c : Chromosome Model) :
  c ∈ _population self -> _fitness c = None ->
  replace fit model self = (Raise NotEvaluatedError, self).
Proof.
  intros Hin Hc. unfold replace, bind, read, lift.
  rewrite (worst_loop_unevaluated _ _ _ _ c Hin Hc). reflexivity.
Qed.

Lemma replace_raises_inv (model : Model) (self self' : Population) (e : exn) :
  replace fit model self = (Raise e, self') ->
  self' = self /\
  ((e = TypeError /\ _population self = []) \/
   (e = NotEvaluatedError /\
    exists c, c ∈ _population self /\ _fitness c = None)).
Proof.
  unfold replace, bind, read, lift.
  destruct (worst_loop fit (_population self) 0 None None) as [[p|]|e'] eqn:E;
    simpl; intros Er; try discriminate Er.
  - injection Er as <- <-. split; [reflexivity|]. left. split; [reflexivity|].
    apply worst_loop_position in E as [E _]; [exact E | reflexivity].
  - injection Er as <- <-. split; [reflexivity|]. right.
    eapply worst_loop_raises, E.
Qed.

Lemma replace_returns_inv (model : Model) (self self' : Population)
    (ret : list (Chromosome Model)) :
  replace fit model self = (Ok ret, self') ->
  exists p,
    (p < length (_population self))%nat /\
    ret = <[p := chromosome.new model]> (_population self) /\
    self' = set_population self ret.
Proof.
  unfold replace, bind, read, lift.
  destruct (worst_loop fit (_population self) 0 None None) as [[p|]|e'] eqn:E;
    simpl; intros Er; try discriminate Er.
  injection Er as <- <-. exists p. split; [|split; reflexivity].
  apply worst_loop_position in E as [E | E]; [discriminate E | lia | reflexivity].
Qed.

End PopulationErrors.

(** X6. As the source stands, with [_random_model] a stub, constructing a
    population of size [n] draws nothing from the random generator and
    yields [n] chromosomes (none for a negative [n]) that wrap [None] and
    carry no score; the configuration defaults to the empty dictionary. *)
Theorem population_of_stub_models {A : Type}
    (population_size : Z) (config : option (gmap string entry)) (g : rng) :
  population.__init__ (population._random_model_stub (A := A))
    population_size config g
  = (Ok {| population._config := match config with
                                 | None => ∅
                                 | Some c => c
                                 end;
           population._population_size := population_size;
           population._population :=
             replicate (Z.to_nat population_size) (chromosome.new None);
           population._best_model := None;
           population._fitness := None |}, g).
Proof.
  unfold population.__init__, population._create_population, bind.
  rewrite create_loop_stub. reflexivity.
Qed.

(** X7. [replace] raises in two cases only, and then leaves the population
    as it was: [TypeError] when the population is empty, and
    [NotEvaluatedError] when some chromosome carries no score; in each of
    the two cases it does raise, whatever the comparator is. *)
Theorem replace_raises_exactly_when {Model : Type} (fit : Q -> Q -> bool)
    (model : Model) (self : population.Population) :
  (population._population self = [] ->
   population.replace fit model self = (Raise TypeError, self)) /\
  (forall c, c ∈ population._population self ->
             chromosome._fitness c = None ->
             population.replace fit model self
             = (Raise NotEvaluatedError, self)) /\
  (forall e self',
      population.replace fit model self = (Raise e, self') ->
      self' = self /\
      ((e = TypeError /\ population._population self = []) \/
       (e = NotEvaluatedError /\
        exists c, c ∈ population._population self /\
                  chromosome._fitness c = None))).
Proof.
  split; [apply replace_raises_empty|].
  split; [apply replace_raises_unevaluated|].
  intros e self'. apply replace_raises_inv.
Qed.

Lemma replace_raises_exactly_when_witness :
  population.replace (ranking.spec_is_fitter CLASSIFICATION) "c"
    (population.set_population samples.scored_pair [])
  = (Raise TypeError, population.set_population samples.scored_pair []) /\
  population.replace (ranking.spec_is_fitter CLASSIFICATION) "c"
    (population.set_population samples.scored_pair
       [chromosome.new "a"])
  = (Raise NotEvaluatedError,
     population.set_population samples.scored_pair [chromosome.new "a"]).
Proof.
  split.
  - apply (proj1 (replace_raises_exactly_when _ _ _)). reflexivity.
  - apply (proj1 (proj2 (replace_raises_exactly_when _ _ _))
             (chromosome.new "a")).
    + left.
    + reflexivity.
Defined.

(** X8. A [replace] that returns leaves a population on which the next
    [replace] raises [NotEvaluatedError] and changes nothing: the
    chromosome it just stored carries no score. *)
Theorem replace_twice_raises {Model : Type} (fit fit' : Q -> Q -> bool)
    (model model' : Model) (self self' : population.Population)
    (ret : list (chromosome.Chromosome Model)) :
  population.replace fit model self = (Ok ret, self') ->
  population.replace fit' model' self' = (Raise NotEvaluatedError, self').
Proof.
  intros E. apply replace_returns_inv in E as (p & Hp & -> & ->).
  apply (replace_raises_unevaluated _ _ _ (chromosome.new model));
    [|reflexivity].
  simpl. eapply list_elem_of_lookup_2.
  apply list_lookup_insert_eq. exact Hp.
Qed.

Lemma replace_twice_raises_witness :
  fst (population.replace (ranking.spec_is_fitter CLASSIFICATION) "d"
         (snd (population.replace (ranking.spec_is_fitter CLASSIFICATION) "c"
                 samples.scored_pair)))
  = Raise NotEvaluatedError.
Proof.
  erewrite (replace_twice_raises (ranking.spec_is_fitter CLASSIFICATION) _
              "c" "d" samples.scored_pair).
  - reflexivity.
  - vm_compute. reflexivity.
Defined.

Section EvalFacts.
Import population chromosome ranking.
Context {Model : Type}.
Variable fit : Q -> Q -> bool.
Variable evaluate : Model -> result (Model * Q).

Lemma chromosome_eval_caches (c c' : Chromosome Model) (f : Q) :
  chromosome.eval evaluate c = Ok (c', f) ->
  _fitness c' = Some f /\ (is_Some (_fitness c) -> c' = c).
Proof.
  unfold chromosome.eval. destruct (_fitness c) as [f0|] eqn:Hc.
  - intros E. injection E as <- <-. split; [exact Hc | reflexivity].
  - destruct (evaluate (_model c)) as [[m s]|e]; [|discriminate].
    intros E. injection E as <- <-. split; [reflexivity|].
    intros [x Hx]. discriminate Hx.
Qed.

Lemma set_population_id (self : @Population Model) :
  set_population self (_population self) = self.
Proof. destruct self. reflexivity. Qed.

(** What a run of the loop of [eval] that returns has done: every
    chromosome it scanned is replaced by its evaluation, and the best it
    returns is the one the loop of [get_best] finds among them. *)
Lemma eval_loop_spec (todo : list (Chromosome Model)) :
  forall prefix self best bf b self',
    _population self = prefix ++ todo ->
    eval_loop fit evaluate todo (length prefix) best bf self = (Ok b, self') ->
    exists todo',
      self' = set_population self (prefix ++ todo') /\
      Forall2 (fun c c' => exists f, chromosome.eval evaluate c = Ok (c', f))
        todo todo' /\
      best_loop fit todo' best bf = Ok b.
Proof.
  induction todo as [|c rest IH]; intros prefix self best bf b self' Hpop E;
    simpl in E.
  - apply ret_Ok in E as [<- <-]. exists []. split; [|split].
    + rewrite <- Hpop. symmetry. apply set_population_id.
    + constructor.
    + reflexivity.
  - apply bind_Ok in E as ([c' f] & s1 & Er & E).
    apply lift_Ok in Er as [Er ->]. simpl in E.
    apply bind_Ok in E as (self0 & s2 & Eread & E).
    apply ret_Ok in Eread as [<- ->].
    apply bind_Ok in E as ([] & s3 & Ew & E).
    unfold write in Ew. injection Ew as <-.
    assert (Hins : <[length prefix := c']> (_population self)
                   = (prefix ++ [c']) ++ rest).
    { rewrite Hpop, insert_app_r_alt by lia.
      rewrite Nat.sub_diag, <- app_assoc. reflexivity. }
    rewrite Hins in E.
    replace (S (length prefix)) with (length (prefix ++ [c'])) in E
      by (rewrite length_app; simpl; lia).
    destruct (chromosome_eval_caches _ _ _ Er) as [Hf _].
    destruct (match bf with Some b0 => fit f b0 | None => true end) eqn:Hc;
      apply IH in E as (todo'' & -> & Hall & Hb); try reflexivity;
      (exists (c' :: todo''); split; [|split];
       [ unfold set_population; simpl; rewrite <- app_assoc; reflexivity
       | constructor; [exists f; exact Er | exact Hall]
       | simpl; unfold get_fitness; rewrite Hf, Hc; exact Hb ]).
Qed.

Lemma eval_spec (self self' : @Population Model) (best : option Model) :
  population.eval fit evaluate self = (Ok best, self') ->
  exists pop',
    self' = set_population self pop' /\
    Forall2 (fun c c' => exists f, chromosome.eval evaluate c = Ok (c', f))
      (_population self) pop' /\
    best_loop fit pop' None None = Ok best.
Proof.
  unfold population.eval. intros E.
  apply bind_Ok in E as (self0 & s1 & Er & E).
  apply ret_Ok in Er as [<- ->].
  apply (eval_loop_spec _ []) in E; [exact E | reflexivity].
Qed.


End EvalFacts.

(** X9. When [eval] returns, the population has the size it had, every
    chromosome carries a score, and a chromosome that already carried one
    is the chromosome it was: it has not been evaluated again. *)
Theorem eval_scores_every_chromosome {Model : Type} (fit : Q -> Q -> bool)
    (evaluate : Model -> result (Model * Q))
    (self self' : population.Population) (best : option Model) :
  population.eval fit evaluate self = (Ok best, self') ->
  length (population._population self')
  = length (population._population self) /\
  ranking.all_evaluated (population._population self') /\
  (forall i c, population._population self !! i = Some c ->
               is_Some (chromosome._fitness c) ->
               population._population self' !! i = Some c).
Proof.
  intros E. apply eval_spec in E as (pop' & -> & Hall & _). simpl.
  split; [symmetry; eapply Forall2_length, Hall|]. split.
  - intros c' Hin. apply list_elem_of_lookup in Hin as [i Hi].
    destruct (Forall2_lookup_r _ _ _ _ _ Hall Hi) as (c & _ & f & Hf).
    apply chromosome_eval_caches in Hf as [Hf _]. exists f. exact Hf.
  - intros i c Hi Hc.
    destruct (Forall2_lookup_l _ _ _ _ _ Hall Hi) as (c' & Hi' & f & Hf).
    apply chromosome_eval_caches in Hf as [_ Hf].
    rewrite Hi'. f_equal. apply Hf, Hc.
Qed.

Lemma eval_scores_every_chromosome_witness :
  population._population
    (snd (population.eval (ranking.spec_is_fitter REGRESSION) samples.half
            (population.set_population samples.scored_pair
               [ chromosome.new "a";
                 {| chromosome._model := "b";
                    chromosome._fitness := Some (3 # 10) |} ])))
  !! 1%nat
  = Some {| chromosome._model := "b"; chromosome._fitness := Some (3 # 10) |}
  /\
  ranking.all_evaluated
    (population._population
       (snd (population.eval (ranking.spec_is_fitter REGRESSION) samples.half
               (population.set_population samples.scored_pair
                  [ chromosome.new "a";
                    {| chromosome._model := "b";
                       chromosome._fitness := Some (3 # 10) |} ])))).
Proof.
  destruct (eval_scores_every_chromosome (ranking.spec_is_fitter REGRESSION)
              samples.half
              (population.set_population samples.scored_pair
                 [ chromosome.new "a";
                   {| chromosome._model := "b";
                      chromosome._fitness := Some (3 # 10) |} ])
              (snd (population.eval (ranking.spec_is_fitter REGRESSION)
                      samples.half
                      (population.set_population samples.scored_pair
                         [ chromosome.new "a";
                           {| chromosome._model := "b";
                              chromosome._fitness := Some (3 # 10) |} ])))
              (Some "b"))
    as (_ & Hall & Hkept).
  - vm_compute. reflexivity.
  - split; [|exact Hall].
    apply Hkept; [reflexivity | eexists; reflexivity].
Defined.

(** X10. The candidate [eval] returns is the candidate [get_best] returns
    on the population [eval] leaves. *)
Theorem get_best_after_eval {Model : Type} (fit : Q -> Q -> bool)
    (evaluate : Model -> result (Model * Q))
    (self self' : population.Population) (best : option Model) :
  population.eval fit evaluate self = (Ok best, self') ->
  population.get_best fit self' = (Ok best, self').
Proof.
  intros E. apply eval_spec in E as (pop' & -> & _ & Hb).
  unfold population.get_best, bind, read, lift. simpl. rewrite Hb.
  reflexivity.
Qed.

Lemma get_best_after_eval_witness :
  fst (population.get_best (ranking.spec_is_fitter REGRESSION)
         (snd (population.eval (ranking.spec_is_fitter REGRESSION) samples.half
                 samples.scored_pair)))
  = Ok (Some "b").
Proof.
  erewrite (get_best_after_eval (ranking.spec_is_fitter REGRESSION)
              samples.half samples.scored_pair _ (Some "b")).
  - reflexivity.
  - vm_compute. reflexivity.
Defined.



Lemma best_loop_stub {Model : Type}
    (todo : list (chromosome.Chromosome Model)) :
  forall (best : option Model) (f : Q),
    ranking.all_evaluated todo ->
    population.best_loop population._is_fitter_stub todo best (Some f)
    = Ok best.
Proof.
  induction todo as [|c rest IH]; intros best f Hev; simpl; [reflexivity|].
  destruct (Hev c) as [fc Hc]; [left|].
  unfold chromosome.get_fitness. rewrite Hc. simpl.
  apply IH. intros c' Hin. apply Hev. right. exact Hin.
Qed.

(** X12. As the source stands, with [_is_fitter] a stub whose answer a
    condition reads as false, the scores play no part: on a population
    whose chromosomes all carry a score, [replace] overwrites the first
    chromosome and [get_best] returns the candidate of the first
    chromosome. *)
Theorem comparator_stub_pins_first_chromosome {Model : Type} (model : Model)
    (self : population.Population) (c : chromosome.Chromosome Model)
    (rest : list (chromosome.Chromosome Model)) :
  population._population self = c :: rest ->
  ranking.all_evaluated (c :: rest) ->
  population.replace population._is_fitter_stub model self
  = (Ok (chromosome.new model :: rest),
     population.set_population self (chromosome.new model :: rest)) /\
  population.get_best population._is_fitter_stub self
  = (Ok (Some (chromosome._model c)), self).
Proof.
  intros Hpop Hev. split.
  - eapply replace_with_stub_overwrites_first; eassumption.
  - unfold population.get_best, bind, read, lift. rewrite Hpop. simpl.
    destruct (Hev c) as [fc Hc]; [left|].
    unfold chromosome.get_fitness. rewrite Hc.
    rewrite best_loop_stub; [reflexivity|].
    intros c' Hin. apply Hev. right. exact Hin.
Qed.

Lemma comparator_stub_pins_first_chromosome_witness :
  population.replace population._is_fitter_stub "c" samples.scored_pair
  = (Ok [ chromosome.new "c";
          {| chromosome._model := "b"; chromosome._fitness := Some (5 # 10) |} ],
     population.set_population samples.scored_pair
       [ chromosome.new "c";
         {| chromosome._model := "b"; chromosome._fitness := Some (5 # 10) |} ])
  /\
  population.get_best population._is_fitter_stub samples.scored_pair
  = (Ok (Some "a"), samples.scored_pair).
Proof.
  apply (comparator_stub_pins_first_chromosome "c" samples.scored_pair
           {| chromosome._model := "a"; chromosome._fitness := Some (9 # 10) |}
           [ {| chromosome._model := "b"; chromosome._fitness := Some (5 # 10) |} ]).
  - reflexivity.
  - intros c Hc.
    apply elem_of_cons in Hc as [-> | Hc]; [eexists; reflexivity|].
    apply list_elem_of_singleton in Hc as ->. eexists; reflexivity.
Defined.

(** ** randomForestModel.py: what a training run keeps *)

Section TrainInvariants.
Import randomForestModel runs.
Context `{Collaborators}.

(** The task is one of the two [_create_model] builds a forest for. *)
Let known_task (self : RandomForestModel) : Prop :=
  eq_str (_task self) CLASSIFICATION = true \/
  eq_str (_task self) REGRESSION = true.

(** The two forest constructors change nothing of the model but
    [_criterion]. *)
Lemma create_classifier_state (st : RandomForestModel * world) :
  fst (snd (_create_classifier st)) = fst st \/
  exists v, fst (snd (_create_classifier st)) = set_criterion (fst st) v.
Proof.
  destruct st as [self w].
  unfold _create_classifier, bind, get_self, set_self, on_fst, on_snd, lift,
    read, write, ret. simpl.
  destruct (dict_get_default (_config self) "CLASSIFIER" (VDict ∅))
    as [config|]; simpl; [|left; reflexivity].
  destruct (dict_get_default config "CRITERION" (VStr "gini")) as [crit|];
    simpl; [|left; reflexivity].
  repeat match goal with
         | |- context [match ?x with _ => _ end] => destruct x; simpl
         end;
    right; eexists; reflexivity.
Qed.

Lemma create_regressor_state (st : RandomForestModel * world) :
  fst (snd (_create_regressor st)) = fst st \/
  exists v, fst (snd (_create_regressor st)) = set_criterion (fst st) v.
Proof.
  destruct st as [self w].
  unfold _create_regressor, bind, get_self, set_self, on_fst, on_snd, lift,
    read, write, ret. simpl.
  destruct (dict_get_default (_config self) "REGRESSOR" (VDict ∅))
    as [config|]; simpl; [|left; reflexivity].
  destruct (dict_get_default config "CRITERION" (VStr "mse")) as [crit|];
    simpl; [|left; reflexivity].
  repeat match goal with
         | |- context [match ?x with _ => _ end] => destruct x; simpl
         end;
    right; eexists; reflexivity.
Qed.

Lemma create_model_unfold (st : RandomForestModel * world) :
  _create_model st
  = if is_none (_task (fst st)) then (Ok None, st)
    else if eq_str (_task (fst st)) CLASSIFICATION then
      match _create_classifier st with
      | (Ok m, st') => (Ok (Some m), st')
      | (Raise e, st') => (Raise e, st')
      end
    else if eq_str (_task (fst st)) REGRESSION then
      match _create_regressor st with
      | (Ok m, st') => (Ok (Some m), st')
      | (Raise e, st') => (Raise e, st')
      end
    else (Ok None, st).
Proof.
  destruct st as [self w].
  unfold _create_model, bind at 1. unfold get_self, on_fst, read. simpl.
  destruct (is_none (_task self)); [reflexivity|].
  destruct (eq_str (_task self) CLASSIFICATION).
  { unfold bind. destruct (_create_classifier (self, w)) as [[m|e] st'];
      reflexivity. }
  destruct (eq_str (_task self) REGRESSION); [|reflexivity].
  unfold bind. destruct (_create_regressor (self, w)) as [[m|e] st'];
    reflexivity.
Qed.

(** [_create_model] changes nothing of the model but [_criterion], and it
    returns a forest only for the two known tasks. *)
Lemma create_model_state (st : RandomForestModel * world) :
  (fst (snd (_create_model st)) = fst st \/
   exists v, fst (snd (_create_model st)) = set_criterion (fst st) v) /\
  (forall m st', _create_model st = (Ok (Some m), st') -> known_task (fst st)).
Proof.
  rewrite create_model_unfold.
  destruct (is_none (_task (fst st))).
  { split; [left; reflexivity | intros m st' E; discriminate E]. }
  destruct (eq_str (_task (fst st)) CLASSIFICATION) eqn:Hc.
  { split.
    - pose proof (create_classifier_state st) as Hs.
      destruct (_create_classifier st) as [[m|e] st']; exact Hs.
    - intros _ _ _. left. exact Hc. }
  destruct (eq_str (_task (fst st)) REGRESSION) eqn:Hr.
  { split.
    - pose proof (create_regressor_state st) as Hs.
      destruct (_create_regressor st) as [[m|e] st']; exact Hs.
    - intros _ _ _. right. exact Hr. }
  split; [left; reflexivity | intros m st' E; discriminate E].
Qed.

(** The progress report changes nothing. *)
Lemma report_state (x_train y_train : ndarray)
    (val : option (ndarray * ndarray)) (epoch_end time_per_epoch : float)
    (epochs_to_complete : Z) (st : RandomForestModel * world) :
  snd (report x_train y_train val epoch_end time_per_epoch
         epochs_to_complete st) = st.
Proof.
  destruct st as [self w].
  unfold report, bind, get_self, on_fst, read, lift, raise, ret.
  cbn [fst snd].
  destruct (of_int epochs_to_complete) as [factor|]; [|reflexivity].
  destruct (localtime _) as [date|]; [|reflexivity].
  destruct (localtime epoch_end) as [today|]; [|reflexivity].
  destruct (today =? date); cbn [fst snd].
  all: destruct (_model self) as [m|]; [|reflexivity].
  all: destruct (score m x_train y_train); [|reflexivity].
  all: destruct val as [[x_val y_val]|]; [|reflexivity].
  all: destruct (score m x_val y_val); reflexivity.
Qed.

Variables I J R : RandomForestModel -> Prop.
Hypothesis I_criterion : forall self v, I self -> I (set_criterion self v).
Hypothesis I_R : forall self, I self -> R self.
Hypothesis J_R : forall self, J self -> R self.
Hypothesis J_I : forall self, J self -> I self.
Hypothesis I_step :
  forall self criterion model,
    I self -> known_task self ->
    match improves self criterion with
    | Ok true => J (set_best self criterion model)
    | Ok false => J self
    | Raise _ => True
    end.

Lemma known_task_set_criterion (self : RandomForestModel) (v : value) :
  known_task self -> known_task (set_criterion self v).
Proof. intros Hk. exact Hk. Qed.

Lemma triple_create_model :
  triple (fun st => I (fst st)) _create_model
    (fun r st => I (fst st) /\ (r <> None -> known_task (fst st)))
    (fun st => R (fst st)).
Proof.
  intros st Hst. destruct (create_model_state st) as [Hs Hk].
  destruct (_create_model st) as [[r|e] st'] eqn:E; simpl in Hs.
  - assert (HI : I (fst st')).
    { destruct Hs as [-> | [v ->]]; [exact Hst | apply I_criterion, Hst]. }
    split; [exact HI|]. intros Hr. destruct r as [m|]; [|contradiction].
    specialize (Hk m st' eq_refl).
    destruct Hs as [-> | [v ->]]; exact Hk.
  - apply I_R. destruct Hs as [-> | [v ->]]; [exact Hst | apply I_criterion, Hst].
Qed.

(** The training loop: from a model that satisfies [I], every iteration
    that gets past the comparison of scores leaves it satisfying [J]. *)
Lemma triple_train_loop (fuel : nat) :
  forall (x_train y_train : ndarray) (val : option (ndarray * ndarray))
         (requested_finish seconds_count : float) (epochs : Z),
    triple (fun st => I (fst st))
      (train_loop fuel x_train y_train val requested_finish seconds_count
         epochs)
      (fun _ st => J (fst st)) (fun st => R (fst st)).
Proof.
  induction fuel as [|fuel IH];
    intros x_train y_train val requested_finish seconds_count epochs.
  { apply triple_raise. intros st. apply I_R. }
  simpl.
  eapply (triple_bind _ _ _ (fun _ st => I (fst st))).
  { eapply triple_weaken; [apply (triple_on_snd _ I) | | |]; simpl; auto. }
  intros epoch_start. simpl.
  eapply triple_bind; [apply triple_create_model|].
  intros model.
  eapply (triple_bind _ _ _
            (fun _ st => I (fst st) /\ known_task (fst st))).
  { destruct model as [m|].
    - apply triple_lift.
      + intros a st _ [HI Hk]. split; [exact HI | apply Hk; discriminate].
      + intros st [HI _]. apply I_R, HI.
    - apply triple_raise. intros st [HI _]. apply I_R, HI. }
  intros fitted.
  eapply (triple_bind _ _ _
            (fun _ st => I (fst st) /\ known_task (fst st))).
  { destruct val as [[x_val y_val]|]; apply triple_lift;
      try (intros a st _ Hst; exact Hst);
      intros st [HI _]; apply I_R, HI. }
  intros criterion.
  eapply triple_bind; [apply triple_get_self|].
  intros self.
  eapply (triple_bind _ _ _
            (fun better st =>
               self = fst st /\ I self /\ known_task self /\
               improves self criterion = Ok better)).
  { apply triple_lift.
    - intros better st Hb [-> [HI Hk]]. repeat split; assumption.
    - intros st [_ [HI _]]. apply I_R, HI. }
  intros better.
  eapply (triple_bind _ _ _ (fun _ st => J (fst st))).
  { destruct better.
    - apply triple_set_self. intros st (_ & HI & Hk & Hb). simpl.
      pose proof (I_step self criterion fitted HI Hk) as Hs.
      rewrite Hb in Hs. exact Hs.
    - apply triple_ret. intros st (-> & HI & Hk & Hb).
      pose proof (I_step (fst st) criterion fitted HI Hk) as Hs.
      rewrite Hb in Hs. exact Hs. }
  intros [].
  eapply (triple_bind _ _ _ (fun _ st => J (fst st))).
  { eapply triple_weaken; [apply (triple_on_snd _ J) | | |]; simpl; auto. }
  intros epoch_end. simpl.
  eapply (triple_bind _ _ _ (fun _ st => J (fst st))).
  { apply triple_lift; [intros a st _ Hst; exact Hst | intros st; apply J_R]. }
  intros [[[[seconds_count' epochs'] time_per_epoch] epochs_to_complete]
            keep_training].
  eapply (triple_bind _ _ _ (fun _ st => J (fst st))).
  { destruct (epochs' mod 10 =? 9).
    - intros st Hst.
      pose proof (report_state x_train y_train val epoch_end time_per_epoch
                    epochs_to_complete st) as Hr.
      destruct (report x_train y_train val epoch_end time_per_epoch
                  epochs_to_complete st) as [[a|e] st']; simpl in Hr;
        subst st'; [exact Hst | apply J_R, Hst].
    - apply triple_ret. auto. }
  intros [].
  destruct keep_training.
  - eapply triple_weaken; [apply IH | | |]; simpl; auto.
  - apply triple_ret. auto.
Qed.

Hypothesis I_predicted_name :
  forall self v, I self -> is_none (_predicted_name self) = true ->
                 I (set_predicted_name self v).
Hypothesis I_task :
  forall self v, I self -> in_available_tasks (_task self) = false ->
                 I (set_task self v).

(** The whole of [train]. *)
Lemma triple_train (X Y : DataFrame) (train_time : value)
    (validation_split : value) (fuel : nat) :
  triple (fun st => I (fst st))
    (train X Y train_time validation_split fuel)
    (fun _ st => J (fst st)) (fun st => R (fst st)).
Proof.
  unfold train.
  eapply triple_bind; [apply triple_get_self|]. intros self.
  eapply (triple_bind _ _ _ (fun _ st => I (fst st))).
  { destruct (is_none (_predicted_name self)) eqn:Hpn.
    - apply triple_set_self. intros st [-> HI]. simpl.
      apply I_predicted_name; assumption.
    - apply triple_ret. intros st [_ HI]. exact HI. }
  intros [].
  eapply triple_bind; [apply triple_get_self|]. intros self'.
  eapply (triple_bind _ _ _ (fun _ st => I (fst st))).
  { destruct (negb (in_available_tasks (_task self'))) eqn:Ht.
    - eapply triple_bind.
      + apply (triple_lift _ _ (fun _ st => self' = fst st /\ I (fst st))).
        * intros a st _ Hst. exact Hst.
        * intros st [_ HI]. apply I_R, HI.
      + intros t. apply triple_set_self. intros st [-> HI]. simpl.
        apply I_task; [exact HI|]. apply negb_true_iff, Ht.
    - apply triple_ret. intros st [_ HI]. exact HI. }
  intros [].
  eapply (triple_bind _ _ _ (fun _ st => I (fst st))).
  { apply triple_lift; [intros a st _ Hst; exact Hst | intros st; apply I_R]. }
  intros v.
  eapply (triple_bind _ _ _ (fun _ st => I (fst st))).
  { destruct v as [q|].
    - eapply (triple_bind _ _ _ (fun _ st => I (fst st))).
      { eapply triple_weaken; [apply (triple_on_snd _ I) | | |]; simpl; auto. }
      intros seed. simpl.
      eapply (triple_bind _ _ _ (fun _ st => I (fst st))).
      { apply triple_lift; [intros a st _ Hst; exact Hst | intros st; apply I_R]. }
      intros [[[x_train x_val] y_train] y_val].
      apply triple_ret. auto.
    - apply triple_ret. auto. }
  intros [[x_train y_train] val].
  eapply (triple_bind _ _ _ (fun _ st => I (fst st))).
  { eapply triple_weaken; [apply (triple_on_snd _ I) | | |]; simpl; auto. }
  intros start_time. simpl.
  eapply (triple_bind _ _ _ (fun _ st => I (fst st))).
  { apply triple_lift; [intros a st _ Hst; exact Hst | intros st; apply I_R]. }
  intros requested_finish.
  eapply triple_bind; [apply triple_train_loop|].
  intros []. apply triple_ret. auto.
Qed.

End TrainInvariants.

(** X13. Through a training run, whether it returns or raises, a score the
    model already holds is only ever replaced by a better one: under the
    classification task the score the run leaves is at least the score it
    found, under the regression task at most. *)
Theorem train_keeps_the_better_score `{Collaborators}
    (X Y : DataFrame) (train_time validation_split : value)
    (fuel : nat) (self : randomForestModel.RandomForestModel) (w : world)
    (task : string) (s : Q) :
  randomForestModel.in_available_tasks (VStr task) = true ->
  randomForestModel._task self = VStr task ->
  randomForestModel._model_score self = Assigned (Some s) ->
  exists s',
    randomForestModel._model_score
      (fst (snd (randomForestModel.train X Y train_time validation_split fuel
                   (self, w))))
    = Assigned (Some s') /\
    (task = CLASSIFICATION -> (s <= s')%Q) /\
    (task = REGRESSION -> (s' <= s)%Q).
Proof.
  intros Havail Htask Hscore.
  set (Inv := fun self' : randomForestModel.RandomForestModel =>
                randomForestModel._task self' = VStr task /\
                exists s', randomForestModel._model_score self'
                           = Assigned (Some s') /\
                           (task = CLASSIFICATION -> (s <= s')%Q) /\
                           (task = REGRESSION -> (s' <= s)%Q)).
  assert (Ht : runs.triple (fun st => Inv (fst st))
                 (randomForestModel.train X Y train_time validation_split fuel)
                 (fun _ st => Inv (fst st)) (fun st => Inv (fst st))).
  { apply triple_train.
    - intros self' v Hi. exact Hi.
    - auto.
    - auto.
    - auto.
    - intros self' criterion model [Ht (s' & Hs & Hc & Hr)] _.
      unfold randomForestModel.improves, randomForestModel.none_or.
      rewrite Ht, Hs. simpl.
      destruct (String.eqb task CLASSIFICATION) eqn:Ec.
      + apply String.eqb_eq in Ec.
        destruct (Qltb s' criterion) eqn:Eq.
        * split; [exact Ht|]. exists criterion. split; [reflexivity|].
          apply Qltb_lt in Eq. split.
          -- intros _. specialize (Hc Ec). lra.
          -- intros Er. subst task. discriminate Er.
        * assert (Er : String.eqb task REGRESSION = false)
            by (subst task; reflexivity).
          rewrite Er. split; [exact Ht|]. exists s'. auto.
      + destruct (String.eqb task REGRESSION) eqn:Er.
        * apply String.eqb_eq in Er.
          destruct (Qltb criterion s') eqn:Eq.
          -- split; [exact Ht|]. exists criterion. split; [reflexivity|].
             apply Qltb_lt in Eq. split.
             ++ intros Ec'. subst task. discriminate Ec'.
             ++ intros _. specialize (Hr Er). lra.
          -- split; [exact Ht|]. exists s'. auto.
        * split; [exact Ht|]. exists s'. auto.
    - intros self' v Hi _. exact Hi.
    - intros self' v [Ht' _] Hna. rewrite Ht' in Hna. congruence. }
  specialize (Ht (self, w)). simpl in Ht.
  assert (Hi : Inv self).
  { split; [exact Htask|]. exists s. split; [exact Hscore|]. split; intros; lra. }
  specialize (Ht Hi).
  destruct (randomForestModel.train X Y train_time validation_split fuel
              (self, w)) as [[r|e] st']; simpl; exact (proj2 Ht).
Qed.

Lemma train_keeps_the_better_score_witness :
  exists s',
    randomForestModel._model_score
      (fst (snd (randomForestModel.train (H := samples.toy) samples.features
                   samples.targets (VInt 3) VNone 10
                   (randomForestModel.set_best samples.fresh_forest (1 # 4) false,
                    samples.ticking))))
    = Assigned (Some s') /\ (1 # 4 <= s')%Q.
Proof.
  destruct (train_keeps_the_better_score (H := samples.toy) samples.features
              samples.targets (VInt 3) VNone 10
              (randomForestModel.set_best samples.fresh_forest (1 # 4) false)
              samples.ticking CLASSIFICATION (1 # 4))
    as (s' & Hs & Hc & _); try reflexivity.
  exists s'. split; [exact Hs | apply Hc; reflexivity].
Defined.

Lemma init_from_dictionary_score_unset `{Collaborators}
    (d : gmap string value) (self : randomForestModel.RandomForestModel) :
  randomForestModel._init_from_dictionary d = Ok self ->
  randomForestModel._model_score self = Unset.
Proof.
  unfold randomForestModel._init_from_dictionary.
  repeat match goal with
         | |- context [match ?x with _ => _ end] =>
             destruct x; try discriminate
         end;
    intros E; injection E as <-; reflexivity.
Qed.

Lemma of_int_raises (n : Z) (e : exn) :
  randomForestModel.of_int n = Raise e -> e = OverflowError.
Proof.
  unfold randomForestModel.of_int.
  destruct (Float64.round (inject_Z n)); intros E;
    first [discriminate E | injection E as <-; reflexivity].
Qed.

Lemma div_raises (a b : float) (e : exn) :
  randomForestModel.div a b = Raise e -> e = ZeroDivisionError.
Proof.
  unfold randomForestModel.div. destruct (Float64.is_zero b); intros E;
    first [discriminate E | injection E as <-; reflexivity].
Qed.

Lemma int_raises (x : float) (e : exn) :
  randomForestModel.int_ x = Raise e -> e = OverflowError \/ e = ValueError.
Proof.
  destruct x; simpl; intros E; try discriminate E;
    injection E as <-; auto.
Qed.

(** *** Runs that raise in their first iteration *)

Section TrainRaises.
Import randomForestModel runs.
Context `{Collaborators}.

Lemma texn_bind {S A B} (m : ST S A) (k : A -> ST S B)
    (P : S -> Prop) (Q : A -> S -> Prop) (Q' : B -> S -> Prop)
    (R : exn -> S -> Prop) :
  triple_exn P m Q R -> (forall a, triple_exn (Q a) (k a) Q' R) ->
  triple_exn P (bind m k) Q' R.
Proof.
  intros Hm Hk s Hs. unfold bind. specialize (Hm s Hs).
  destruct (m s) as [[a|e] s1]; [apply Hk, Hm | exact Hm].
Qed.

Lemma texn_ret {S A} (a : A) (P : S -> Prop) (Q : A -> S -> Prop)
    (R : exn -> S -> Prop) :
  (forall s, P s -> Q a s) -> triple_exn P (ret a) Q R.
Proof. intros Hq s Hs. apply Hq, Hs. Qed.

Lemma texn_lift {S A} (r : result A) (P : S -> Prop) (Q : A -> S -> Prop)
    (R : exn -> S -> Prop) :
  (forall a s, r = Ok a -> P s -> Q a s) ->
  (forall e s, r = Raise e -> P s -> R e s) ->
  triple_exn P (lift r) Q R.
Proof.
  intros HQ HR s Hs. unfold lift. destruct r as [a|e].
  - apply HQ; [reflexivity | exact Hs].
  - apply HR; [reflexivity | exact Hs].
Qed.

Lemma texn_on_snd {S T A} (m : ST T A) (P : S -> Prop) (E : exn -> Prop) :
  (forall t e t', m t = (Raise e, t') -> E e) ->
  triple_exn (fun st : S * T => P (fst st)) (on_snd m)
    (fun _ st => P (fst st)) (fun e _ => E e).
Proof.
  intros Hm [s t] Hs. unfold on_snd. simpl.
  destruct (m t) as [[a|e] t'] eqn:Em; [exact Hs | eapply Hm, Em].
Qed.

Lemma texn_get_self {S T} (P : S * T -> Prop) (R : exn -> S * T -> Prop) :
  triple_exn P (on_fst read) (fun a st => a = fst st /\ P st) R.
Proof. intros [s t] Hs. simpl. split; [reflexivity | exact Hs]. Qed.

Lemma texn_set_self {S T} (x : S) (P : S * T -> Prop)
    (Q : unit -> S * T -> Prop) (R : exn -> S * T -> Prop) :
  (forall st, P st -> Q tt (x, snd st)) ->
  triple_exn P (on_fst (write x)) Q R.
Proof. intros Hq [s t] Hs. simpl. apply (Hq (s, t) Hs). Qed.

Let unscored (st : RandomForestModel * world) : Prop :=
  _model_score (fst st) = Unset.

Let python (e : exn) (st : RandomForestModel * world) : Prop :=
  python_exception e.

Lemma bind_Raise {S A B} (m : ST S A) (k : A -> ST S B) s e s' :
  bind m k s = (Raise e, s') ->
  m s = (Raise e, s') \/
  exists a s1, m s = (Ok a, s1) /\ k a s1 = (Raise e, s').
Proof.
  unfold bind. destruct (m s) as [[a|e1] s1]; intros E.
  - right. exists a, s1. split; [reflexivity | exact E].
  - left. injection E as -> ->. reflexivity.
Qed.

Lemma dict_get_default_raises (c : value) (k : string) (d : value) (e : exn) :
  dict_get_default c k d = Raise e -> python_exception e.
Proof.
  destruct c; simpl; intros E; try discriminate E;
    injection E as <-; discriminate.
Qed.

(** Running past the steps of a constructor that raise nothing but
    [AttributeError]. *)
Ltac constructor_steps E :=
  repeat
    (apply bind_Raise in E as [E | (? & ? & _ & E)];
     [first [ apply lift_Raise in E; eapply dict_get_default_raises, E
            | discriminate E
            | unfold get_self, set_self, on_fst, on_snd, with_rng, read,
                write, Random.randint, Random.randbelow, Random.random,
                draw, bind, ret in E;
              simpl in E; discriminate E ]
     |]);
  discriminate E.

(** What the two forest constructors raise are exceptions of Python. *)
Lemma create_model_raises (st st' : RandomForestModel * world) (e : exn) :
  _create_model st = (Raise e, st') -> python_exception e.
Proof.
  rewrite create_model_unfold.
  destruct (is_none (_task (fst st))); [discriminate|].
  destruct (eq_str (_task (fst st)) CLASSIFICATION).
  { destruct (_create_classifier st) as [[m|e1] st1] eqn:E; [discriminate|].
    intros E'. injection E' as <- _.
    unfold _create_classifier in E. constructor_steps E. }
  destruct (eq_str (_task (fst st)) REGRESSION); [|discriminate].
  destruct (_create_regressor st) as [[m|e1] st1] eqn:E; [discriminate|].
  intros E'. injection E' as <- _.
  unfold _create_regressor in E. constructor_steps E.
Qed.

Lemma check_validation_split_raises (v : value) (e : exn) :
  check_validation_split v = Raise e -> python_exception e.
Proof.
  destruct v; simpl; intros E; try discriminate E;
    try (injection E as <-; discriminate).
  destruct (_ || _); discriminate E.
Qed.

Lemma add_number_raises (x : float) (v : value) (e : exn) :
  add_number x v = Raise e -> python_exception e.
Proof.
  destruct v; simpl; intros E; try discriminate E;
    try (injection E as <-; discriminate).
  destruct (of_int z) as [y|e'] eqn:Ey; [discriminate E|].
  injection E as <-. apply of_int_raises in Ey. subst e'. discriminate.
Qed.

(** The first iteration on a model whose [_model_score] was never
    assigned raises at the comparison of scores, if not before. *)
Lemma first_iteration_raises (fuel : nat) (x_train y_train : ndarray)
    (val : option (ndarray * ndarray))
    (requested_finish seconds_count : float) (epochs : Z) :
  python_libraries ->
  triple_exn unscored
    (train_loop (S fuel) x_train y_train val requested_finish seconds_count
       epochs)
    (fun _ _ => False) python.
Proof.
  intros (_ & _ & Hfit & Hscore). simpl.
  eapply (texn_bind _ _ _ (fun _ st => unscored st)).
  { apply (texn_on_snd _ (fun self => _model_score self = Unset)).
    intros t e t' E. discriminate E. }
  intros epoch_start.
  eapply (texn_bind _ _ _
            (fun model st =>
               unscored st /\
               (model <> None ->
                eq_str (_task (fst st)) CLASSIFICATION = true \/
                eq_str (_task (fst st)) REGRESSION = true))).
  { intros st Hst. destruct (create_model_state st) as [Hs Hk].
    destruct (_create_model st) as [[r|e] st'] eqn:E; simpl in Hs.
    - assert (Hu : unscored st').
      { unfold unscored. destruct Hs as [-> | [v ->]]; exact Hst. }
      split; [exact Hu|]. intros Hr. destruct r as [m|]; [|contradiction].
      specialize (Hk m st' eq_refl).
      destruct Hs as [-> | [v ->]]; exact Hk.
    - eapply create_model_raises, E. }
  intros model.
  eapply (texn_bind _ _ _
            (fun _ st =>
               unscored st /\
               (eq_str (_task (fst st)) CLASSIFICATION = true \/
                eq_str (_task (fst st)) REGRESSION = true))).
  { destruct model as [m|].
    - apply texn_lift.
      + intros a st _ [Hu Hk]. split; [exact Hu | apply Hk; discriminate].
      + intros e st E _. eapply Hfit, E.
    - intros st _. unfold python, python_exception. simpl. discriminate. }
  intros fitted.
  eapply (texn_bind _ _ _
            (fun _ st =>
               unscored st /\
               (eq_str (_task (fst st)) CLASSIFICATION = true \/
                eq_str (_task (fst st)) REGRESSION = true))).
  { destruct val as [[x_val y_val]|]; apply texn_lift;
      try (intros a st _ Hst; exact Hst);
      intros e st E _; eapply Hscore, E. }
  intros criterion.
  eapply texn_bind; [apply texn_get_self|].
  intros self.
  eapply (texn_bind _ _ _ (fun _ _ => False)).
  { intros st (-> & Hu & Hk). unfold lift, improves, none_or.
    unfold unscored in Hu. rewrite Hu. cbn [getattr].
    destruct Hk as [Hk | Hk].
    - rewrite Hk. unfold python, python_exception. discriminate.
    - destruct (eq_str (_task (fst st)) CLASSIFICATION);
        [|rewrite Hk]; unfold python, python_exception; discriminate. }
  intros better st [].
Qed.

(** The whole of [train] on such a model, with an iteration to run. *)
Lemma train_unscored_raises (X Y : DataFrame)
    (train_time validation_split : value) (fuel : nat) :
  python_libraries ->
  triple_exn unscored (train X Y train_time validation_split (S fuel))
    (fun _ _ => False) python.
Proof.
  intros Hlib. pose proof Hlib as (Htask & Hsplit & _).
  unfold train.
  eapply texn_bind; [apply texn_get_self|]. intros self.
  eapply (texn_bind _ _ _ (fun _ st => unscored st)).
  { destruct (is_none (_predicted_name self)).
    - apply texn_set_self. intros st [-> Hu]. exact Hu.
    - apply texn_ret. intros st [_ Hu]. exact Hu. }
  intros [].
  eapply texn_bind; [apply texn_get_self|]. intros self'.
  eapply (texn_bind _ _ _ (fun _ st => unscored st)).
  { destruct (negb (in_available_tasks (_task self'))).
    - eapply texn_bind.
      + apply (texn_lift _ _ (fun _ st => self' = fst st /\ unscored st)).
        * intros a st _ Hst. exact Hst.
        * intros e st E _. eapply Htask, E.
      + intros t. apply texn_set_self. intros st [-> Hu]. exact Hu.
    - apply texn_ret. intros st [_ Hu]. exact Hu. }
  intros [].
  eapply (texn_bind _ _ _ (fun _ st => unscored st)).
  { apply texn_lift; [intros a st _ Hst; exact Hst|].
    intros e st E _. eapply check_validation_split_raises, E. }
  intros v.
  eapply (texn_bind _ _ _ (fun _ st => unscored st)).
  { destruct v as [test_size|].
    - eapply (texn_bind _ _ _ (fun _ st => unscored st)).
      { apply (texn_on_snd _ (fun self => _model_score self = Unset)).
        intros t e t'. unfold with_rng, Random.randrange, Random.randbelow,
          bind, draw, ret. simpl. intros E. discriminate E. }
      intros seed.
      eapply (texn_bind _ _ _ (fun _ st => unscored st)).
      { apply texn_lift; [intros a st _ Hst; exact Hst|].
        intros e st E _. eapply Hsplit, E. }
      intros [[[x_train x_val] y_train] y_val].
      apply texn_ret. auto.
    - apply texn_ret. auto. }
  intros [[x_train y_train] val].
  eapply (texn_bind _ _ _ (fun _ st => unscored st)).
  { apply (texn_on_snd _ (fun self => _model_score self = Unset)).
    intros t e t' E. discriminate E. }
  intros start_time.
  eapply (texn_bind _ _ _ (fun _ st => unscored st)).
  { apply texn_lift; [intros a st _ Hst; exact Hst|].
    intros e st E _. eapply add_number_raises, E. }
  intros requested_finish.
  eapply texn_bind; [apply first_iteration_raises, Hlib|].
  intros [] st [].
Qed.

End TrainRaises.

(** X14. A random forest model built from a dictionary cannot be trained:
    [_init_from_dictionary] never assigns [_model_score], so every call of
    [train] on such a model raises an exception of Python in its first
    iteration if not before, whatever the data and the budget are and
    whatever the libraries return or raise, what they raise being
    exceptions of Python. *)
Theorem train_raises_on_a_reconstructed_model `{Collaborators}
    (d : gmap string value) (self : randomForestModel.RandomForestModel)
    (X Y : DataFrame) (train_time validation_split : value)
    (fuel : nat) (w : world) :
  runs.python_libraries ->
  randomForestModel._init_from_dictionary d = Ok self ->
  exists e,
    fst (randomForestModel.train X Y train_time validation_split (S fuel)
           (self, w)) = Raise e /\
    runs.python_exception e.
Proof.
  intros Hlib Hd. apply init_from_dictionary_score_unset in Hd.
  pose proof (train_unscored_raises X Y train_time validation_split fuel
                Hlib (self, w) Hd) as Ht.
  destruct (randomForestModel.train X Y train_time validation_split (S fuel)
              (self, w)) as [[a|e] st']; [contradiction|].
  exists e. split; [reflexivity | exact Ht].
Qed.

Lemma train_raises_on_a_reconstructed_model_witness :
  randomForestModel._init_from_dictionary (H := samples.toy)
    samples.encoded_forest = Ok samples.reloaded_forest /\
  exists e,
    fst (randomForestModel.train (H := samples.toy) samples.features
           samples.targets (VInt 3) VNone 10
           (samples.reloaded_forest, samples.ticking)) = Raise e /\
    runs.python_exception e.
Proof.
  assert (Hd : randomForestModel._init_from_dictionary (H := samples.toy)
                 samples.encoded_forest = Ok samples.reloaded_forest)
    by (vm_compute; reflexivity).
  split; [exact Hd|].
  apply (train_raises_on_a_reconstructed_model (H := samples.toy)
           samples.encoded_forest samples.reloaded_forest samples.features
           samples.targets (VInt 3) VNone 9 samples.ticking).
  - repeat split; intros; try discriminate.
    destruct test_size; discriminate || (injection H as <-; discriminate).
  - exact Hd.
Defined.

(** X15. When [train] returns on a model that already holds a fitted
    forest, or that holds no score yet (as a model fresh from the
    constructor does), the model holds a fitted forest afterwards, so
    [predict] no longer takes its not-trained branch. *)
Theorem train_returning_stores_a_forest `{Collaborators}
    (X Y : DataFrame) (train_time validation_split : value)
    (fuel : nat) (self : randomForestModel.RandomForestModel) (w : world)
    (r : option randomForestModel.RandomForestModel)
    (st' : randomForestModel.RandomForestModel * world) :
  is_Some (randomForestModel._model self) \/
  randomForestModel._model_score self = Assigned None ->
  randomForestModel.train X Y train_time validation_split fuel (self, w)
  = (Ok r, st') ->
  is_Some (randomForestModel._model (fst st')).
Proof.
  intros Hpre E.
  assert (Ht : runs.triple
                 (fun st => is_Some (randomForestModel._model (fst st)) \/
                            randomForestModel._model_score (fst st)
                            = Assigned None)
                 (randomForestModel.train X Y train_time validation_split fuel)
                 (fun _ st => is_Some (randomForestModel._model (fst st)))
                 (fun _ => True)).
  { apply (triple_train
             (fun self' => is_Some (randomForestModel._model self') \/
                           randomForestModel._model_score self' = Assigned None)
             (fun self' => is_Some (randomForestModel._model self'))
             (fun _ => True)).
    - intros self' v Hs. exact Hs.
    - intros self' _. exact I.
    - intros self' _. exact I.
    - intros self' Hs. left. exact Hs.
    - intros self' criterion model Hs Hk.
      destruct (randomForestModel.improves self' criterion) as [[|]|e] eqn:Ei;
        [eexists; reflexivity | | exact I].
      destruct Hs as [Hs | Hs]; [exact Hs|]. exfalso.
      unfold randomForestModel.improves, randomForestModel.none_or in Ei.
      rewrite Hs in Ei. simpl in Ei.
      destruct (randomForestModel.eq_str (randomForestModel._task self')
                  CLASSIFICATION); [discriminate Ei|].
      destruct Hk as [Hk | Hk]; [discriminate Hk|].
      rewrite Hk in Ei. discriminate Ei.
    - intros self' v Hs _. exact Hs.
    - intros self' v Hs _. exact Hs. }
  specialize (Ht (self, w) Hpre). rewrite E in Ht. exact Ht.
Qed.

Lemma train_returning_stores_a_forest_witness :
  exists r st',
    randomForestModel.train (H := samples.toy) samples.features
      samples.targets (VInt 3) VNone 10 (samples.fresh_forest, samples.ticking)
    = (Ok r, st') /\
    is_Some (randomForestModel._model (fst st')).
Proof.
  eexists _, _. split; [vm_compute; reflexivity|].
  eapply (train_returning_stores_a_forest (H := samples.toy) samples.features
            samples.targets (VInt 3) VNone 10 samples.fresh_forest samples.ticking).
  - right. reflexivity.
  - vm_compute. reflexivity.
Defined.

(** X16. A training run, whether it returns or raises, leaves the
    configuration of the model as it was; it leaves the task as it was
    when that is one of the available tasks, and the predicted names as
    they were when they are not [None]. *)
Theorem train_leaves_the_configuration `{Collaborators}
    (X Y : DataFrame) (train_time validation_split : value)
    (fuel : nat) (self : randomForestModel.RandomForestModel) (w : world) :
  let self' :=
    fst (snd (randomForestModel.train X Y train_time validation_split fuel
                (self, w))) in
  randomForestModel._config self' = randomForestModel._config self /\
  (randomForestModel.in_available_tasks (randomForestModel._task self) = true ->
   randomForestModel._task self' = randomForestModel._task self) /\
  (randomForestModel.is_none (randomForestModel._predicted_name self) = false ->
   randomForestModel._predicted_name self'
   = randomForestModel._predicted_name self).
Proof.
  set (Inv := fun self0 : randomForestModel.RandomForestModel =>
                randomForestModel._config self0
                = randomForestModel._config self /\
                (randomForestModel.in_available_tasks
                   (randomForestModel._task self) = true ->
                 randomForestModel._task self0 = randomForestModel._task self) /\
                (randomForestModel.is_none
                   (randomForestModel._predicted_name self) = false ->
                 randomForestModel._predicted_name self0
                 = randomForestModel._predicted_name self)).
  assert (Ht : runs.triple (fun st => Inv (fst st))
                 (randomForestModel.train X Y train_time validation_split fuel)
                 (fun _ st => Inv (fst st)) (fun st => Inv (fst st))).
  { apply triple_train; auto.
    - intros self0 criterion model Hi _.
      destruct (randomForestModel.improves self0 criterion) as [[|]|e];
        [exact Hi | exact Hi | exact I].
    - intros self0 v (Hc & Htk & Hpn) Hnone.
      split; [exact Hc|]. split; [exact Htk|].
      intros Hgiven. specialize (Hpn Hgiven). rewrite Hpn in Hnone.
      congruence.
    - intros self0 v (Hc & Htk & Hpn) Hna.
      split; [exact Hc|]. split; [|exact Hpn].
      intros Havail. specialize (Htk Havail). rewrite Htk in Hna. congruence. }
  specialize (Ht (self, w)). simpl in Ht.
  assert (Hi : Inv self) by (repeat split; reflexivity).
  specialize (Ht Hi). intros self'. subst self'.
  destruct (randomForestModel.train X Y train_time validation_split fuel
              (self, w)) as [[r|e] st']; exact Ht.
Qed.

Lemma train_leaves_the_configuration_witness :
  randomForestModel._config
    (fst (snd (randomForestModel.train (H := samples.toy) samples.features
                 samples.targets (VInt 3) VNone 10
                 (samples.fresh_forest, samples.stalled))))
  = VDict ∅ /\
  randomForestModel._task
    (fst (snd (randomForestModel.train (H := samples.toy) samples.features
                 samples.targets (VInt 3) VNone 10
                 (samples.fresh_forest, samples.stalled))))
  = VStr CLASSIFICATION.
Proof.
  destruct (train_leaves_the_configuration (H := samples.toy) samples.features
              samples.targets (VInt 3) VNone 10 samples.fresh_forest samples.stalled)
    as (Hc & Ht & _).
  split; [exact Hc | apply Ht; reflexivity].
Defined.

(** X17. The bookkeeping at the end of an iteration raises nothing but
    [ZeroDivisionError], [OverflowError] and [ValueError]; and at the end
    of a first iteration during which the clock has not advanced, it
    raises [ZeroDivisionError], whatever the time of the clock and the
    requested finish are. *)
Theorem time_budget_raises_on_a_stalled_clock :
  (forall (seconds_count : float) (epochs : Z)
          (requested_finish epoch_start epoch_end : float) (e : exn),
      randomForestModel.time_budget seconds_count epochs requested_finish
        epoch_start epoch_end = Raise e ->
      e = ZeroDivisionError \/ e = OverflowError \/ e = ValueError) /\
  (forall (requested_finish : float) (now : Q),
      randomForestModel.time_budget (Fin 0) 0 requested_finish
        (Fin now) (Fin now) = Raise ZeroDivisionError).
Proof.
  split.
  - intros seconds_count epochs requested_finish epoch_start epoch_end e.
    unfold randomForestModel.time_budget.
    destruct (randomForestModel.of_int (epochs + 1)) as [divisor|e1] eqn:E1.
    2: { intros E. injection E as <-. apply of_int_raises in E1. auto. }
    destruct (randomForestModel.div _ divisor) as [average|e2] eqn:E2.
    2: { intros E. injection E as <-. apply div_raises in E2. auto. }
    destruct (randomForestModel.div _ average) as [estimate|e3] eqn:E3.
    2: { intros E. injection E as <-. apply div_raises in E3. auto. }
    destruct (randomForestModel.int_ estimate) as [whole|e4] eqn:E4.
    2: { intros E. injection E as <-. apply int_raises in E4.
         destruct E4; auto. }
    destruct (randomForestModel.of_int whole) as [subtrahend|e5] eqn:E5.
    2: { intros E. injection E as <-. apply of_int_raises in E5. auto. }
    destruct (Float64.leb _ _); intros E; discriminate E.
  - intros requested_finish now.
    unfold randomForestModel.time_budget.
    change (randomForestModel.of_int (0 + 1)) with (Ok (Fin 1)).
    assert (Hd : Float64.sub (Fin now) (Fin now) = Fin 0).
    { unfold Float64.sub, Float64.opp, Float64.add, Float64.round.
      assert (E : Qeq_bool (now + - now) 0 = true)
        by (apply Qeq_bool_iff; ring).
      rewrite E. reflexivity. }
    rewrite Hd. reflexivity.
Qed.

Lemma time_budget_raises_on_a_stalled_clock_witness :
  randomForestModel.time_budget (Fin 0) 0 (Fin 10) (Fin 5) (Fin 5)
  = Raise ZeroDivisionError /\
  (ZeroDivisionError = ZeroDivisionError \/
   ZeroDivisionError = OverflowError \/ ZeroDivisionError = ValueError).
Proof.
  pose proof (proj2 time_budget_raises_on_a_stalled_clock (Fin 10) 5%Q)
    as Hz.
  split; [exact Hz|].
  apply (proj1 time_budget_raises_on_a_stalled_clock (Fin 0) 0 (Fin 10)
           (Fin 5) (Fin 5) ZeroDivisionError Hz).
Defined.

(** X18. Under the round-trip law of [pickle], building a random forest
    model from the dictionary [to_dict] gives restores the task, the
    configuration, the predicted names and the fitted forest, and leaves
    [_criterion] and [_model_score] unassigned. *)
Theorem reconstruct_restores_all_but_two_attributes `{Collaborators}
    (self : randomForestModel.RandomForestModel) :
  (forall m, pickle_loads (pickle_dumps m) = Ok m) ->
  randomForestModel.__init__ (VStr "") VNone VNone
    (randomForestModel.to_dict self)
  = Ok {| randomForestModel._task := randomForestModel._task self;
          randomForestModel._config := randomForestModel._config self;
          randomForestModel._predicted_name :=
            randomForestModel._predicted_name self;
          randomForestModel._criterion := Unset;
          randomForestModel._model := randomForestModel._model self;
          randomForestModel._model_score := Unset |}.
Proof. intros Hpickle. apply reconstruct_to_dict, Hpickle. Qed.

Lemma reconstruct_restores_all_but_two_attributes_witness :
  randomForestModel.__init__ (H := samples.toy) (VStr "") VNone VNone
    (randomForestModel.to_dict samples.trained_forest)
  = Ok samples.reloaded_forest.
Proof.
  apply (reconstruct_restores_all_but_two_attributes (H := samples.toy)
           samples.trained_forest toy_pickle_round_trip).
Defined.

(** X19. [_init_from_dictionary] returns exactly when the dictionary holds
    a dictionary under [MODEL_DATA] that holds a dictionary under
    [METADATA] and, under [MODEL], bytes that [pickle] loads; the model it
    returns takes its attributes from [METADATA], [None] for a missing
    key. *)
Theorem init_from_dictionary_returns_exactly_when `{Collaborators}
    (d : gmap string value) (self : randomForestModel.RandomForestModel) :
  randomForestModel._init_from_dictionary d = Ok self <->
  exists data mdata b loaded,
    d !! "MODEL_DATA" = Some (VDict data) /\
    data !! "METADATA" = Some (VDict mdata) /\
    data !! "MODEL" = Some (VBytes b) /\
    pickle_loads b = Ok loaded /\
    self = {| randomForestModel._task := get mdata "TASK" VNone;
              randomForestModel._config := get mdata "CONFIG" VNone;
              randomForestModel._predicted_name :=
                get mdata "PREDICTED_NAME" VNone;
              randomForestModel._criterion := Unset;
              randomForestModel._model := loaded;
              randomForestModel._model_score := Unset |}.
Proof.
  unfold randomForestModel._init_from_dictionary, dict_get, get. split.
  - destruct (d !! "MODEL_DATA") as [[| | | | | |data]|] eqn:Hd;
      try discriminate.
    destruct (data !! "METADATA") as [[| | | | | |mdata]|] eqn:Hm;
      try discriminate.
    destruct (data !! "MODEL") as [[| | | | |b|]|] eqn:Hb; try discriminate.
    destruct (pickle_loads b) as [loaded|] eqn:Hl; [|discriminate].
    intros E. injection E as <-.
    exists data, mdata, b, loaded. repeat split; assumption.
  - intros (data & mdata & b & loaded & Hd & Hm & Hb & Hl & ->).
    rewrite Hd, Hm, Hb, Hl. reflexivity.
Qed.

Lemma init_from_dictionary_returns_exactly_when_witness :
  exists data mdata b loaded,
    samples.encoded_forest !! "MODEL_DATA" = Some (VDict data) /\
    data !! "METADATA" = Some (VDict mdata) /\
    data !! "MODEL" = Some (VBytes b) /\
    pickle_loads (Collaborators := samples.toy) b = Ok loaded /\
    samples.reloaded_forest
    = {| randomForestModel._task := get mdata "TASK" VNone;
         randomForestModel._config := get mdata "CONFIG" VNone;
         randomForestModel._predicted_name := get mdata "PREDICTED_NAME" VNone;
         randomForestModel._criterion := Unset;
         randomForestModel._model := loaded;
         randomForestModel._model_score := Unset |}.
Proof.
  apply (proj1 (init_from_dictionary_returns_exactly_when (H := samples.toy)
                  samples.encoded_forest samples.reloaded_forest)).
  vm_compute. reflexivity.
Defined.

(** ** evolutionaryModel.py: what a search keeps *)

Lemma triple_stateless {S A} (m : ST S A) (P R : S -> Prop) :
  (forall s, snd (m s) = s) -> (forall s, P s -> R s) ->
  runs.triple P m (fun _ s => P s) R.
Proof.
  intros Hm HR s Hs. specialize (Hm s).
  destruct (m s) as [[a|e] s']; simpl in Hm; subst s'; auto.
Qed.

Section SearchInvariants.
Import abstractModel evolutionaryModel runs.
Context `{Collaborators} {W Pop Chrom Model : Type}.
Context `{!AbstractModel Model} `{!Engine W Pop Chrom Model}.

Abbreviation search_model :=
  (EvolutionaryModel (Pop := Pop) (Model := Model)).

Lemma the_population_state (st : search_model * W) :
  snd (the_population st) = st.
Proof.
  destruct st as [self w].
  unfold the_population, bind, get_self, on_fst, read, lift, ret, raise.
  simpl. destruct (getattr (_population self)) as [[p|]|]; reflexivity.
Qed.

Variables I K J R : search_model -> Prop.
Hypothesis I_R : forall self, I self -> R self.
Hypothesis K_R : forall self, K self -> R self.
Hypothesis J_R : forall self, J self -> R self.
Hypothesis J_I : forall self, J self -> I self.
Hypothesis I_record :
  forall self score,
    I self ->
    match getattr (_model_score self) with
    | Ok best =>
        if overwrites best score then K (set_model_score self score)
        else J self
    | Raise _ => True
    end.
Hypothesis K_model : forall self m, K self -> J (set_model self m).

(** Running a step that leaves the model alone, under [P]. *)
Ltac keep P :=
  eapply (triple_bind _ _ _ (fun _ st => P (fst st)));
  [ first
      [ apply (triple_stateless _ (fun st => P (fst st)));
        [apply the_population_state | simpl; auto]
      | eapply triple_weaken; [apply (triple_on_snd _ P) | | |]; simpl; auto ]
  | ].

Lemma triple_epoch (X Y : DataFrame) (time : Q) (validation : value) :
  triple (fun st => I (fst st)) (epoch X Y time validation)
    (fun _ st => J (fst st)) (fun st => R (fst st)).
Proof.
  unfold epoch.
  keep I. intros p1. keep I. intros mother.
  keep I. intros p2. keep I. intros father.
  keep I. intros p3. keep I. intros offspring.
  keep I. intros p4. keep I. intros offspringm.
  eapply triple_bind; [apply triple_get_self|]. intros self.
  eapply (triple_bind _ _ _ (fun _ st => I (fst st))).
  { apply triple_lift; [intros a st _ [_ Hst]; exact Hst
                       | intros st [_ Hst]; apply I_R, Hst]. }
  intros criterion.
  keep I. intros score.
  eapply triple_bind; [apply triple_get_self|]. intros self1.
  eapply (triple_bind _ _ _
            (fun best st => self1 = fst st /\ I self1 /\
                            getattr (_model_score self1) = Ok best)).
  { apply triple_lift.
    - intros best st Hb [-> HI]. repeat split; assumption.
    - intros st [_ HI]. apply I_R, HI. }
  intros best.
  eapply (triple_bind _ _ _ (fun _ st => J (fst st))).
  { destruct (overwrites best score) eqn:Ho.
    - eapply triple_bind; [apply triple_get_self|]. intros self2.
      eapply (triple_bind _ _ _ (fun _ st => K (fst st))).
      { apply triple_set_self. intros st [-> (<- & HI & Hb)]. simpl.
        pose proof (I_record self1 score HI) as Hr.
        rewrite Hb, Ho in Hr. exact Hr. }
      intros [].
      eapply (triple_bind _ _ _ (fun _ st => K (fst st))).
      { eapply triple_weaken; [apply (triple_on_snd _ K) | | |]; simpl; auto. }
      intros m. simpl.
      eapply triple_bind; [apply triple_get_self|]. intros self3.
      apply triple_set_self. intros st [-> HK]. simpl. apply K_model, HK.
    - apply triple_ret. intros st (-> & HI & Hb).
      pose proof (I_record (fst st) score HI) as Hr.
      rewrite Hb, Ho in Hr. exact Hr. }
  intros [].
  keep J. intros p5.
  eapply triple_weaken; [apply (triple_on_snd _ J) | | |]; simpl; auto.
Qed.

Lemma triple_epochs_from_J (n : nat) (X Y : DataFrame) (time : Q)
    (validation : value) :
  triple (fun st => J (fst st)) (epochs_loop n X Y time validation)
    (fun _ st => J (fst st)) (fun st => R (fst st)).
Proof.
  induction n as [|n IH]; simpl.
  - apply triple_ret. auto.
  - eapply (triple_bind _ _ _ (fun _ st => J (fst st)));
      [|intros []; exact IH].
    eapply triple_weaken; [apply triple_epoch | | |]; simpl; auto.
Qed.

Lemma triple_epochs_loop (n : nat) (X Y : DataFrame) (time : Q)
    (validation : value) :
  triple (fun st => I (fst st)) (epochs_loop (S n) X Y time validation)
    (fun _ st => J (fst st)) (fun st => R (fst st)).
Proof.
  simpl. eapply triple_bind; [apply triple_epoch|].
  intros []. apply triple_epochs_from_J.
Qed.

Hypothesis I_task : forall self v, I self -> I (set_task self v).
Hypothesis I_population : forall self p, I self -> I (set_population self p).
Hypothesis I_predicted_name :
  forall self v, I self -> I (set_predicted_name self v).
Hypothesis J_model : forall self m, J self -> J (set_model self m).

Lemma triple_search_train (X Y : DataFrame) (time : Q) (validation : value) :
  triple (fun st => I (fst st)) (train X Y time validation)
    (fun _ st => J (fst st)) (fun st => R (fst st)).
Proof.
  unfold train.
  eapply triple_bind; [apply triple_get_self|]. intros self.
  eapply (triple_bind _ _ _ (fun _ st => self = fst st /\ I (fst st))).
  { destruct (negb (in_available_tasks (_task self))).
    - apply triple_ret. auto.
    - eapply triple_bind.
      + apply (triple_lift _ _ (fun _ st => self = fst st /\ I (fst st))).
        * intros a st _ Hst. exact Hst.
        * intros st [_ HI]. apply I_R, HI.
      + intros p. apply triple_ret. auto. }
  intros undefined.
  eapply (triple_bind _ _ _ (fun _ st => I (fst st))).
  { destruct undefined.
    - eapply triple_bind.
      { apply (triple_lift _ _ (fun _ st => self = fst st /\ I (fst st))).
        - intros a st _ Hst. exact Hst.
        - intros st [_ HI]. apply I_R, HI. }
      intros t.
      eapply (triple_bind _ _ _ (fun _ st => I (fst st))).
      { apply triple_set_self. intros st [-> HI]. simpl. apply I_task, HI. }
      intros [].
      eapply triple_bind; [apply triple_get_self|]. intros self1.
      eapply (triple_bind _ _ _ (fun _ st => I (fst st))).
      { eapply triple_weaken; [apply (triple_on_snd _ I) | | |]; simpl; auto.
        intros st [_ HI]. exact HI. }
      intros p. simpl.
      eapply triple_bind; [apply triple_get_self|]. intros self2.
      apply triple_set_self. intros st [-> HI]. simpl.
      apply I_population, HI.
    - apply triple_ret. intros st [_ HI]. exact HI. }
  intros [].
  eapply triple_bind; [apply triple_get_self|]. intros self3.
  eapply (triple_bind _ _ _ (fun _ st => I (fst st))).
  { destruct (is_none (_predicted_name self3)).
    - apply triple_set_self. intros st [-> HI]. simpl.
      apply I_predicted_name, HI.
    - apply triple_ret. intros st [_ HI]. exact HI. }
  intros [].
  keep I. intros p.
  eapply triple_bind; [apply triple_get_self|]. intros self4.
  eapply (triple_bind _ _ _ (fun _ st => I (fst st))).
  { apply triple_lift; [intros a st _ [_ Hst]; exact Hst
                       | intros st [_ Hst]; apply I_R, Hst]. }
  intros criterion.
  keep I. intros [].
  eapply triple_bind; [apply (triple_epochs_loop 99)|]. intros [].
  keep J. intros p'.
  keep J. intros best.
  keep J. intros m.
  eapply triple_bind; [apply triple_get_self|]. intros self5.
  eapply (triple_bind _ _ _ (fun _ st => J (fst st))).
  { apply triple_set_self. intros st [-> HJ]. simpl. apply J_model, HJ. }
  intros [].
  keep J. intros m'.
  eapply triple_bind; [apply triple_get_self|]. intros self6.
  eapply (triple_bind _ _ _ (fun _ st => J (fst st))).
  { apply triple_set_self. intros st [-> HJ]. simpl. apply J_model, HJ. }
  intros []. apply triple_ret. auto.
Qed.

End SearchInvariants.

(** X20. Through a search, whether [train] returns or raises, a recorded
    best score is only ever replaced by a smaller one, whatever the task
    is: the score [train] leaves is at most the score it found. *)
Theorem recorded_score_never_increases `{Collaborators}
    {W Pop Chrom Model : Type} {A : abstractModel.AbstractModel Model}
    {E : evolutionaryModel.Engine W Pop Chrom Model}
    (X Y : DataFrame) (time : Q) (validation : value)
    (self : evolutionaryModel.EvolutionaryModel (Pop := Pop) (Model := Model))
    (w : W) (b : Q) :
  evolutionaryModel._model_score self = Assigned (Some b) ->
  exists b',
    evolutionaryModel._model_score
      (fst (snd (evolutionaryModel.train X Y time validation (self, w))))
    = Assigned (Some b') /\ (b' <= b)%Q.
Proof.
  intros Hb.
  set (Inv := fun self' : evolutionaryModel.EvolutionaryModel
                            (Pop := Pop) (Model := Model) =>
                exists b', evolutionaryModel._model_score self'
                           = Assigned (Some b') /\ (b' <= b)%Q).
  assert (Ht : runs.triple (fun st => Inv (fst st))
                 (evolutionaryModel.train X Y time validation)
                 (fun _ st => Inv (fst st)) (fun st => Inv (fst st))).
  { apply (triple_search_train Inv Inv Inv Inv); auto.
    intros self' score (b' & Hs & Hle). rewrite Hs. simpl.
    destruct (Qltb score b') eqn:Eq.
    - exists score. split; [reflexivity|]. apply Qltb_lt in Eq. lra.
    - exists b'. split; assumption. }
  specialize (Ht (self, w)). simpl in Ht.
  assert (Hi : Inv self) by (exists b; split; [exact Hb | lra]).
  specialize (Ht Hi).
  destruct (evolutionaryModel.train X Y time validation (self, w))
    as [[r|e] st']; exact Ht.
Qed.

Lemma recorded_score_never_increases_witness :
  exists b',
    evolutionaryModel._model_score
      (fst (snd (evolutionaryModel.train (Engine0 := samples.toy_engine)
                   samples.features samples.targets 600 VNone
                   (evolutionaryModel.set_model_score samples.fresh_search
                      (7 # 10), 0%nat))))
    = Assigned (Some b') /\ (b' <= 7 # 10)%Q.
Proof.
  apply (recorded_score_never_increases (A := samples.toy_candidate)
           (E := samples.toy_engine)
           samples.features samples.targets 600 VNone
           (evolutionaryModel.set_model_score samples.fresh_search (7 # 10))
           0%nat (7 # 10)).
  reflexivity.
Defined.

Lemma search_init_from_dictionary_score_unset `{Collaborators}
    {Pop Model : Type} {A : abstractModel.AbstractModel Model}
    (registry : gmap string (value -> result Model))
    (d : gmap string value)
    (self : evolutionaryModel.EvolutionaryModel (Pop := Pop)) :
  evolutionaryModel._init_from_dictionary registry d = Ok self ->
  evolutionaryModel._model_score self = Unset.
Proof.
  unfold evolutionaryModel._init_from_dictionary.
  repeat match goal with
         | |- context [match ?x with _ => _ end] =>
             destruct x; try discriminate
         end;
    intros E; injection E as <-; reflexivity.
Qed.

(** X21. An evolutionary model built from a dictionary cannot be trained:
    [_init_from_dictionary] never assigns [_model_score], so every call of
    [train] on such a model raises, whatever the data and the population
    do. *)
Theorem search_train_raises_on_a_reconstructed_model `{Collaborators}
    {W Pop Chrom Model : Type} {A : abstractModel.AbstractModel Model}
    {E : evolutionaryModel.Engine W Pop Chrom Model}
    (registry : gmap string (value -> result Model))
    (d : gmap string value)
    (self : evolutionaryModel.EvolutionaryModel (Pop := Pop) (Model := Model))
    (X Y : DataFrame) (time : Q) (validation : value) (w : W) :
  evolutionaryModel._init_from_dictionary registry d = Ok self ->
  forall m, fst (evolutionaryModel.train X Y time validation (self, w))
            <> Ok m.
Proof.
  intros Hd m Hm. apply search_init_from_dictionary_score_unset in Hd.
  assert (Ht : runs.triple
                 (fun st => evolutionaryModel._model_score (fst st) = Unset)
                 (evolutionaryModel.train X Y time validation)
                 (fun _ _ => False) (fun _ => True)).
  { apply (triple_search_train
             (fun self' => evolutionaryModel._model_score self' = Unset)
             (fun _ => False) (fun _ => False) (fun _ => True)); auto.
    - intros self' Hf. contradiction.
    - intros self' score Hs. rewrite Hs. exact I. }
  specialize (Ht (self, w) Hd).
  destruct (evolutionaryModel.train X Y time validation (self, w))
    as [[a|e] st']; [exact Ht | discriminate Hm].
Qed.

Lemma search_train_raises_on_a_reconstructed_model_witness :
  evolutionaryModel._init_from_dictionary
    samples.toy_registry samples.encoded_search = Ok samples.reloaded_search /\
  fst (evolutionaryModel.train (Engine0 := samples.toy_engine)
         samples.features samples.targets 600 VNone
         (samples.reloaded_search, 0%nat)) <> Ok 1%nat.
Proof.
  assert (Hd : evolutionaryModel._init_from_dictionary
                 samples.toy_registry samples.encoded_search
               = Ok samples.reloaded_search) by (vm_compute; reflexivity).
  split; [exact Hd|].
  apply (search_train_raises_on_a_reconstructed_model
           (A := samples.toy_candidate)
           (E := samples.toy_engine) samples.toy_registry
           samples.encoded_search samples.reloaded_search samples.features
           samples.targets 600 VNone 0%nat Hd).
Defined.

(** X22. When [train] of the evolutionary model returns a candidate, that
    candidate is the one the model holds afterwards, and later predictions
    are the candidate's own. *)
Theorem search_train_returning_stores_the_candidate `{Collaborators}
    {W Pop Chrom Model : Type} {A : abstractModel.AbstractModel Model}
    {E : evolutionaryModel.Engine W Pop Chrom Model}
    (X Y : DataFrame) (time : Q) (validation : value)
    (st st' : evolutionaryModel.EvolutionaryModel (Pop := Pop) (Model := Model)
              * W)
    (m : Model) :
  evolutionaryModel.train X Y time validation st = (Ok m, st') ->
  evolutionaryModel._model (fst st') = Some m /\
  forall X', evolutionaryModel.predict X' (fst st')
             = (abstractModel.predict m X', fst st').
Proof.
  intros Ht. unfold evolutionaryModel.train in Ht.
  split_run Ht.
  apply ret_Ok in Ht as [-> ->].
  match goal with
  | Hs : evolutionaryModel.set_self (evolutionaryModel.set_model _ m) ?s
         = (Ok _, ?s') |- _ =>
      unfold evolutionaryModel.set_self, on_fst, write in Hs;
      destruct s as [self0 w0]; destruct s' as [self' w'];
      simpl in Hs; injection Hs as _ <- _
  end.
  split; [reflexivity|].
  intros X'. reflexivity.
Qed.

Lemma search_train_returning_stores_the_candidate_witness :
  exists m st',
    evolutionaryModel.train (Engine0 := samples.toy_engine)
      samples.features samples.targets 600 VNone (samples.fresh_search, 0%nat)
    = (Ok m, st') /\
    evolutionaryModel._model (fst st') = Some m /\
    forall X',
      evolutionaryModel.predict (H := samples.toy)
        (AbstractModel0 := samples.toy_candidate) X' (fst st')
      = (abstractModel.predict (AbstractModel := samples.toy_candidate) m X',
         fst st').
Proof.
  pose proof (search_train_returning_stores_the_candidate
                (A := samples.toy_candidate) (E := samples.toy_engine)
                samples.features samples.targets 600 VNone
                (samples.fresh_search, 0%nat)) as Hthm.
  remember (evolutionaryModel.train (Engine0 := samples.toy_engine)
              samples.features samples.targets 600 VNone
              (samples.fresh_search, 0%nat)) as r eqn:Hr.
  vm_compute in Hr. subst r.
  eexists _, _. split; [reflexivity|]. apply Hthm. reflexivity.
Defined.

(** X23. Given the dictionary that encodes a trained evolutionary model,
    the constructor ignores its other arguments and restores the five
    metadata attributes as they were; the candidate is what [load_model]
    makes of its encoding, and neither the population nor the best score is
    assigned. *)
Theorem search_constructor_restores_the_metadata `{Collaborators}
    {W Pop Chrom Model : Type} {A : abstractModel.AbstractModel Model}
    {E : evolutionaryModel.Engine W Pop Chrom Model}
    (registry : gmap string (value -> result Model))
    (self : evolutionaryModel.EvolutionaryModel (Pop := Pop) (Model := Model))
    (inner inner' : Model)
    (in_size out_size task config predicted_name : value) (w : W) :
  evolutionaryModel._model self = Some inner ->
  evolutionaryModel.load_model registry (abstractModel.to_dict inner)
  = Ok inner' ->
  evolutionaryModel.__init__ registry in_size out_size task config
    predicted_name (evolutionaryModel.to_dict self) w
  = (Ok {| evolutionaryModel._predicted_name :=
             evolutionaryModel._predicted_name self;
           evolutionaryModel._task := evolutionaryModel._task self;
           evolutionaryModel._config := evolutionaryModel._config self;
           evolutionaryModel._input_size :=
             evolutionaryModel._input_size self;
           evolutionaryModel._output_size :=
             evolutionaryModel._output_size self;
           evolutionaryModel._population := Unset;
           evolutionaryModel._model := Some inner';
           evolutionaryModel._model_score := Unset |}, w).
Proof.
  intros Hm Hload.
  unfold evolutionaryModel.__init__, evolutionaryModel.to_dict,
    evolutionaryModel._init_from_dictionary, dict_get, get, lift.
  rewrite Hm.
  repeat (first [ rewrite lookup_insert_eq
                | rewrite lookup_insert_ne by discriminate ]; simpl).
  rewrite Hload. reflexivity.
Qed.

Lemma search_constructor_restores_the_metadata_witness :
  evolutionaryModel.__init__ (Engine0 := samples.toy_engine)
    samples.toy_registry
    (VInt 7) (VInt 7) (VStr REGRESSION) VNone VNone
    (evolutionaryModel.to_dict (AbstractModel0 := samples.tagged_candidate)
       (evolutionaryModel.set_model samples.fresh_search 3%nat)) 0%nat
  = (Ok {| evolutionaryModel._predicted_name := VNone;
           evolutionaryModel._task := VStr CLASSIFICATION;
           evolutionaryModel._config := VDict ∅;
           evolutionaryModel._input_size := VInt 1;
           evolutionaryModel._output_size := VInt 1;
           evolutionaryModel._population := Unset;
           evolutionaryModel._model := Some 5%nat;
           evolutionaryModel._model_score := Unset |}, 0%nat).
Proof.
  apply (search_constructor_restores_the_metadata
           (A := samples.tagged_candidate) (E := samples.toy_engine)
           samples.toy_registry
           (evolutionaryModel.set_model samples.fresh_search 3%nat)
           3%nat 5%nat).
  - reflexivity.
  - vm_compute. reflexivity.
Defined.

(** ** model_creation.py: the sampled rates *)

Lemma random_unit_interval (g g' : rng) (u : Q) :
  Random.random g = (Ok u, g') -> (0 <= u < 1)%Q.
Proof.
  unfold Random.random. intros E.
  apply bind_Ok in E as (r & g1 & _ & E). apply ret_Ok in E as [<- _].
  assert (Hlt : (r mod 2 ^ 53 < 2 ^ 53)%N) by (apply N.mod_lt; discriminate).
  apply N2Z.inj_lt in Hlt.
  change (Z.of_N (2 ^ 53)) with (Z.pos (2 ^ 53)) in Hlt.
  pose proof (N2Z.is_nonneg (r mod 2 ^ 53)) as Hge.
  unfold Qle, Qlt. cbn [Qnum Qden].
  revert Hlt Hge. generalize (Z.of_N (r mod 2 ^ 53)), (Z.pos (2 ^ 53)).
  intros k d Hlt Hge. lia.
Qed.

Lemma uniform_between (a b : Q) (g g' : rng) (x : Q) :
  Random.uniform a b g = (Ok x, g') ->
  (a <= x <= b)%Q \/ (b <= x <= a)%Q.
Proof.
  unfold Random.uniform. intros E.
  apply bind_Ok in E as (u & g1 & Eu & E). apply ret_Ok in E as [<- _].
  apply random_unit_interval in Eu as [H0 H1].
  destruct (Qlt_le_dec b a) as [Hba | Hab].
  - assert (0 <= (a - b) * u)%Q by (apply Qmult_le_0_compat; lra).
    assert (0 <= (a - b) * (1 - u))%Q by (apply Qmult_le_0_compat; lra).
    right. split; lra.
  - assert (0 <= (b - a) * u)%Q by (apply Qmult_le_0_compat; lra).
    assert (0 <= (b - a) * (1 - u))%Q by (apply Qmult_le_0_compat; lra).
    left. split; lra.
Qed.

Lemma uniform_star_between (v : pyval) (g g' : rng) (x : Q) :
  model_creation.uniform_star v g = (Ok x, g') ->
  exists a b lo hi,
    v = PList [a; b] /\
    model_creation.as_number a = Ok lo /\
    model_creation.as_number b = Ok hi /\
    ((lo <= x <= hi)%Q \/ (hi <= x <= lo)%Q).
Proof.
  unfold model_creation.uniform_star. intros E.
  destruct v as [| | | | l]; try discriminate E.
  destruct l as [|a [|b [|c l]]]; try discriminate E.
  apply bind_Ok in E as (lo & g1 & Ea & E). apply lift_Ok in Ea as [Ea ->].
  apply bind_Ok in E as (hi & g2 & Eb & E). apply lift_Ok in Eb as [Eb ->].
  exists a, b, lo, hi. repeat split; try assumption.
  eapply uniform_between, E.
Qed.

(** X24. Whenever [create_deep_learning_model] returns, the learning rate,
    the momentum and the dropout of the configuration it builds are floats
    that lie between the two numbers of their ranges in the search space
    (the defaults are [1e-6, 1], [0, 1] and [0, 1]), whichever of the two
    is the larger; floats are taken as rationals. *)
Theorem sampled_rates_within_declared_ranges
    (in_size out_size : Z) (config : gmap string pyval) (task : string)
    (criterion : entry) (g g' : rng) (m : model_creation.DeepLearningModel) :
  model_creation.create_deep_learning_model in_size out_size config task
    criterion g = (Ok m, g') ->
  runs.drawn_between
    (get config "LEARNING_RATE_RANGE" (PList [PFloat (1 # 1000000); PInt 1]))
    (model_creation.dl_config m !! "LEARNING_RATE") /\
  runs.drawn_between
    (get config "MOMENTUM_RANGE" (PList [PInt 0; PInt 1]))
    (model_creation.dl_config m !! "MOMENTUM") /\
  runs.drawn_between
    (get config "DROPOUT_RANGE" (PList [PInt 0; PInt 1]))
    (model_creation.dl_config m !! "DROPOUT").
Proof.
  intros E. unfold model_creation.create_deep_learning_model in E.
  apply bind_Ok in E as (optimizer & g1 & _ & E).
  apply bind_Ok in E as (learning_rate & g2 & Elr & E).
  apply bind_Ok in E as (momentum & g3 & Emo & E).
  apply bind_Ok in E as (layer_choice & g4 & _ & E).
  apply bind_Ok in E as (layers & g5 & _ & E).
  apply bind_Ok in E as (activation_choice & g6 & _ & E).
  apply bind_Ok in E as (sampled & g7 & _ & E).
  apply bind_Ok in E as (activation & g8 & _ & E).
  apply bind_Ok in E as (dropout & g9 & Edr & E).
  apply ret_Ok in E as [<- _]. cbn [model_creation.dl_config].
  apply uniform_star_between in Elr as (a1 & b1 & lo1 & hi1 & R1 & A1 & B1 & I1).
  apply uniform_star_between in Emo as (a2 & b2 & lo2 & hi2 & R2 & A2 & B2 & I2).
  apply uniform_star_between in Edr as (a3 & b3 & lo3 & hi3 & R3 & A3 & B3 & I3).
  repeat split.
  - exists a1, b1, lo1, hi1, learning_rate.
    rewrite !lookup_insert_ne by discriminate. rewrite lookup_insert_eq.
    repeat split; assumption.
  - exists a2, b2, lo2, hi2, momentum.
    rewrite !lookup_insert_ne by discriminate. rewrite lookup_insert_eq.
    repeat split; assumption.
  - exists a3, b3, lo3, hi3, dropout.
    rewrite !lookup_insert_ne by discriminate. rewrite lookup_insert_eq.
    repeat split; assumption.
Qed.

Lemma sampled_rates_within_declared_ranges_witness :
  exists m g',
    model_creation.create_deep_learning_model 4 1 ∅ REGRESSION
      (Val (PStr "MSE")) (samples.constant_rng 1) = (Ok m, g') /\
    runs.drawn_between (PList [PFloat (1 # 1000000); PInt 1])
      (model_creation.dl_config m !! "LEARNING_RATE") /\
    runs.drawn_between (PList [PInt 0; PInt 1])
      (model_creation.dl_config m !! "MOMENTUM") /\
    runs.drawn_between (PList [PInt 0; PInt 1])
      (model_creation.dl_config m !! "DROPOUT").
Proof.
  pose proof (sampled_rates_within_declared_ranges 4 1 ∅ REGRESSION
                (Val (PStr "MSE")) (samples.constant_rng 1)) as Hthm.
  remember (model_creation.create_deep_learning_model 4 1 ∅ REGRESSION
              (Val (PStr "MSE")) (samples.constant_rng 1)) as r eqn:Hr.
  vm_compute in Hr. subst r.
  eexists _, _. split; [reflexivity|]. eapply Hthm. reflexivity.
Defined.

(** ** model_creation.py: an empty range of widths *)

(** X25. A search space whose layer choices all give a lower bound of the
    widths above the upper bound yields no model: with the optimizer and
    the two first ranges left to their defaults, every call of
    [create_deep_learning_model] raises [ValueError], whatever the random
    draws are. *)
Theorem reversed_width_bounds_raise_ValueError
    (in_size out_size : Z) (config : gmap string pyval) (task : string)
    (criterion : entry) (choices : list pyval) (g : rng) :
  config !! "OPTIMIZER_CHOICE" = None ->
  config !! "LEARNING_RATE_RANGE" = None ->
  config !! "MOMENTUM_RANGE" = None ->
  config !! "HIDDEN_LAYERS_CHOICES" = Some (PList choices) ->
  choices <> [] ->
  Forall (fun c => exists lo hi n rest,
                     c = PList (PInt lo :: PInt hi :: PInt n :: rest) /\
                     hi < lo) choices ->
  fst (model_creation.create_deep_learning_model in_size out_size config task
         criterion g)
  = Raise ValueError.
Proof.
  intros Hopt Hlr Hmo Hlc Hne Hall.
  unfold model_creation.create_deep_learning_model, get.
  rewrite Hopt, Hlr, Hmo, Hlc.
  destruct (succeeds_choice_list [PStr "Adam"; PStr "SGD"]
              ltac:(discriminate) g) as (optimizer & g1 & E1 & _).
  rewrite (bind_eq_Ok _ _ _ _ _ E1).
  destruct (succeeds_uniform_star (PFloat (1 # 1000000)) (PInt 1) _ _
              eq_refl eq_refl g1) as (learning_rate & g2 & E2 & _).
  rewrite (bind_eq_Ok _ _ _ _ _ E2).
  destruct (succeeds_uniform_star (PInt 0) (PInt 1) _ _ eq_refl eq_refl g2)
    as (momentum & g3 & E3 & _).
  rewrite (bind_eq_Ok _ _ _ _ _ E3).
  destruct (succeeds_choice_list choices Hne g3)
    as (layer_choice & g4 & E4 & Hin).
  change (Random.choice (PList choices)) with (Random.choice_list choices).
  rewrite (bind_eq_Ok _ _ _ _ _ E4).
  rewrite Forall_forall in Hall.
  destruct (Hall _ Hin) as (lo & hi & n & rest & -> & Hlt).
  set (top := if n <? 1 then 1 else n).
  assert (Htop : 1 <= top) by (unfold top; destruct (n <? 1) eqn:En; lia).
  destruct (succeeds_randint_ 1 top Htop g4) as (layer_count & g5 & E5 & _).
  pose proof (randint__range _ _ _ _ _ E5)
    as (stop & one & istop & _ & Hone & _ & Hcount).
  injection Hone as <-.
  erewrite bind_eq_Raise; [reflexivity|].
  cbn [model_creation.subscript lookup list_lookup].
  unfold lift at 1. unfold bind at 1.
  assert (Hmax : model_creation.max_one (PInt n) = Ok (PInt top)).
  { unfold model_creation.max_one, top. destruct (n <? 1); reflexivity. }
  rewrite Hmax. unfold lift at 1. unfold bind at 1.
  rewrite (bind_eq_Ok _ _ _ _ _ E5).
  destruct (Z.to_nat layer_count) as [|k] eqn:Hk; [lia|].
  cbn [model_creation.comprehension].
  apply bind_eq_Raise. apply bind_eq_Raise.
  unfold model_creation.randint_, bind, lift.
  cbn [model_creation.as_int model_creation.plus_one].
  unfold Random.randint.
  assert (Hlt' : (hi + 1 - 1 <? lo) = true) by (apply Z.ltb_lt; lia).
  rewrite Hlt'. reflexivity.
Qed.

Lemma reversed_width_bounds_raise_ValueError_witness :
  fst (model_creation.create_deep_learning_model 4 1
         (<["HIDDEN_LAYERS_CHOICES" :=
              PList [PList [PInt 512; PInt 10; PInt 6]]]> ∅)
         REGRESSION (Val (PStr "MSE")) (samples.constant_rng 1))
  = Raise ValueError.
Proof.
  apply (reversed_width_bounds_raise_ValueError 4 1 _ REGRESSION
           (Val (PStr "MSE")) [PList [PInt 512; PInt 10; PInt 6]]).
  - reflexivity.
  - reflexivity.
  - reflexivity.
  - reflexivity.
  - discriminate.
  - constructor; [|constructor].
    exists 512, 10, 6, []. split; [reflexivity | lia].
Defined.
